(** * Verification of the Snowflake dual-warehouse pipeline orchestrator

    A shallow embedding of [src/python/pipeline_orchestrator.py]
    (class [SnowflakePipelineOrchestrator]).  Every method is a computation in
    a state-and-exception monad over the session of the query executor
    (the connector's cursor), which is an interface: the orchestrator is
    verified against every implementation of it, and a reference warehouse
    that interprets the statements the orchestrator issues is given as one
    instance.

    Conventions.
    - [logger] calls are left out: they do not touch the cursor and they sit
      outside the core of the orchestrator.
    - A Python exception is represented by its text, [str(e)].  Only
      exceptions deriving from [Exception] are modelled, the ones
      [except Exception] catches.
    - A SQL statement is represented by its syntax tree; the constants of
      the statement text in the source are kept as arguments. *)

From Stdlib Require Import ZArith Ascii DecimalString.
From stdpp Require Import base option list strings gmap sorting.

(** ** Python results *)

Definition Err : Type := string.

Inductive Result (A : Type) : Type :=
| Ok (a : A)
| Raise (e : Err).
Arguments Ok {A} a.
Arguments Raise {A} e.

(** ** Values exchanged with the warehouse *)

(** A NUMBER column with a fixed scale, as its unscaled integer. *)
Definition Decimal : Type := Z.

(** [float(d)] for a decimal [d]: the binary64 nearest to [d], kept symbolic
    (rounding is not modelled, no property below depends on it). *)
Inductive PyFloat : Type := float_of_decimal (d : Decimal).

(** [float(x)] where [x] is a nullable NUMBER cell: [float(None)] raises
    [TypeError]. *)
Definition py_float (x : option Decimal) : Result PyFloat :=
  match x with
  | Some d => Ok (float_of_decimal d)
  | None => Raise "float() argument must be a string or a real number, not 'NoneType'"
  end.

(** [str(n)] for a Python int. *)
Definition str_of_nat (n : nat) : string := NilEmpty.string_of_uint (Nat.to_uint n).
Definition str_of_Z (z : Z) : string := NilZero.string_of_int (Z.to_int z).

(** The dict built per stream by [check_stream_status] (lines 77-82). *)
Record StreamInfo : Type := {
  stream_name : string;
  table_name : string;
  is_stale : bool;
  stale_after : Z
}.

(** The dict built per warehouse by [get_warehouse_costs] (lines 195-198). *)
Record CostEntry : Type := {
  credits : PyFloat;
  queries : Z
}.

(** Result rows, as the tuples the cursor yields. *)
Definition StreamRow : Type := string * string * bool * Z.
Definition DynamicTableRow : Type := string * string * string * Z.
Definition CostRow : Type := string * option Decimal * Z.

(** ** Statements *)

Inductive Stmt : Type :=
| SelectStreams (schema_name : string)
    (* SELECT stream_name, table_name, stale, stale_after
       FROM INFORMATION_SCHEMA.STREAMS
       WHERE schema_name = <schema_name> ORDER BY stream_name *)
| SelectCount (schema_name object_name : string)
    (* SELECT COUNT( * ) FROM <schema_name>.<object_name> *)
| UseWarehouse (warehouse : string)
    (* USE WAREHOUSE <warehouse> *)
| SelectDynamicTable (name schema_name : string)
    (* SELECT name, target_lag, refresh_mode, last_refresh_time
       FROM INFORMATION_SCHEMA.DYNAMIC_TABLES
       WHERE name = <name> AND schema_name = <schema_name> *)
| TruncateTable (table : string)
    (* TRUNCATE TABLE <table> *)
| InsertSelectWhereOpNe (dst src op : string)
    (* INSERT INTO <dst> SELECT * FROM <src> WHERE _cdc_operation != <op> *)
| SelectWarehouseCosts (days : Z) (warehouses : list string)
    (* SELECT warehouse_name, SUM(credits_used), COUNT( * )
       FROM SNOWFLAKE.ACCOUNT_USAGE.WAREHOUSE_METERING_HISTORY
       WHERE start_time >= DATEADD(day, -<days>, CURRENT_TIMESTAMP())
       AND warehouse_name IN <warehouses> GROUP BY warehouse_name *)
| InsertAudit (query_text database_name schema_name execution_status : string)
    (* INSERT INTO AUDIT.ACCESS_LOG (user_name, role_name, query_text,
         database_name, schema_name, execution_status)
       VALUES (CURRENT_USER(), CURRENT_ROLE(), <query_text>,
         <database_name>, <schema_name>, <execution_status>) *).

Global Instance Stmt_eq_dec : EqDecision Stmt.
Proof. solve_decision. Defined.

(** The row type of a statement's result set, fixed by its select list. *)
Definition Rows (q : Stmt) : Type :=
  match q with
  | SelectStreams _ => StreamRow
  | SelectCount _ _ => Z
  | SelectDynamicTable _ _ => DynamicTableRow
  | SelectWarehouseCosts _ _ => CostRow
  | UseWarehouse _ | TruncateTable _ | InsertSelectWhereOpNe _ _ _
  | InsertAudit _ _ _ _ => unit
  end.

(** What [cursor.execute] leaves in the cursor: the rows that can be fetched
    and, possibly, an error raised by the fetch that follows them. *)
Record Cursor (A : Type) : Type := {
  fetched : list A;
  fetch_error : option Err
}.
Arguments fetched {A} c.
Arguments fetch_error {A} c.

(** ** The collaborators *)

(** The query executor: [cursor.execute(statement)] either raises or returns
    a result set, and changes the session. *)
Class QueryExecutor (W : Type) : Type :=
  execute : ∀ q : Stmt, W → Result (Cursor (Rows q)) * W.

(** What the Python runtime provides and is not computed here: the clock
    ([datetime.now()], in microseconds), [json.dumps] of the cost mapping and
    the rendering [f"{d:.2f}"] of a duration. *)
Class PyRuntime (W : Type) : Type := {
  now : W → Z;
  json_dumps : gmap string CostEntry → string;
  format_2f : Z → string
}.

(** The [config] dict of [main] (lines 280-289); the credentials are read from
    the environment and play no role. *)
Record Config : Type := {
  database : string;
  schema : string;
  init_warehouse : string;
  cdc_warehouse : string;
  interactive_warehouse : string
}.

Definition main_config : Config := {|
  database := "CLINICAL_DATA_PIPELINE";
  schema := "RAW_DATA";
  init_warehouse := "CLINICAL_INIT_WH";
  cdc_warehouse := "CLINICAL_CDC_WH";
  interactive_warehouse := "CLINICAL_INTERACTIVE_WH"
|}.

(** ** Observations *)

Inductive Method : Type :=
| check_stream_status_m
| get_stream_change_count_m
| refresh_dynamic_tables_m
| populate_analytics_tables_m
| get_warehouse_costs_m
| log_audit_entry_m.

Global Instance Method_eq_dec : EqDecision Method.
Proof. solve_decision. Defined.

(** The history of a run: each numbered step of [run_pipeline] begun (the
    comments [# 1.] to [# 6.] of its body), each method entered, and each
    statement handed to the executor, with the error it raised if any. *)
Inductive Event : Type :=
| Step (n : nat)
| Call (m : Method)
| Exec (q : Stmt) (raised : option Err).

Global Instance Event_eq_dec : EqDecision Event.
Proof. solve_decision. Defined.

Record State (W : Type) : Type := {
  world : W;
  trace : list Event
}.
Arguments world {W} s.
Arguments trace {W} s.

Definition init {W} (w : W) : State W := {| world := w; trace := [] |}.

(** ** The monad *)

Definition M (W A : Type) : Type := State W → Result A * State W.

Definition ret {W A} (a : A) : M W A := fun s => (Ok a, s).

Definition bind {W A B} (m : M W A) (k : A → M W B) : M W B :=
  fun s => match m s with
           | (Ok a, s') => k a s'
           | (Raise e, s') => (Raise e, s')
           end.

Definition raise {W A} (e : Err) : M W A := fun s => (Raise e, s).

Definition lift {W A} (r : Result A) : M W A := fun s => (r, s).

(** [try: m except Exception as e: h e] *)
Definition try_except {W A} (m : M W A) (h : Err → M W A) : M W A :=
  fun s => match m s with
           | (Ok a, s') => (Ok a, s')
           | (Raise e, s') => h e s'
           end.

Notation "'do' x <- m ; k" := (bind m (fun x => k))
  (at level 10, x name, m at level 100, k at level 200).

Definition emit {W} (ev : Event) : M W unit :=
  fun s => (Ok tt, {| world := world s; trace := trace s ++ [ev] |}).

Fixpoint for_each {W A} (l : list A) (body : A → M W unit) : M W unit :=
  match l with
  | [] => ret tt
  | x :: l' => do _ <- body x; for_each l' body
  end.

(** ** Cursor protocol *)

(** [cursor.fetchone()] *)
Definition fetchone {A} (c : Cursor A) : Result (option A) :=
  match fetched c with
  | row :: _ => Ok (Some row)
  | [] => match fetch_error c with
          | Some e => Raise e
          | None => Ok None
          end
  end.

Fixpoint fold_rows {A B} (body : B → A → Result B) (rows : list A) (acc : B)
  : Result B :=
  match rows with
  | [] => Ok acc
  | row :: rest =>
      match body acc row with
      | Ok acc' => fold_rows body rest acc'
      | Raise e => Raise e
      end
  end.

(** [for row in cursor: acc = body(acc, row)] *)
Definition iterate {A B} (c : Cursor A) (body : B → A → Result B) (acc : B)
  : Result B :=
  match fold_rows body (fetched c) acc with
  | Ok acc' => match fetch_error c with
               | Some e => Raise e
               | None => Ok acc'
               end
  | Raise e => Raise e
  end.

(** [s.split('.')] *)
Fixpoint split_dot_aux (cur : string) (s : string) : list string :=
  match s with
  | EmptyString => [String.rev cur]
  | String "."%char rest => String.rev cur :: split_dot_aux EmptyString rest
  | String a rest => split_dot_aux (String a cur) rest
  end.
Definition split_dot (s : string) : list string := split_dot_aux EmptyString s.

(** [l[i]] on a list *)
Definition index {A} (l : list A) (i : nat) : Result A :=
  match l !! i with
  | Some x => Ok x
  | None => Raise "list index out of range"
  end.

(** ** The orchestrator *)

Section Orchestrator.
Context {W : Type} `{!QueryExecutor W} `{!PyRuntime W}.
Variable config : Config.

(** [self.cursor.execute(q)] *)
Definition exec (q : Stmt) : M W (Cursor (Rows q)) :=
  fun s => match execute q (world s) with
           | (Ok c, w) =>
               (Ok c, {| world := w; trace := trace s ++ [Exec q None] |})
           | (Raise e, w) =>
               (Raise e, {| world := w; trace := trace s ++ [Exec q (Some e)] |})
           end.

(** [datetime.now()] *)
Definition get_now : M W Z := fun s => (Ok (now (world s)), s).

(** lines 60-87 *)
Definition check_stream_status : M W (list StreamInfo) :=
  do _ <- emit (Call check_stream_status_m);
  let query := SelectStreams "RAW_DATA" in
  try_except
    (do c <- exec query;
     lift (iterate c
             (fun streams '(r0, r1, r2, r3) =>
                Ok (streams ++ [{| stream_name := r0; table_name := r1;
                                   is_stale := r2; stale_after := r3 |}]))
             []))
    (fun e => ret []).

(** lines 89-102 *)
Definition get_stream_change_count (stream_name : string) : M W Z :=
  do _ <- emit (Call get_stream_change_count_m);
  let query := SelectCount "RAW_DATA" stream_name in
  try_except
    (do c <- exec query;
     do row <- lift (fetchone c);
     match row with
     | Some count => ret count
     | None => raise "'NoneType' object is not subscriptable"
     end)
    (fun e => ret 0%Z).

Definition dynamic_tables : list string :=
  [ "STAGING.DT_PATIENTS"; "STAGING.DT_ENCOUNTERS";
    "STAGING.DT_PRESCRIPTIONS"; "STAGING.DT_LAB_RESULTS";
    "STAGING.DT_VITAL_SIGNS"; "STAGING.DT_PATIENT_SUMMARY" ].

(** lines 104-137 *)
Definition refresh_dynamic_tables : M W unit :=
  do _ <- emit (Call refresh_dynamic_tables_m);
  do _ <- exec (UseWarehouse (cdc_warehouse config));
  for_each dynamic_tables (fun table =>
    try_except
      (do name <- lift (index (split_dot table) 1);
       do schema_name <- lift (index (split_dot table) 0);
       do c <- exec (SelectDynamicTable name schema_name);
       do result <- lift (fetchone c);
       ret tt)
      (fun e => ret tt)).

Definition analytics_queries : list Stmt :=
  [ TruncateTable "ANALYTICS.PATIENTS_FACT";
    InsertSelectWhereOpNe "ANALYTICS.PATIENTS_FACT" "STAGING.DT_PATIENTS" "DELETE";
    TruncateTable "ANALYTICS.ENCOUNTERS_FACT";
    InsertSelectWhereOpNe "ANALYTICS.ENCOUNTERS_FACT" "STAGING.DT_ENCOUNTERS" "DELETE";
    TruncateTable "ANALYTICS.PRESCRIPTIONS_FACT";
    InsertSelectWhereOpNe "ANALYTICS.PRESCRIPTIONS_FACT" "STAGING.DT_PRESCRIPTIONS" "DELETE";
    TruncateTable "ANALYTICS.LAB_RESULTS_FACT";
    InsertSelectWhereOpNe "ANALYTICS.LAB_RESULTS_FACT" "STAGING.DT_LAB_RESULTS" "DELETE";
    TruncateTable "ANALYTICS.VITAL_SIGNS_FACT";
    InsertSelectWhereOpNe "ANALYTICS.VITAL_SIGNS_FACT" "STAGING.DT_VITAL_SIGNS" "DELETE" ].

(** lines 139-176 *)
Definition populate_analytics_tables : M W unit :=
  do _ <- emit (Call populate_analytics_tables_m);
  do _ <- exec (UseWarehouse (interactive_warehouse config));
  for_each analytics_queries (fun query =>
    try_except
      (do _ <- exec query; ret tt)
      (fun e => ret tt)).

(** lines 178-203 *)
Definition get_warehouse_costs : M W (gmap string CostEntry) :=
  do _ <- emit (Call get_warehouse_costs_m);
  let query :=
    SelectWarehouseCosts 7
      ["CLINICAL_INIT_WH"; "CLINICAL_CDC_WH"; "CLINICAL_INTERACTIVE_WH"] in
  try_except
    (do c <- exec query;
     lift (iterate c
             (fun (costs : gmap string CostEntry) '(r0, r1, r2) =>
                match py_float r1 with
                | Ok f => Ok (<[r0 := {| credits := f; queries := r2 |}]> costs)
                | Raise e => Raise e
                end)
             ∅))
    (fun e => ret ∅).

(** lines 205-222 *)
Definition log_audit_entry (event_type details : string) : M W unit :=
  do _ <- emit (Call log_audit_entry_m);
  let query := InsertAudit (event_type +:+ ": " +:+ details)
                 "CLINICAL_DATA_PIPELINE" "PIPELINE" "SUCCESS" in
  try_except
    (do _ <- exec query; ret tt)
    (fun e => ret tt).

(** lines 235-238: [for stream in streams: total_changes += ...] *)
Fixpoint count_changes (streams : list StreamInfo) (total_changes : Z) : M W Z :=
  match streams with
  | [] => ret total_changes
  | stream :: rest =>
      do changes <- get_stream_change_count (stream_name stream);
      count_changes rest (total_changes + changes)%Z
  end.

(** lines 230-238: steps 1 and 2 of the [try] block of [run_pipeline];
    the value is [total_changes]. *)
Definition run_pipeline_steps_1_2 : M W Z :=
  do _ <- emit (Step 1);
  do streams <- check_stream_status;
  do _ <- log_audit_entry "STREAM_CHECK"
            ("Checked " +:+ str_of_nat (length streams) +:+ " streams");
  do _ <- emit (Step 2);
  count_changes streams 0%Z.

(** lines 242-260: steps 3 to 6 of the [try] block of [run_pipeline]. *)
Definition run_pipeline_steps_3_6 (start_time total_changes : Z) : M W bool :=
  do _ <- emit (Step 3);
  do _ <- refresh_dynamic_tables;
  do _ <- log_audit_entry "DYNAMIC_TABLES" "Checked dynamic table status";
  do _ <- emit (Step 4);
  do _ <- (if (0 <? total_changes)%Z
           then do _ <- populate_analytics_tables;
                log_audit_entry "ANALYTICS_REFRESH"
                  ("Processed " +:+ str_of_Z total_changes +:+ " changes")
           else ret tt);
  do _ <- emit (Step 5);
  do costs <- get_warehouse_costs;
  do _ <- log_audit_entry "COST_TRACKING" ("Weekly costs: " +:+ json_dumps costs);
  do _ <- emit (Step 6);
  do end_time <- get_now;
  let duration := (end_time - start_time)%Z in
  do _ <- log_audit_entry "PIPELINE_COMPLETE"
            ("Duration: " +:+ format_2f duration +:+ "s");
  ret true.

(** lines 224-265 *)
Definition run_pipeline : M W bool :=
  do start_time <- get_now;
  try_except
    (do total_changes <- run_pipeline_steps_1_2;
     run_pipeline_steps_3_6 start_time total_changes)
    (fun e =>
       do _ <- log_audit_entry "PIPELINE_ERROR" e;
       ret false).

(** line 298: [exit(0 if success else 1)] *)
Definition exit_code (success : bool) : Z := if success then 0%Z else 1%Z.

End Orchestrator.

(** ** The fixed catalog *)

(** The five entities of [analytics_queries], in the order of the source. *)
Definition entities : list string :=
  ["PATIENTS"; "ENCOUNTERS"; "PRESCRIPTIONS"; "LAB_RESULTS"; "VITAL_SIGNS"].

Definition fact_table (entity : string) : string := "ANALYTICS." +:+ entity +:+ "_FACT".
Definition staged_table (entity : string) : string := "STAGING.DT_" +:+ entity.

Definition truncate_of (entity : string) : Stmt := TruncateTable (fact_table entity).
Definition insert_of (entity : string) : Stmt :=
  InsertSelectWhereOpNe (fact_table entity) (staged_table entity) "DELETE".

(** The three tier names of the cost statement (line 187). *)
Definition tier_names : list string :=
  ["CLINICAL_INIT_WH"; "CLINICAL_CDC_WH"; "CLINICAL_INTERACTIVE_WH"].

(** ** A reference warehouse

    The warehouse is not part of the repository: the orchestrator reaches it
    through the cursor only.  This is one implementation of the executor, a
    database on which the statements above are interpreted by the SQL
    meaning of their text in the source.  A statement also fails when the
    object it names does not exist, or when the next entry of the fault
    schedule says so (a lost connection, a timeout).  The properties that
    speak of what a statement returns or changes are stated on it; the
    properties of the control flow hold for every executor. *)

Module Warehouse.

(** A row of a staged or fact table, or of a stream's change buffer: its
    [_cdc_operation] marker (nullable) and the rest of its columns. *)
Record CdcRow : Type := {
  cdc_operation : option string;
  payload : string
}.

Record StreamObject : Type := {
  s_name : string;
  s_schema : string;
  s_table : string;
  s_stale : bool;
  s_stale_after : Z;
  s_changes : list CdcRow
}.

Record DynamicTable : Type := {
  d_name : string;
  d_schema : string;
  d_target_lag : string;
  d_refresh_mode : string;
  d_last_refresh_time : Z
}.

(** A row of WAREHOUSE_METERING_HISTORY. *)
Record Metering : Type := {
  m_warehouse_name : string;
  m_credits_used : Decimal;
  m_start_time : Z
}.

(** A row of AUDIT.ACCESS_LOG. *)
Record AuditEntry : Type := {
  user_name : string;
  role_name : string;
  query_text : string;
  database_name : string;
  schema_name : string;
  execution_status : string
}.

Record Db : Type := {
  streams : list StreamObject;
  dynamic : list DynamicTable;
  tables : gmap string (list CdcRow);
  metering : list Metering;
  access_log : list AuditEntry;
  warehouses : list string;
  current_warehouse : string;
  current_user : string;
  current_role : string;
  current_timestamp : Z;
  faults : list bool
}.

Definition with_faults (db : Db) (f : list bool) : Db :=
  {| streams := streams db; dynamic := dynamic db; tables := tables db;
     metering := metering db; access_log := access_log db;
     warehouses := warehouses db; current_warehouse := current_warehouse db;
     current_user := current_user db; current_role := current_role db;
     current_timestamp := current_timestamp db; faults := f |}.

Definition with_tables (db : Db) (t : gmap string (list CdcRow)) : Db :=
  {| streams := streams db; dynamic := dynamic db; tables := t;
     metering := metering db; access_log := access_log db;
     warehouses := warehouses db; current_warehouse := current_warehouse db;
     current_user := current_user db; current_role := current_role db;
     current_timestamp := current_timestamp db; faults := faults db |}.

Definition with_warehouse (db : Db) (w : string) : Db :=
  {| streams := streams db; dynamic := dynamic db; tables := tables db;
     metering := metering db; access_log := access_log db;
     warehouses := warehouses db; current_warehouse := w;
     current_user := current_user db; current_role := current_role db;
     current_timestamp := current_timestamp db; faults := faults db |}.

Definition with_access_log (db : Db) (l : list AuditEntry) : Db :=
  {| streams := streams db; dynamic := dynamic db; tables := tables db;
     metering := metering db; access_log := l;
     warehouses := warehouses db; current_warehouse := current_warehouse db;
     current_user := current_user db; current_role := current_role db;
     current_timestamp := current_timestamp db; faults := faults db |}.

Definition rows {A} (l : list A) : Cursor A :=
  {| fetched := l; fetch_error := None |}.

(** The streams of a schema, ORDER BY stream_name. *)
Definition streams_of_schema (db : Db) (sch : string) : list StreamObject :=
  merge_sort (fun a b => String.le (s_name a) (s_name b))
    (filter (fun so => s_schema so = sch) (streams db)).

Definition stream_row (so : StreamObject) : StreamRow :=
  (s_name so, s_table so, s_stale so, s_stale_after so).

Definition find_stream (db : Db) (sch obj : string) : option StreamObject :=
  List.find (fun so => bool_decide (s_schema so = sch ∧ s_name so = obj))
    (streams db).

Definition dynamic_row (d : DynamicTable) : DynamicTableRow :=
  (d_name d, d_target_lag d, d_refresh_mode d, d_last_refresh_time d).

(** [_cdc_operation != op]: a NULL marker does not satisfy it. *)
Definition op_ne (op : string) (r : CdcRow) : bool :=
  match cdc_operation r with
  | Some o => negb (String.eqb o op)
  | None => false
  end.

Definition day : Z := 86400000000.

(** The metering rows of warehouse [wh] that the cost statement selects. *)
Definition in_window (db : Db) (days : Z) (whs : list string) (m : Metering)
  : bool :=
  (current_timestamp db - days * day <=? m_start_time m)%Z
  && bool_decide (m_warehouse_name m ∈ whs).

Definition selected (db : Db) (days : Z) (whs : list string) : list Metering :=
  List.filter (in_window db days whs) (metering db).

Definition group (sel : list Metering) (wh : string) : list Metering :=
  List.filter (fun m => String.eqb (m_warehouse_name m) wh) sel.

Definition sum_credits (g : list Metering) : Decimal :=
  foldr (fun m acc => (m_credits_used m + acc)%Z) 0%Z g.

Definition cost_rows (db : Db) (days : Z) (whs : list string) : list CostRow :=
  let sel := selected db days whs in
  map (fun wh => (wh, Some (sum_credits (group sel wh)),
                  Z.of_nat (length (group sel wh))))
      (remove_dups (map m_warehouse_name sel)).

(** The meaning of a statement on the database. *)
Definition interpret (q : Stmt) (db : Db) : Result (Cursor (Rows q)) * Db :=
  match q return Result (Cursor (Rows q)) * Db with
  | SelectStreams sch =>
      (Ok (rows (map stream_row (streams_of_schema db sch))), db)
  | SelectCount sch obj =>
      match find_stream db sch obj with
      | Some so => (Ok (rows [Z.of_nat (length (s_changes so))]), db)
      | None => (Raise "Object does not exist or not authorized", db)
      end
  | UseWarehouse w =>
      if bool_decide (w ∈ warehouses db)
      then (Ok (rows [tt]), with_warehouse db w)
      else (Raise "Object does not exist or not authorized", db)
  | SelectDynamicTable name sch =>
      (Ok (rows (map dynamic_row
                   (filter (fun d => d_name d = name ∧ d_schema d = sch)
                      (dynamic db)))), db)
  | TruncateTable t =>
      match tables db !! t with
      | Some _ => (Ok (rows [tt]), with_tables db (<[t := []]> (tables db)))
      | None => (Raise "Table does not exist or not authorized", db)
      end
  | InsertSelectWhereOpNe dst src op =>
      match tables db !! dst, tables db !! src with
      | Some old, Some staged =>
          (Ok (rows [tt]),
           with_tables db (<[dst := old ++ List.filter (op_ne op) staged]> (tables db)))
      | _, _ => (Raise "Table does not exist or not authorized", db)
      end
  | SelectWarehouseCosts days whs =>
      (Ok (rows (cost_rows db days whs)), db)
  | InsertAudit text dbn sch status =>
      (Ok (rows [tt]),
       with_access_log db
         (access_log db ++
            [{| user_name := current_user db; role_name := current_role db;
                query_text := text; database_name := dbn;
                schema_name := sch; execution_status := status |}]))
  end.

Definition run (q : Stmt) (db : Db) : Result (Cursor (Rows q)) * Db :=
  match faults db with
  | true :: rest => (Raise "Network error", with_faults db rest)
  | _ => interpret q (with_faults db (tail (faults db)))
  end.

Definition two_digits (n : Z) : string :=
  if (n <? 10)%Z then "0" +:+ str_of_Z n else str_of_Z n.

(** Stand-ins for the renderings of the Python runtime: durations are
    rendered from the exact number of microseconds, and the cost mapping
    by its tier names. *)
Definition render_2f (us : Z) : string :=
  let cs := ((us + 5000) / 10000)%Z in
  str_of_Z (cs / 100) +:+ "." +:+ two_digits (cs mod 100).

Definition render_costs (costs : gmap string CostEntry) : string :=
  "{" +:+ String.concat ", " (map fst (map_to_list costs)) +:+ "}".

(** What a list of statements, each run under its own [try], does to the
    database. *)
Fixpoint run_all (qs : list Stmt) (db : Db) : Db :=
  match qs with
  | [] => db
  | q :: rest => run_all rest (run q db).2
  end.

(** The table a statement writes. *)
Definition target (q : Stmt) : option string :=
  match q with
  | TruncateTable t => Some t
  | InsertSelectWhereOpNe dst _ _ => Some dst
  | _ => None
  end.

(** Whether the [i]-th statement from now on is made to fail. *)
Definition faulted (db : Db) (i : nat) : bool :=
  match faults db !! i with
  | Some true => true
  | _ => false
  end.

(** A clinic's warehouse: three streams with the given numbers of pending
    changes, the five staged tables and their fact tables, a week of
    metering, the given warehouses and fault schedule. *)
Definition change (op : string) (n : nat) : CdcRow :=
  {| cdc_operation := Some op; payload := str_of_nat n |}.

Definition staged_rows : list CdcRow :=
  [change "INSERT" 1; change "DELETE" 2; change "UPDATE" 3;
   {| cdc_operation := None; payload := "4" |}].

Definition clinic (pending : nat * nat * nat) (whs : list string)
    (schedule : list bool) : Db := {|
  streams :=
    [ {| s_name := "PATIENTS_STREAM"; s_schema := "RAW_DATA";
         s_table := "PATIENTS"; s_stale := false; s_stale_after := 9000;
         s_changes := map (change "INSERT") (seq 0 pending.1.1) |};
      {| s_name := "ENCOUNTERS_STREAM"; s_schema := "RAW_DATA";
         s_table := "ENCOUNTERS"; s_stale := false; s_stale_after := 9000;
         s_changes := map (change "UPDATE") (seq 0 pending.1.2) |};
      {| s_name := "LAB_RESULTS_STREAM"; s_schema := "RAW_DATA";
         s_table := "LAB_RESULTS"; s_stale := false; s_stale_after := 9000;
         s_changes := map (change "DELETE") (seq 0 pending.2) |};
      {| s_name := "ARCHIVE_STREAM"; s_schema := "ARCHIVE";
         s_table := "PATIENTS"; s_stale := true; s_stale_after := 0;
         s_changes := [change "INSERT" 0] |} ];
  dynamic :=
    [ {| d_name := "DT_PATIENTS"; d_schema := "STAGING";
         d_target_lag := "1 minute"; d_refresh_mode := "INCREMENTAL";
         d_last_refresh_time := 8000 |} ];
  tables :=
    list_to_map
      (flat_map (fun entity => [(staged_table entity, staged_rows);
                                (fact_table entity, [change "INSERT" 0])])
         entities);
  metering :=
    [ {| m_warehouse_name := "CLINICAL_CDC_WH"; m_credits_used := 5%Z;
         m_start_time := (30 * day)%Z |};
      {| m_warehouse_name := "CLINICAL_INTERACTIVE_WH"; m_credits_used := 7%Z;
         m_start_time := (31 * day)%Z |};
      {| m_warehouse_name := "CLINICAL_CDC_WH"; m_credits_used := 11%Z;
         m_start_time := (32 * day)%Z |};
      {| m_warehouse_name := "CLINICAL_INIT_WH"; m_credits_used := 13%Z;
         m_start_time := (2 * day)%Z |};
      {| m_warehouse_name := "REPORTING_WH"; m_credits_used := 17%Z;
         m_start_time := (33 * day)%Z |} ];
  access_log := [];
  warehouses := whs;
  current_warehouse := "CLINICAL_INIT_WH";
  current_user := "PIPELINE_SVC";
  current_role := "PIPELINE_ROLE";
  current_timestamp := (35 * day)%Z;
  faults := schedule
|}.

(** The clinic with 10, 0 and 5 pending changes, and with none; all three
    warehouses are available and nothing fails. *)
Definition busy_clinic : Db := clinic (10, 0, 5) tier_names [].
Definition idle_clinic : Db := clinic (0, 0, 0) tier_names [].

(** The busy clinic on which the first statement, the stream check, fails. *)
Definition busy_clinic_unreachable : Db := clinic (10, 0, 5) tier_names [true].

(** The idle clinic whose CDC warehouse has been dropped. *)
Definition idle_clinic_without_cdc : Db :=
  clinic (0, 0, 0) ["CLINICAL_INIT_WH"; "CLINICAL_INTERACTIVE_WH"] [].

(** The busy clinic whose interactive warehouse has been dropped. *)
Definition busy_clinic_without_interactive : Db :=
  clinic (10, 0, 5) ["CLINICAL_INIT_WH"; "CLINICAL_CDC_WH"] [].


End Warehouse.

Global Instance Warehouse_executor : QueryExecutor Warehouse.Db := Warehouse.run.

Global Instance Warehouse_runtime : PyRuntime Warehouse.Db := {|
  now := Warehouse.current_timestamp;
  json_dumps := Warehouse.render_costs;
  format_2f := Warehouse.render_2f
|}.

(** ** A scripted executor

    A second implementation, in the way of a test double: the three
    monitoring statements get the answers written in the script, whatever the
    state of any database, and every other statement succeeds. *)

Module Script.

Record Answers : Type := {
  streams_answer : Result (Cursor StreamRow);
  count_answer : Result (Cursor Z);
  costs_answer : Result (Cursor CostRow)
}.

Definition run (q : Stmt) (a : Answers) : Result (Cursor (Rows q)) * Answers :=
  (match q return Result (Cursor (Rows q)) with
   | SelectStreams _ => streams_answer a
   | SelectCount _ _ => count_answer a
   | SelectWarehouseCosts _ _ => costs_answer a
   | SelectDynamicTable _ _ => Ok {| fetched := []; fetch_error := None |}
   | UseWarehouse _ | TruncateTable _ | InsertSelectWhereOpNe _ _ _
   | InsertAudit _ _ _ _ => Ok {| fetched := [tt]; fetch_error := None |}
   end, a).

(** The fetch breaks after the first row, for each of the three answers. *)
Definition broken_fetch : Answers := {|
  streams_answer :=
    Ok {| fetched := [("PATIENTS_STREAM", "PATIENTS", false, 9000%Z)];
          fetch_error := Some "Connection reset" |};
  count_answer := Ok {| fetched := []; fetch_error := Some "Connection reset" |};
  costs_answer :=
    Ok {| fetched := [("CLINICAL_CDC_WH", Some 5%Z, 1%Z)];
          fetch_error := Some "Connection reset" |}
|}.

(** The cost statement answers a group whose credit sum is NULL. *)
Definition null_credits : Answers := {|
  streams_answer := Ok {| fetched := []; fetch_error := None |};
  count_answer := Ok {| fetched := [3%Z]; fetch_error := None |};
  costs_answer :=
    Ok {| fetched := [("CLINICAL_CDC_WH", Some 5%Z, 1%Z);
                      ("CLINICAL_INIT_WH", None, 2%Z)];
          fetch_error := None |}
|}.

End Script.

Global Instance Script_executor : QueryExecutor Script.Answers := Script.run.

(** ** Reading a history *)

(** An event with the outcome of the statement forgotten. *)
Definition erase_outcome (ev : Event) : Event :=
  match ev with
  | Exec q _ => Exec q None
  | _ => ev
  end.

(** What a run did, whatever the executor answered. *)
Definition skeleton (tr : list Event) : list Event := map erase_outcome tr.

Definition succeeded (ev : Event) : bool :=
  match ev with
  | Exec _ (Some _) => false
  | _ => true
  end.

(** No statement of the run raised. *)
Definition fully_successful (tr : list Event) : bool := forallb succeeded tr.

Definition is_call (m : Method) (ev : Event) : bool := bool_decide (ev = Call m).

(** How many times method [m] was entered. *)
Definition call_count (m : Method) (tr : list Event) : nat :=
  length (List.filter (is_call m) tr).

Definition tier_switch_failed (ev : Event) : bool :=
  match ev with
  | Exec (UseWarehouse _) (Some _) => true
  | _ => false
  end.

Definition is_fact_statement (ev : Event) : bool :=
  match ev with
  | Exec (TruncateTable _) _ | Exec (InsertSelectWhereOpNe _ _ _) _ => true
  | _ => false
  end.

(** The text of an audit entry that was written: its INSERT did not raise. *)
Definition audit_written (ev : Event) : option string :=
  match ev with
  | Exec (InsertAudit text _ _ _) None => Some text
  | _ => None
  end.

Definition audit_entries_written (tr : list Event) : list string :=
  omap audit_written tr.

(** The number of events that satisfy [p] before step 1 and during each of
    the steps 1 to 6: [n] counts those met since the last step marker. *)
Fixpoint per_step (p : Event → bool) (tr : list Event) (n : nat) : list nat :=
  match tr with
  | [] => [n]
  | Step _ :: rest => n :: per_step p rest 0
  | ev :: rest => per_step p rest (if p ev then S n else n)
  end.

(** A call of [log_audit_entry]. *)
Definition is_audit_call (ev : Event) : bool :=
  match ev with
  | Call log_audit_entry_m => true
  | _ => false
  end.

(** An audit INSERT handed to the executor, whatever its outcome. *)
Definition is_audit_insert (ev : Event) : bool :=
  match ev with
  | Exec (InsertAudit _ _ _ _) _ => true
  | _ => false
  end.

(** An audit INSERT that did not raise: the entry is written. *)
Definition is_audit_written (ev : Event) : bool :=
  match ev with
  | Exec (InsertAudit _ _ _ _) None => true
  | _ => false
  end.

(** An audit INSERT that raised: [log_audit_entry] swallows the error
    (lines 221-222) and no entry is written. *)
Definition audit_insert_failed (ev : Event) : bool :=
  match ev with
  | Exec (InsertAudit _ _ _ _) (Some _) => true
  | _ => false
  end.

Definition audit_calls_per_step (tr : list Event) : list nat :=
  per_step is_audit_call tr 0.

Definition audit_inserts_per_step (tr : list Event) : list nat :=
  per_step is_audit_insert tr 0.

(** The audit entries written before step 1 and during each of the steps. *)
Definition audits_per_step (tr : list Event) : list nat :=
  per_step is_audit_written tr 0.

(** The claim that each of the five transitions between the six steps is
    accompanied by exactly one audit entry, written in the step that is
    left. *)
Definition one_audit_per_transition (tr : list Event) : Prop :=
  ∀ i, 1 ≤ i ≤ 5 → audits_per_step tr !! i = Some 1.

Definition is_mark (ev : Event) : bool :=
  match ev with
  | Exec _ _ => false
  | _ => true
  end.

(** The steps begun and the methods entered, in order. *)
Definition marks (tr : list Event) : list Event := List.filter is_mark tr.

(** The statement [log_audit_entry] issues (lines 207-216, 219). *)
Definition audit_statement (event_type details : string) : Stmt :=
  InsertAudit (event_type +:+ ": " +:+ details)
    "CLINICAL_DATA_PIPELINE" "PIPELINE" "SUCCESS".

Definition err_of {A} (r : Result A) : option Err :=
  match r with
  | Ok _ => None
  | Raise e => Some e
  end.

Section Histories.
Context {W : Type} `{!QueryExecutor W} `{!PyRuntime W}.
Variable config : Config.

(** [m], started in [s], returns [r], leaves the session in [w'] and adds
    the events [evs] to the history. *)
Definition runs {A} (m : M W A) (s : State W) (r : Result A) (w' : W)
    (evs : list Event) : Prop :=
  m s = (r, {| world := w'; trace := trace s ++ evs |}).

(** [total_changes] as [run_pipeline] computes it when started in [s]. *)
Definition total_pending_changes (s : State W) : Z :=
  match (run_pipeline_steps_1_2 s).1 with
  | Ok total => total
  | Raise _ => 0%Z
  end.

Definition audit_events (event_type details : string) : list Event :=
  [Call log_audit_entry_m; Exec (audit_statement event_type details) None].

Definition count_events (streams : list StreamInfo) : list Event :=
  flat_map (fun stream =>
              [Call get_stream_change_count_m;
               Exec (SelectCount "RAW_DATA" (stream_name stream)) None])
    streams.

Definition steps_1_2_events (streams : list StreamInfo) : list Event :=
  [Step 1; Call check_stream_status_m; Exec (SelectStreams "RAW_DATA") None]
  ++ audit_events "STREAM_CHECK"
       ("Checked " +:+ str_of_nat (length streams) +:+ " streams")
  ++ [Step 2] ++ count_events streams.

Definition refresh_events : list Event :=
  [Call refresh_dynamic_tables_m; Exec (UseWarehouse (cdc_warehouse config)) None]
  ++ map (fun name => Exec (SelectDynamicTable name "STAGING") None)
       ["DT_PATIENTS"; "DT_ENCOUNTERS"; "DT_PRESCRIPTIONS"; "DT_LAB_RESULTS";
        "DT_VITAL_SIGNS"; "DT_PATIENT_SUMMARY"].

Definition populate_events : list Event :=
  [Call populate_analytics_tables_m;
   Exec (UseWarehouse (interactive_warehouse config)) None]
  ++ flat_map (fun entity => [Exec (truncate_of entity) None;
                              Exec (insert_of entity) None]) entities.

Definition costs_events : list Event :=
  [Call get_warehouse_costs_m; Exec (SelectWarehouseCosts 7 tier_names) None].

(** The skeleton of steps 3 to 6 when they reach [return True]. *)
Definition steps_3_6_events (total_changes : Z)
    (costs : gmap string CostEntry) (duration : Z) : list Event :=
  [Step 3] ++ refresh_events
  ++ audit_events "DYNAMIC_TABLES" "Checked dynamic table status"
  ++ [Step 4]
  ++ (if (0 <? total_changes)%Z
      then populate_events
           ++ audit_events "ANALYTICS_REFRESH"
                ("Processed " +:+ str_of_Z total_changes +:+ " changes")
      else [])
  ++ [Step 5] ++ costs_events
  ++ audit_events "COST_TRACKING" ("Weekly costs: " +:+ json_dumps costs)
  ++ [Step 6]
  ++ audit_events "PIPELINE_COMPLETE" ("Duration: " +:+ format_2f duration +:+ "s").

(** The skeleton of a run that reaches [return True]. *)
Definition complete_events (streams : list StreamInfo) (total_changes : Z)
    (costs : gmap string CostEntry) (duration : Z) : list Event :=
  steps_1_2_events streams ++ steps_3_6_events total_changes costs duration.

(** The skeleton of steps 3 and 4 up to a tier switch that raises: the one
    of [refresh_dynamic_tables], or the one of [populate_analytics_tables]. *)
Definition aborted_steps_events (in_populate : bool) : list Event :=
  [Step 3]
  ++ (if in_populate
      then refresh_events
           ++ audit_events "DYNAMIC_TABLES" "Checked dynamic table status"
           ++ [Step 4; Call populate_analytics_tables_m]
      else [Call refresh_dynamic_tables_m]).

Definition aborted_prefix (streams : list StreamInfo) (in_populate : bool)
  : list Event :=
  steps_1_2_events streams ++ aborted_steps_events in_populate.

Definition failed_switch (in_populate : bool) : Stmt :=
  UseWarehouse (if in_populate then interactive_warehouse config
                else cdc_warehouse config).

End Histories.

(** ** What the monitors return, read off the executor's answer *)

Definition stream_info (row : StreamRow) : StreamInfo :=
  let '(r0, r1, r2, r3) := row in
  {| stream_name := r0; table_name := r1; is_stale := r2; stale_after := r3 |}.

Definition streams_of (answer : Result (Cursor StreamRow)) : list StreamInfo :=
  match answer with
  | Ok c => match fetch_error c with
            | None => map stream_info (fetched c)
            | Some _ => []
            end
  | Raise _ => []
  end.

Definition count_of (answer : Result (Cursor Z)) : Z :=
  match answer with
  | Ok c => match fetchone c with
            | Ok (Some count) => count
            | _ => 0%Z
            end
  | Raise _ => 0%Z
  end.

Definition cost_entry (row : CostRow) : option CostEntry :=
  match py_float row.1.2 with
  | Ok f => Some {| credits := f; queries := row.2 |}
  | Raise _ => None
  end.

(** The mapping built from rows none of which has a NULL credit. *)
Fixpoint costs_from (rows : list CostRow) (costs : gmap string CostEntry)
  : option (gmap string CostEntry) :=
  match rows with
  | [] => Some costs
  | row :: rest =>
      match cost_entry row with
      | Some entry => costs_from rest (<[row.1.1 := entry]> costs)
      | None => None
      end
  end.

Definition costs_of (answer : Result (Cursor CostRow)) : gmap string CostEntry :=
  match answer with
  | Ok c => match costs_from (fetched c) ∅, fetch_error c with
            | Some costs, None => costs
            | _, _ => ∅
            end
  | Raise _ => ∅
  end.

(** The statement [refresh_dynamic_tables] builds for a staged table
    (lines 122-131). *)
Definition dynamic_table_query (table : string) : Stmt :=
  SelectDynamicTable (nth 1 (split_dot table) EmptyString) (nth 0 (split_dot table) EmptyString).

(** ** The two ways a run ends *)

Definition is_switch (ev : Event) : bool :=
  match ev with
  | Exec (UseWarehouse _) _ => true
  | _ => false
  end.

Definition no_switch_failed (evs : list Event) : Prop :=
  existsb tier_switch_failed evs = false.

(** The run went through the six steps. *)
Definition complete_run `{!PyRuntime W} (config : Config) (total_changes : Z)
    (evs : list Event) : Prop :=
  no_switch_failed evs ∧
  ∃ streams costs duration,
    skeleton evs = complete_events (W:=W) config streams total_changes costs duration.

(** The run stopped at a tier switch that raised [e], and then called
    [log_audit_entry] with the error text. *)
Definition aborted_run (config : Config) (total_changes : Z)
    (evs : list Event) : Prop :=
  ∃ streams in_populate pre e r,
    evs = pre ++ [Exec (failed_switch config in_populate) (Some e);
                  Call log_audit_entry_m;
                  Exec (audit_statement "PIPELINE_ERROR" e) r]
    ∧ skeleton pre = aborted_prefix config streams in_populate
    ∧ no_switch_failed pre
    ∧ (in_populate = true → (0 < total_changes)%Z).


(** ** Accounting for the session *)

(** The session obtained by executing again the statements of a history,
    provided each has the outcome the history records. *)
Fixpoint replay {W : Type} `{!QueryExecutor W} (evs : list Event) (w : W)
  : option W :=
  match evs with
  | [] => Some w
  | Exec q raised :: rest =>
      if decide (err_of (execute q w).1 = raised)
      then replay rest (execute q w).2
      else None
  | _ :: rest => replay rest w
  end.

(** [m] changes the session through [execute] only, and every statement it
    executes is in the history with its outcome. *)
Definition accounted {W A : Type} `{!QueryExecutor W} (m : M W A) : Prop :=
  ∀ s, ∃ evs,
    trace (m s).2 = trace s ++ evs
    ∧ replay evs (world s) = Some (world (m s).2).

(** ** The statements a run may issue *)

(** The text of every statement is fixed by the source and the
    configuration, but for the count statement, an f-string into which
    [get_stream_change_count] splices the stream name as the stream check
    answered it (lines 91-93): [names] are the names answered.  The event
    text of an audit INSERT is a bound parameter of a fixed text (line
    219). *)
Definition in_catalogue (config : Config) (names : list string) (q : Stmt)
  : bool :=
  match q with
  | SelectStreams schema_name => String.eqb schema_name "RAW_DATA"
  | SelectCount schema_name object_name =>
      String.eqb schema_name "RAW_DATA" && bool_decide (object_name ∈ names)
  | UseWarehouse warehouse =>
      String.eqb warehouse (cdc_warehouse config)
      || String.eqb warehouse (interactive_warehouse config)
  | SelectDynamicTable _ _ =>
      bool_decide (q ∈ map dynamic_table_query dynamic_tables)
  | TruncateTable _ | InsertSelectWhereOpNe _ _ _ =>
      bool_decide (q ∈ analytics_queries)
  | SelectWarehouseCosts days warehouses =>
      bool_decide (days = 7%Z ∧ warehouses = tier_names)
  | InsertAudit _ database_name schema_name execution_status =>
      bool_decide (database_name = "CLINICAL_DATA_PIPELINE"
                   ∧ schema_name = "PIPELINE" ∧ execution_status = "SUCCESS")
  end.

Definition within_catalogue (config : Config) (names : list string)
    (ev : Event) : bool :=
  match ev with
  | Exec q _ => in_catalogue config names q
  | _ => true
  end.

(** The names spliced into the count statements of a history, in order. *)
Definition counted_name (ev : Event) : option string :=
  match ev with
  | Exec (SelectCount _ object_name) _ => Some object_name
  | _ => None
  end.

Definition counted_names (tr : list Event) : list string :=
  omap counted_name tr.

(** The names the stream check answers in the session [w]. *)
Definition answered_names {W : Type} `{!QueryExecutor W} (w : W) : list string :=
  map stream_name (streams_of (execute (SelectStreams "RAW_DATA") w).1).

(** ** The tier a statement runs on *)

Definition tier_is (tier : option string) (warehouse : string) : bool :=
  match tier with
  | Some current => String.eqb current warehouse
  | None => false
  end.

(** [tier] is the warehouse of the last USE WAREHOUSE that succeeded, if
    any.  Every lookup of a dynamic table must find the session on the CDC
    tier and every statement on a fact table must find it on the interactive
    tier. *)
Fixpoint tiers_respected (config : Config) (tier : option string)
    (tr : list Event) : bool :=
  match tr with
  | [] => true
  | Exec (UseWarehouse warehouse) None :: rest =>
      tiers_respected config (Some warehouse) rest
  | Exec (SelectDynamicTable _ _) _ :: rest =>
      tier_is tier (cdc_warehouse config) && tiers_respected config tier rest
  | Exec (TruncateTable _) _ :: rest
  | Exec (InsertSelectWhereOpNe _ _ _) _ :: rest =>
      tier_is tier (interactive_warehouse config)
      && tiers_respected config tier rest
  | _ :: rest => tiers_respected config tier rest
  end.

(** An event that neither moves the session to a tier nor depends on it. *)
Definition tier_neutral (ev : Event) : bool :=
  match ev with
  | Exec (UseWarehouse _) None
  | Exec (SelectDynamicTable _ _) _
  | Exec (TruncateTable _) _
  | Exec (InsertSelectWhereOpNe _ _ _) _ => false
  | _ => true
  end.

(** ** The process *)

(** The connector, as [connect], [close] and [main] use it:
    [snowflake.connector.connect(...)] followed by [conn.cursor()] (lines
    45-53) yields a session or raises; [cursor.close()] and [conn.close()]
    (lines 270, 272) return or raise.  The cursor and the connection of a
    session that was opened are taken to be truthy objects, so that the two
    tests of [close] succeed. *)
Class Connector (W : Type) : Type := {
  connect_session : Config → Result W;
  close_cursor : W → Result unit;
  close_connection : W → Result unit
}.

(** How the process ends: [exit(code)], or an exception nobody catches, for
    which the interpreter exits with status 1. *)
Inductive Termination : Type :=
| Exited (code : Z)
| Uncaught (e : Err).

Definition exit_status (t : Termination) : Z :=
  match t with
  | Exited code => code
  | Uncaught _ => 1%Z
  end.

Record Process : Type := {
  termination : Termination;
  history : list Event;
  cursor_closed : bool;
  connection_closed : bool
}.

Section Process.
Context {W : Type} `{!QueryExecutor W} `{!PyRuntime W} `{!Connector W}.

(** lines 42-58: [connect] returns [True] with a session, or [False]. *)
Definition connect (config : Config) : option W :=
  match connect_session config with
  | Ok w => Some w
  | Raise e => None
  end.

(** lines 276-301 *)
Definition main : Process :=
  let config := main_config in
  match connect config with
  | Some w =>
      let (r, s) := run_pipeline config (init w) in
      match r with
      | Ok success =>
          (* lines 267-273: [close] *)
          match close_cursor (world s) with
          | Ok _ =>
              match close_connection (world s) with
              | Ok _ =>
                  {| termination := Exited (exit_code success);
                     history := trace s;
                     cursor_closed := true; connection_closed := true |}
              | Raise e =>
                  {| termination := Uncaught e; history := trace s;
                     cursor_closed := true; connection_closed := false |}
              end
          | Raise e =>
              {| termination := Uncaught e; history := trace s;
                 cursor_closed := false; connection_closed := false |}
          end
      | Raise e =>
          {| termination := Uncaught e; history := trace s;
             cursor_closed := false; connection_closed := false |}
      end
  | None =>
      {| termination := Exited 1; history := [];
         cursor_closed := false; connection_closed := false |}
  end.

End Process.

(** ** Reading the reference warehouse *)

Module Ledger.
Import Warehouse.

(** What no statement changes. *)
Definition same_catalog (db db' : Db) : Prop :=
  streams db' = streams db ∧ dynamic db' = dynamic db
  ∧ metering db' = metering db ∧ warehouses db' = warehouses db
  ∧ current_user db' = current_user db ∧ current_role db' = current_role db
  ∧ current_timestamp db' = current_timestamp db.

(** The rows the audit INSERTs of a history append to the audit table. *)
Definition audit_row (db : Db) (ev : Event) : option AuditEntry :=
  match ev with
  | Exec (InsertAudit text dbn sch status) None =>
      Some {| user_name := current_user db; role_name := current_role db;
              query_text := text; database_name := dbn;
              schema_name := sch; execution_status := status |}
  | _ => None
  end.

Definition audit_rows (db : Db) (evs : list Event) : list AuditEntry :=
  omap (audit_row db) evs.

(** The number of rows [SELECT COUNT( * )] answers for a stream of RAW_DATA,
    as [get_stream_change_count] returns it when the statement is the
    [i]-th from now on: 0 when the statement is made to fail or the stream
    does not exist. *)
Definition counted_one (db : Db) (i : nat) (name : string) : Z :=
  if faulted db i then 0%Z
  else match find_stream db "RAW_DATA" name with
       | Some stream => Z.of_nat (length (s_changes stream))
       | None => 0%Z
       end.

Fixpoint counted (db : Db) (i : nat) (names : list string) : Z :=
  match names with
  | [] => 0%Z
  | name :: rest => (counted_one db i name + counted db (S i) rest)%Z
  end.

(** The streams of RAW_DATA, in the order of the catalog. *)
Definition raw_streams (db : Db) : list StreamObject :=
  filter (fun so => s_schema so = "RAW_DATA") (streams db).

End Ledger.

(** The busy clinic on which every audit INSERT fails: the statements 1,
    12, 24, 26 and 27 of the run, counted from 0. *)
Definition busy_clinic_unaudited : Warehouse.Db :=
  Warehouse.clinic (10, 0, 5) tier_names
    ([false; true] ++ replicate 10 false ++ [true] ++ replicate 11 false
     ++ [true; false; true; true]).

(** A connector for the reference warehouse: it opens the given database,
    or refuses the connection, and closes without error. *)
Definition open_db (db : option Warehouse.Db) : Connector Warehouse.Db := {|
  connect_session := fun _ =>
    match db with
    | Some db => Ok db
    | None => Raise "Failed to connect to DB"
    end;
  close_cursor := fun _ => Ok tt;
  close_connection := fun _ => Ok tt
|}.

(** A connector whose cursor cannot be closed. *)
Definition stuck_cursor (db : Warehouse.Db) : Connector Warehouse.Db := {|
  connect_session := fun _ => Ok db;
  close_cursor := fun _ => Raise "Cursor is busy";
  close_connection := fun _ => Ok tt
|}.

(** ** Stale streams

    A third executor: it reports streams all of which are stale, so that
    every count on them raises; the other statements succeed. *)

Module Stale.

Record Catalog : Type := { reported : list StreamRow }.

Definition run (q : Stmt) (c : Catalog) : Result (Cursor (Rows q)) * Catalog :=
  (match q return Result (Cursor (Rows q)) with
   | SelectStreams _ => Ok {| fetched := reported c; fetch_error := None |}
   | SelectCount _ _ => Raise "Stream is stale"
   | SelectDynamicTable _ _ => Ok {| fetched := []; fetch_error := None |}
   | SelectWarehouseCosts _ _ => Ok {| fetched := []; fetch_error := None |}
   | UseWarehouse _ | TruncateTable _ | InsertSelectWhereOpNe _ _ _
   | InsertAudit _ _ _ _ => Ok {| fetched := [tt]; fetch_error := None |}
   end, c).

Definition two_streams : Catalog := {|
  reported := [("ENCOUNTERS_STREAM", "ENCOUNTERS", true, 0%Z);
               ("PATIENTS_STREAM", "PATIENTS", true, 0%Z)]
|}.

(** A stream whose name is not a plain identifier. *)
Definition odd_name : Catalog := {|
  reported := [("PATIENTS_STREAM; DROP TABLE RAW_DATA.PATIENTS", "PATIENTS",
                true, 0%Z)]
|}.

End Stale.

Global Instance Stale_executor : QueryExecutor Stale.Catalog := Stale.run.

Global Instance Stale_runtime : PyRuntime Stale.Catalog := {|
  now := fun _ => 0%Z;
  json_dumps := Warehouse.render_costs;
  format_2f := Warehouse.render_2f
|}.

(** * Properties against every executor *)

Section Laws.
Context {W : Type} `{!QueryExecutor W} `{!PyRuntime W}.
Variable config : Config.

Lemma runs_ret {A} (a : A) (s : State W) : runs (ret a) s (Ok a) (world s) [].
Proof. unfold runs, ret. rewrite app_nil_r. by destruct s. Qed.

Lemma runs_bind {A B} (m : M W A) (k : A → M W B) s a w1 e1 r w2 e2 :
  runs m s (Ok a) w1 e1 →
  runs (k a) {| world := w1; trace := trace s ++ e1 |} r w2 e2 →
  runs (bind m k) s r w2 (e1 ++ e2).
Proof.
  unfold runs, bind. intros -> Hk. rewrite Hk. simpl. by rewrite app_assoc.
Qed.

Lemma runs_bind_raise {A B} (m : M W A) (k : A → M W B) s e w1 e1 :
  runs m s (Raise e) w1 e1 → runs (bind m k) s (Raise e) w1 e1.
Proof. unfold runs, bind. by intros ->. Qed.

Lemma runs_emit ev (s : State W) : runs (emit ev) s (Ok tt) (world s) [ev].
Proof. reflexivity. Qed.

Lemma runs_get_now (s : State W) :
  runs get_now s (Ok (now (world s))) (world s) [].
Proof. unfold runs, get_now. rewrite app_nil_r. by destruct s. Qed.

Lemma runs_inj {A} (m : M W A) s r1 w1 e1 r2 w2 e2 :
  runs m s r1 w1 e1 → runs m s r2 w2 e2 → r1 = r2 ∧ w1 = w2 ∧ e1 = e2.
Proof.
  unfold runs. intros -> [= -> -> He]. by apply app_inv_head in He.
Qed.

Lemma runs_exec q (s : State W) :
  runs (exec q) s (execute q (world s)).1 (execute q (world s)).2
    [Exec q (err_of (execute q (world s)).1)].
Proof.
  unfold runs, exec. by destruct (execute q (world s)) as [[c|e] w'].
Qed.

(** A statement run under [try] whose result is dropped. *)
Lemma runs_try_exec q (s : State W) :
  runs (try_except (do _ <- exec q; ret tt) (fun _ => ret tt)) s (Ok tt)
    (execute q (world s)).2 [Exec q (err_of (execute q (world s)).1)].
Proof.
  unfold runs, try_except, bind, exec, ret.
  by destruct (execute q (world s)) as [[c|e] w'].
Qed.

Lemma log_audit_entry_runs event_type details (s : State W) :
  let q := audit_statement event_type details in
  runs (log_audit_entry event_type details) s (Ok tt) (execute q (world s)).2
    [Call log_audit_entry_m; Exec q (err_of (execute q (world s)).1)].
Proof.
  intros q. unfold log_audit_entry.
  eapply (runs_bind _ _ _ _ _ [_]); [apply runs_emit|].
  apply (runs_try_exec q {| world := world s; trace := trace s ++ _ |}).
Qed.

Lemma fold_rows_streams (l : list StreamRow) acc :
  fold_rows (fun streams '(r0, r1, r2, r3) =>
               Ok (streams ++ [{| stream_name := r0; table_name := r1;
                                  is_stale := r2; stale_after := r3 |}]))
    l acc
  = Ok (acc ++ map stream_info l).
Proof.
  revert acc. induction l as [|[[[r0 r1] r2] r3] l IH]; intros acc; simpl.
  - by rewrite app_nil_r.
  - rewrite IH. by rewrite <- app_assoc.
Qed.

Lemma check_stream_status_runs (s : State W) :
  let q := SelectStreams "RAW_DATA" in
  runs check_stream_status s (Ok (streams_of (execute q (world s)).1))
    (execute q (world s)).2
    [Call check_stream_status_m; Exec q (err_of (execute q (world s)).1)].
Proof.
  intros q.
  unfold runs, check_stream_status, bind, try_except, emit, exec, lift, ret.
  simpl. fold q.
  destruct (execute q (world s)) as [[c|e] w']; simpl.
  - unfold iterate. rewrite fold_rows_streams. simpl.
    destruct c as [l [e|]]; simpl; by rewrite <- app_assoc.
  - by rewrite <- app_assoc.
Qed.

Lemma get_stream_change_count_runs name (s : State W) :
  let q := SelectCount "RAW_DATA" name in
  runs (get_stream_change_count name) s (Ok (count_of (execute q (world s)).1))
    (execute q (world s)).2
    [Call get_stream_change_count_m; Exec q (err_of (execute q (world s)).1)].
Proof.
  intros q.
  unfold runs, get_stream_change_count, bind, try_except, emit, exec, lift,
    ret, raise.
  simpl. fold q.
  destruct (execute q (world s)) as [[c|e] w']; simpl.
  - destruct c as [[|n l] [e|]]; simpl; by rewrite <- app_assoc.
  - by rewrite <- app_assoc.
Qed.

Lemma fold_rows_costs (l : list CostRow) (acc : gmap string CostEntry) :
  fold_rows (fun (costs : gmap string CostEntry) '(r0, r1, r2) =>
               match py_float r1 with
               | Ok f => Ok (<[r0 := {| credits := f; queries := r2 |}]> costs)
               | Raise e => Raise e
               end) l acc
  = match costs_from l acc with
    | Some costs => Ok costs
    | None => Raise "float() argument must be a string or a real number, not 'NoneType'"
    end.
Proof.
  revert acc. induction l as [|[[r0 [d|]] r2] l IH]; intros acc; simpl; [done| |done].
  unfold cost_entry. simpl. apply IH.
Qed.

Lemma get_warehouse_costs_runs (s : State W) :
  let q := SelectWarehouseCosts 7 tier_names in
  runs get_warehouse_costs s (Ok (costs_of (execute q (world s)).1))
    (execute q (world s)).2
    [Call get_warehouse_costs_m; Exec q (err_of (execute q (world s)).1)].
Proof.
  intros q.
  unfold runs, get_warehouse_costs, bind, try_except, emit, exec, lift, ret.
  simpl. fold tier_names. fold q.
  destruct (execute q (world s)) as [[c|e] w']; simpl.
  - unfold iterate. rewrite fold_rows_costs.
    destruct c as [l [e|]]; simpl; destruct (costs_from l ∅); simpl;
      by rewrite <- app_assoc.
  - by rewrite <- app_assoc.
Qed.

Lemma skeleton_app (e1 e2 : list Event) :
  skeleton (e1 ++ e2) = skeleton e1 ++ skeleton e2.
Proof. apply map_app. Qed.

Lemma no_switch_failed_app (e1 e2 : list Event) :
  no_switch_failed e1 → no_switch_failed e2 → no_switch_failed (e1 ++ e2).
Proof. unfold no_switch_failed. rewrite existsb_app. by intros -> ->. Qed.

Lemma no_switch_in_skeleton (evs : list Event) :
  forallb (fun ev => negb (is_switch ev)) (skeleton evs) = true →
  no_switch_failed evs.
Proof.
  unfold no_switch_failed. induction evs as [|ev evs IH]; simpl; [done|].
  intros [Hev Hevs]%andb_true_iff. rewrite (IH Hevs), orb_false_r.
  by destruct ev as [| |[] []].
Qed.

Lemma count_events_no_switch (streams : list StreamInfo) :
  forallb (fun ev => negb (is_switch ev)) (count_events streams) = true.
Proof. induction streams; simpl; [done|apply IHstreams]. Qed.

Lemma count_changes_runs (streams : list StreamInfo) (acc : Z) (s : State W) :
  ∃ total w' evs,
    runs (count_changes streams acc) s (Ok total) w' evs
    ∧ skeleton evs = count_events streams
    ∧ (streams = [] → total = acc).
Proof.
  revert acc s. induction streams as [|stream rest IH]; intros acc s; simpl.
  - exists acc, (world s), []. split; [apply runs_ret|done].
  - pose proof (get_stream_change_count_runs (stream_name stream) s) as H1.
    simpl in H1.
    destruct (IH (acc + count_of (execute (SelectCount "RAW_DATA" (stream_name stream)) (world s)).1)%Z
                {| world := (execute (SelectCount "RAW_DATA" (stream_name stream)) (world s)).2;
                   trace := trace s ++ [Call get_stream_change_count_m;
                     Exec (SelectCount "RAW_DATA" (stream_name stream))
                       (err_of (execute (SelectCount "RAW_DATA" (stream_name stream)) (world s)).1)] |})
      as (total & w' & evs & Hruns & Hsk & _).
    eexists total, w', (_ ++ evs). split; [|split; [|done]].
    + eapply runs_bind; [exact H1|exact Hruns].
    + rewrite skeleton_app, Hsk. reflexivity.
Qed.

Lemma for_each_runs {A} (l : list A) (body : A → M W unit) (f : A → Stmt) :
  (∀ x, x ∈ l → ∀ s, ∃ w' r, runs (body x) s (Ok tt) w' [Exec (f x) r]) →
  ∀ s, ∃ w' evs,
    runs (for_each l body) s (Ok tt) w' evs
    ∧ skeleton evs = map (fun x => Exec (f x) None) l.
Proof.
  induction l as [|x l IH]; intros Hbody s; simpl.
  - exists (world s), []. split; [apply runs_ret|done].
  - destruct (Hbody x (list_elem_of_here x l) s) as (w1 & r & H1).
    destruct (IH (fun y Hy => Hbody y (list_elem_of_further _ _ _ Hy))
                {| world := w1; trace := trace s ++ [Exec (f x) r] |})
      as (w' & evs & Hruns & Hsk).
    exists w', ([Exec (f x) r] ++ evs). split.
    + eapply runs_bind; [exact H1|exact Hruns].
    + rewrite skeleton_app, Hsk. reflexivity.
Qed.

Lemma refresh_body_runs table (s : State W) :
  table ∈ dynamic_tables →
  ∃ w' r,
    runs (try_except
            (do name <- lift (index (split_dot table) 1);
             do schema_name <- lift (index (split_dot table) 0);
             do c <- exec (SelectDynamicTable name schema_name);
             do result <- lift (fetchone c);
             ret tt)
            (fun e => ret tt)) s (Ok tt) w' [Exec (dynamic_table_query table) r].
Proof.
  unfold dynamic_tables. intros Hin.
  repeat (apply elem_of_cons in Hin as [->|Hin]); [..|by apply elem_of_nil in Hin];
    unfold dynamic_table_query;
    match goal with
    | |- context [split_dot ?t] =>
        let v := eval vm_compute in (split_dot t) in
        change (split_dot t) with v
    end;
    unfold runs, try_except, bind, lift, exec, ret; simpl;
    match goal with
    | |- context [execute ?q (world s)] =>
        destruct (execute q (world s)) as [[[[|row l] [e|]]|e] w']
    end; simpl; eauto.
Qed.

Lemma refresh_dynamic_tables_runs (s : State W) :
  let q := UseWarehouse (cdc_warehouse config) in
  (∃ w' evs,
      runs (refresh_dynamic_tables config) s (Ok tt) w' evs
      ∧ skeleton evs = refresh_events config
      ∧ no_switch_failed evs)
  ∨ (∃ e w',
      runs (refresh_dynamic_tables config) s (Raise e) w'
        [Call refresh_dynamic_tables_m; Exec q (Some e)]).
Proof.
  intros q. unfold refresh_dynamic_tables.
  pose proof (runs_exec q {| world := world s;
                trace := trace s ++ [Call refresh_dynamic_tables_m] |}) as Hexec.
  simpl in Hexec.
  destruct (execute q (world s)) as [[c|e] w1]; simpl in *.
  - destruct (for_each_runs dynamic_tables _ dynamic_table_query
                (fun x Hx s => refresh_body_runs x s Hx)
                {| world := w1;
                   trace := (trace s ++ [Call refresh_dynamic_tables_m])
                            ++ [Exec q None] |})
      as (w' & evs & Hruns & Hsk).
    left. exists w', ([Call refresh_dynamic_tables_m] ++ [Exec q None] ++ evs).
    split; [|split].
    + eapply runs_bind; [apply runs_emit|].
      eapply runs_bind; [exact Hexec|exact Hruns].
    + rewrite !skeleton_app, Hsk. reflexivity.
    + apply (no_switch_failed_app [_; _]); [done|].
      apply no_switch_in_skeleton. by rewrite Hsk.
  - right. exists e, w1.
    eapply (runs_bind _ _ _ _ _ [_] _ _ [_]); [apply runs_emit|].
    eapply runs_bind_raise. exact Hexec.
Qed.

Lemma analytics_queries_entities :
  analytics_queries = flat_map (fun entity => [truncate_of entity; insert_of entity]) entities.
Proof. reflexivity. Qed.

Lemma populate_body_runs query (s : State W) :
  ∃ w' r,
    runs (try_except (do _ <- exec query; ret tt) (fun _ => ret tt)) s (Ok tt)
      w' [Exec (id query) r].
Proof. eexists _, _. apply runs_try_exec. Qed.

Lemma populate_analytics_tables_runs (s : State W) :
  let q := UseWarehouse (interactive_warehouse config) in
  (∃ w' evs,
      runs (populate_analytics_tables config) s (Ok tt) w'
        ([Call populate_analytics_tables_m; Exec q None] ++ evs)
      ∧ skeleton evs = map (fun query => Exec query None) analytics_queries)
  ∨ (∃ e w',
      runs (populate_analytics_tables config) s (Raise e) w'
        [Call populate_analytics_tables_m; Exec q (Some e)]).
Proof.
  intros q. unfold populate_analytics_tables.
  pose proof (runs_exec q {| world := world s;
                trace := trace s ++ [Call populate_analytics_tables_m] |}) as Hexec.
  simpl in Hexec.
  destruct (execute q (world s)) as [[c|e] w1]; simpl in *.
  - destruct (for_each_runs analytics_queries _ id
                (fun x _ s => populate_body_runs x s)
                {| world := w1;
                   trace := (trace s ++ [Call populate_analytics_tables_m])
                            ++ [Exec q None] |})
      as (w' & evs & Hruns & Hsk).
    left. exists w', evs. split; [|done].
    eapply (runs_bind _ _ _ _ _ [_]); [apply runs_emit|].
    eapply (runs_bind _ _ _ _ _ [_]); [exact Hexec|exact Hruns].
  - right. exists e, w1.
    eapply (runs_bind _ _ _ _ _ [_] _ _ [_]); [apply runs_emit|].
    eapply runs_bind_raise. exact Hexec.
Qed.

Ltac run_step :=
  eapply runs_bind;
  [first [ apply runs_emit | apply runs_get_now | apply log_audit_entry_runs
         | apply check_stream_status_runs | apply get_warehouse_costs_runs ]|].

Lemma steps_1_2_runs (s : State W) :
  let streams := streams_of (execute (SelectStreams "RAW_DATA") (world s)).1 in
  ∃ total w' evs,
    runs run_pipeline_steps_1_2 s (Ok total) w' evs
    ∧ skeleton evs = steps_1_2_events streams
    ∧ no_switch_failed evs
    ∧ (streams = [] → total = 0%Z).
Proof.
  intros streams. unfold run_pipeline_steps_1_2.
  eassert (∃ w1 e1, runs (do _ <- emit (Step 1);
                          do streams <- check_stream_status;
                          do _ <- log_audit_entry "STREAM_CHECK"
                                    ("Checked " +:+ str_of_nat (length streams) +:+ " streams");
                          do _ <- emit (Step 2); ret streams) s (Ok streams) w1 e1
                   ∧ skeleton e1 =
                       [Step 1; Call check_stream_status_m;
                        Exec (SelectStreams "RAW_DATA") None]
                       ++ audit_events "STREAM_CHECK"
                            ("Checked " +:+ str_of_nat (length streams) +:+ " streams")
                       ++ [Step 2]) as (w1 & e1 & H1 & Hsk1).
  { eexists _, _. split; [do 4 run_step; apply runs_ret|reflexivity]. }
  destruct (count_changes_runs streams 0
              {| world := w1; trace := trace s ++ e1 |})
    as (total & w' & evs & Hruns & Hsk & Htotal).
  exists total, w', (e1 ++ evs). split; [|split; [|split; [|exact Htotal]]].
  - unfold runs, bind in *. revert H1.
    destruct (emit (Step 1) s) as [[[]|] s1]; [|done].
    destruct (check_stream_status s1) as [[streams'|] s2]; [|done].
    destruct (log_audit_entry _ _ s2) as [[[]|] s3]; [|done].
    destruct (emit (Step 2) s3) as [[[]|] s4]; [|done].
    unfold ret. intros [= -> ->]. rewrite Hruns. by rewrite app_assoc.
  - rewrite skeleton_app, Hsk, Hsk1. unfold steps_1_2_events.
    by rewrite <- !app_assoc.
  - apply no_switch_in_skeleton. rewrite skeleton_app, Hsk, Hsk1.
    rewrite forallb_app, count_events_no_switch. reflexivity.
Qed.

Lemma steps_5_6_runs (start_time : Z) (s : State W) :
  ∃ w' evs costs duration,
    runs (do _ <- emit (Step 5);
          do costs <- get_warehouse_costs;
          do _ <- log_audit_entry "COST_TRACKING"
                    ("Weekly costs: " +:+ json_dumps costs);
          do _ <- emit (Step 6);
          do end_time <- get_now;
          let duration := (end_time - start_time)%Z in
          do _ <- log_audit_entry "PIPELINE_COMPLETE"
                    ("Duration: " +:+ format_2f duration +:+ "s");
          ret true) s (Ok true) w' evs
    ∧ skeleton evs =
        [Step 5] ++ costs_events
        ++ audit_events "COST_TRACKING" ("Weekly costs: " +:+ json_dumps costs)
        ++ [Step 6]
        ++ audit_events "PIPELINE_COMPLETE"
             ("Duration: " +:+ format_2f duration +:+ "s")
    ∧ no_switch_failed evs.
Proof.
  eexists _, _, _, _. split; [|split].
  - do 6 run_step. apply runs_ret.
  - reflexivity.
  - reflexivity.
Qed.

Lemma populate_events_skeleton (q : Stmt) (evs : list Event) :
  q = UseWarehouse (interactive_warehouse config) →
  skeleton evs = map (fun query => Exec query None) analytics_queries →
  skeleton ([Call populate_analytics_tables_m; Exec q None] ++ evs)
  = populate_events config
  ∧ no_switch_failed ([Call populate_analytics_tables_m; Exec q None] ++ evs).
Proof.
  intros -> Hsk. split.
  - rewrite skeleton_app, Hsk. reflexivity.
  - apply (no_switch_failed_app [_; _]); [done|].
    apply no_switch_in_skeleton. by rewrite Hsk.
Qed.

Lemma steps_3_6_runs (start_time total_changes : Z) (s : State W) :
  ∃ r w' evs,
    runs (run_pipeline_steps_3_6 config start_time total_changes) s r w' evs
    ∧ match r with
      | Ok b =>
          b = true ∧ no_switch_failed evs
          ∧ ∃ costs duration,
              skeleton evs = steps_3_6_events (W:=W) config total_changes costs duration
      | Raise e =>
          ∃ in_populate pre,
            evs = pre ++ [Exec (failed_switch config in_populate) (Some e)]
            ∧ skeleton pre = aborted_steps_events config in_populate
            ∧ no_switch_failed pre
            ∧ (in_populate = true → (0 < total_changes)%Z)
      end.
Proof.
  unfold run_pipeline_steps_3_6.
  set (s1 := {| world := world s; trace := trace s ++ [Step 3] |}).
  destruct (refresh_dynamic_tables_runs s1)
    as [(w2 & e2 & H2 & Hsk2 & Hns2)|(e & w2 & H2)]; cycle 1.
  { exists (Raise e), w2, ([Step 3] ++ [Call refresh_dynamic_tables_m;
                             Exec (UseWarehouse (cdc_warehouse config)) (Some e)]).
    split.
    - eapply runs_bind; [apply runs_emit|]. eapply runs_bind_raise. exact H2.
    - exists false, [Step 3; Call refresh_dynamic_tables_m]. done. }
  pose proof (log_audit_entry_runs "DYNAMIC_TABLES" "Checked dynamic table status"
                {| world := w2; trace := trace s1 ++ e2 |}) as H3.
  cbv zeta in H3. cbn [world] in H3.
  set (q3 := audit_statement "DYNAMIC_TABLES" "Checked dynamic table status") in *.
  set (w3 := (execute q3 w2).2) in *.
  set (e3 := [Call log_audit_entry_m; Exec q3 (err_of (execute q3 w2).1)]) in *.
  set (s4 := {| world := w3;
                trace := trace {| world := w3;
                                  trace := trace {| world := w2; trace := trace s1 ++ e2 |} ++ e3 |}
                         ++ [Step 4] |}).
  assert (∃ r4 w4 e4,
            runs (if (0 <? total_changes)%Z
                  then do _ <- populate_analytics_tables config;
                       log_audit_entry "ANALYTICS_REFRESH"
                         ("Processed " +:+ str_of_Z total_changes +:+ " changes")
                  else ret tt) s4 r4 w4 e4
            ∧ match r4 with
              | Ok _ =>
                  no_switch_failed e4
                  ∧ skeleton e4 =
                      (if (0 <? total_changes)%Z
                       then populate_events config
                            ++ audit_events "ANALYTICS_REFRESH"
                                 ("Processed " +:+ str_of_Z total_changes +:+ " changes")
                       else [])
              | Raise e =>
                  e4 = [Call populate_analytics_tables_m;
                        Exec (UseWarehouse (interactive_warehouse config)) (Some e)]
                  ∧ (0 < total_changes)%Z
              end) as (r4 & w4 & e4 & H4 & Hr4).
  { destruct (0 <? total_changes)%Z eqn:Htot.
    - destruct (populate_analytics_tables_runs s4)
        as [(w4 & e4 & H4 & Hsk4)|(e & w4 & H4)].
      + destruct (populate_events_skeleton _ e4 eq_refl Hsk4) as [Hsk4' Hns4].
        eexists (Ok tt), _, (_ ++ _). split.
        * eapply runs_bind; [exact H4|apply log_audit_entry_runs].
        * split.
          -- by apply no_switch_failed_app.
          -- rewrite skeleton_app, Hsk4'. reflexivity.
      + exists (Raise e), w4, [Call populate_analytics_tables_m;
                          Exec (UseWarehouse (interactive_warehouse config)) (Some e)].
        split; [by apply runs_bind_raise|]. split; [done|]. by apply Z.ltb_lt.
    - exists (Ok tt), (world s4), []. split; [apply runs_ret|done]. }
  destruct r4 as [[]|e].
  - destruct Hr4 as [Hns4 Hsk4].
    destruct (steps_5_6_runs start_time
                {| world := w4; trace := trace s4 ++ e4 |})
      as (w' & e5 & costs & duration & H5 & Hsk5 & Hns5).
    exists (Ok true), w', ([Step 3] ++ e2 ++ e3 ++ [Step 4] ++ e4 ++ e5).
    split; [|split; [done|split]].
    + eapply runs_bind; [apply runs_emit|].
      eapply runs_bind; [exact H2|].
      eapply runs_bind; [exact H3|].
      eapply runs_bind; [apply runs_emit|].
      eapply runs_bind; [exact H4|exact H5].
    + apply (no_switch_failed_app [_]); [done|].
      apply no_switch_failed_app; [done|].
      apply (no_switch_failed_app [_; _]); [done|].
      apply (no_switch_failed_app [_]); [done|].
      by apply no_switch_failed_app.
    + exists costs, duration. unfold steps_3_6_events.
      rewrite !skeleton_app, Hsk2, Hsk4, Hsk5. reflexivity.
  - destruct Hr4 as [-> Htot].
    exists (Raise e), w4,
      ([Step 3] ++ e2 ++ e3 ++ [Step 4]
       ++ [Call populate_analytics_tables_m;
           Exec (UseWarehouse (interactive_warehouse config)) (Some e)]).
    split.
    + eapply runs_bind; [apply runs_emit|].
      eapply runs_bind; [exact H2|].
      eapply runs_bind; [exact H3|].
      eapply runs_bind; [apply runs_emit|].
      eapply runs_bind_raise. exact H4.
    + exists true, ([Step 3] ++ e2 ++ e3 ++ [Step 4; Call populate_analytics_tables_m]).
      split; [|split; [|split; [|done]]].
      * by rewrite <- !app_assoc.
      * unfold aborted_steps_events. rewrite !skeleton_app, Hsk2. reflexivity.
      * apply (no_switch_failed_app [_]); [done|].
        apply no_switch_failed_app; [done|].
        by apply (no_switch_failed_app [_; _]).
Qed.

Lemma runs_try_ok {A} (m : M W A) (h : Err → M W A) s a w1 e1 :
  runs m s (Ok a) w1 e1 → runs (try_except m h) s (Ok a) w1 e1.
Proof. unfold runs, try_except. by intros ->. Qed.

Lemma runs_try_raise {A} (m : M W A) (h : Err → M W A) s e w1 e1 r w2 e2 :
  runs m s (Raise e) w1 e1 →
  runs (h e) {| world := w1; trace := trace s ++ e1 |} r w2 e2 →
  runs (try_except m h) s r w2 (e1 ++ e2).
Proof.
  unfold runs, try_except. intros -> Hh. rewrite Hh. by rewrite app_assoc.
Qed.

Lemma runs_get_now_bind {A} (k : Z → M W A) s r w' evs :
  runs (k (now (world s))) s r w' evs → runs (bind get_now k) s r w' evs.
Proof. unfold runs, bind, get_now. done. Qed.

Lemma total_pending_changes_runs (s : State W) total w' evs :
  runs run_pipeline_steps_1_2 s (Ok total) w' evs →
  total_pending_changes s = total.
Proof. unfold runs, total_pending_changes. by intros ->. Qed.

(** Every run of [run_pipeline] returns, and ends in one of two ways. *)
Lemma run_pipeline_runs (s : State W) :
  ∃ b w' evs,
    runs (run_pipeline config) s (Ok b) w' evs
    ∧ if b then complete_run config (total_pending_changes s) evs
      else aborted_run config (total_pending_changes s) evs.
Proof.
  destruct (steps_1_2_runs s) as (total & w1 & e1 & H1 & Hsk1 & Hns1 & _).
  rewrite (total_pending_changes_runs _ _ _ _ H1).
  destruct (steps_3_6_runs (now (world s)) total
              {| world := w1; trace := trace s ++ e1 |})
    as ([b|e] & w2 & e2 & H2 & Hr).
  - destruct Hr as (-> & Hns2 & costs & duration & Hsk2).
    exists true, w2, (e1 ++ e2). split.
    + apply runs_get_now_bind, runs_try_ok. eapply runs_bind; [exact H1|exact H2].
    + split; [by apply no_switch_failed_app|].
      exists (streams_of (execute (SelectStreams "RAW_DATA") (world s)).1),
        costs, duration.
      unfold complete_events. by rewrite skeleton_app, Hsk1, Hsk2.
  - destruct Hr as (in_populate & pre & -> & Hsk2 & Hns2 & Htot).
    pose proof (log_audit_entry_runs "PIPELINE_ERROR" e
                  {| world := w2;
                     trace := trace s ++ e1 ++ pre
                              ++ [Exec (failed_switch config in_populate) (Some e)] |})
      as H3.
    cbv zeta in H3. cbn [world] in H3.
    exists false, (execute (audit_statement "PIPELINE_ERROR" e) w2).2,
      ((e1 ++ pre ++ [Exec (failed_switch config in_populate) (Some e)])
       ++ [Call log_audit_entry_m;
           Exec (audit_statement "PIPELINE_ERROR" e)
             (err_of (execute (audit_statement "PIPELINE_ERROR" e) w2).1)] ++ []).
    split.
    + apply runs_get_now_bind. eapply runs_try_raise.
      * eapply runs_bind; [exact H1|]. eapply H2.
      * eapply runs_bind; [exact H3|apply runs_ret].
    + exists (streams_of (execute (SelectStreams "RAW_DATA") (world s)).1),
        in_populate, (e1 ++ pre), e,
        (err_of (execute (audit_statement "PIPELINE_ERROR" e) w2).1).
      split; [|split; [|split; [|exact Htot]]].
      * rewrite app_nil_r, <- !app_assoc. reflexivity.
      * unfold aborted_prefix. by rewrite skeleton_app, Hsk1, Hsk2.
      * by apply no_switch_failed_app.
Qed.

End Laws.

(** * Reading the history of a run *)

Section Readings.
Context {W : Type} `{!QueryExecutor W} `{!PyRuntime W}.
Variable config : Config.

Lemma call_count_app m (a b : list Event) :
  call_count m (a ++ b) = call_count m a + call_count m b.
Proof. unfold call_count. by rewrite List.filter_app, length_app. Qed.

Lemma call_count_skeleton m (tr : list Event) :
  call_count m (skeleton tr) = call_count m tr.
Proof.
  unfold call_count. induction tr as [|ev tr IH]; simpl; [done|].
  assert (is_call m (erase_outcome ev) = is_call m ev) as -> by by destruct ev.
  by destruct (is_call m ev); simpl; rewrite IH.
Qed.

Lemma fact_statement_skeleton (tr : list Event) :
  existsb is_fact_statement (skeleton tr) = existsb is_fact_statement tr.
Proof. induction tr as [|[| |[]] tr IH]; simpl; by rewrite ?IH. Qed.

Lemma count_events_no_populate (streams : list StreamInfo) :
  call_count populate_analytics_tables_m (count_events streams) = 0
  ∧ existsb is_fact_statement (count_events streams) = false.
Proof. induction streams; simpl; [done|apply IHstreams]. Qed.

Lemma count_events_no_audit (streams : list StreamInfo) :
  audit_entries_written (count_events streams) = [].
Proof. induction streams; simpl; [done|apply IHstreams]. Qed.

Lemma count_events_marks (streams : list StreamInfo) :
  marks (count_events streams)
  = replicate (length streams) (Call get_stream_change_count_m).
Proof. induction streams; simpl; [done|]. f_equal. apply IHstreams. Qed.

Lemma fully_successful_skeleton (tr : list Event) :
  fully_successful tr = true → skeleton tr = tr.
Proof.
  induction tr as [|ev tr IH]; simpl; [done|].
  intros [Hev Htr]%andb_true_iff. rewrite (IH Htr).
  by destruct ev as [| |q []].
Qed.

Lemma fully_successful_app (a b : list Event) :
  fully_successful (a ++ b) = fully_successful a && fully_successful b.
Proof. apply forallb_app. Qed.

Lemma per_step_skeleton (p : Event → bool) (tr : list Event) n :
  (∀ ev, p (erase_outcome ev) = p ev) →
  per_step p (skeleton tr) n = per_step p tr n.
Proof.
  intros Hp. unfold skeleton. revert n.
  induction tr as [|[k|m|q r] tr IH]; intros n; simpl.
  - done.
  - by rewrite IH.
  - by rewrite IH.
  - pose proof (Hp (Exec q r)) as Hq. simpl in Hq. by rewrite Hq, IH.
Qed.

Lemma per_step_count_events (p : Event → bool) (streams : list StreamInfo)
    (rest : list Event) n :
  p (Call get_stream_change_count_m) = false →
  (∀ name, p (Exec (SelectCount "RAW_DATA" name) None) = false) →
  per_step p (count_events streams ++ rest) n = per_step p rest n.
Proof.
  intros Hcall Hcount.
  induction streams as [|stream streams IH]; simpl; [done|].
  by rewrite Hcall, Hcount.
Qed.

Lemma per_step_le (p q : Event → bool) (tr : list Event) n m :
  (∀ ev, p ev = true → q ev = true) → n ≤ m →
  Forall2 le (per_step p tr n) (per_step q tr m).
Proof.
  intros Hpq. revert n m.
  induction tr as [|ev tr IH]; intros n m Hnm.
  - simpl. by repeat constructor.
  - destruct ev as [k|c|stmt r]; simpl.
    + constructor; [done|]. by apply IH.
    + apply IH. specialize (Hpq (Call c)).
      destruct (p (Call c)), (q (Call c)); auto with lia.
    + apply IH. specialize (Hpq (Exec stmt r)).
      destruct (p (Exec stmt r)), (q (Exec stmt r)); auto with lia.
Qed.

Lemma per_step_agree (p q : Event → bool) (tr : list Event) n :
  Forall (fun ev => p ev = q ev) tr → per_step p tr n = per_step q tr n.
Proof.
  intros Hall. revert n.
  induction Hall as [|ev tr Hev _ IH]; intros n; [done|].
  destruct ev; simpl; by rewrite ?Hev, IH.
Qed.

Lemma per_step_sum (p : Event → bool) (tr : list Event) n :
  (∀ k, p (Step k) = false) →
  sum_list (per_step p tr n) = n + length (List.filter p tr).
Proof.
  intros Hstep. revert n. induction tr as [|ev tr IH]; intros n; [simpl; lia|].
  destruct ev as [k|c|stmt r]; simpl.
  - rewrite IH, Hstep. simpl. lia.
  - rewrite IH. destruct (p (Call c)); simpl; lia.
  - rewrite IH. destruct (p (Exec stmt r)); simpl; lia.
Qed.

Lemma audit_entries_written_length (tr : list Event) :
  length (audit_entries_written tr) = length (List.filter is_audit_written tr).
Proof.
  unfold audit_entries_written.
  induction tr as [|ev tr IH]; [done|].
  destruct ev as [| |[] []]; csimpl; by rewrite ?IH.
Qed.

Lemma no_failed_insert_written (tr : list Event) :
  existsb audit_insert_failed tr = false →
  Forall (fun ev => is_audit_written ev = is_audit_insert ev) tr.
Proof.
  induction tr as [|ev tr IH]; [constructor|].
  cbn [existsb]. intros [Hev Htr]%orb_false_iff.
  constructor; [|by apply IH].
  by destruct ev as [| |[] []].
Qed.

Lemma marks_skeleton (tr : list Event) : marks (skeleton tr) = marks tr.
Proof.
  unfold marks. induction tr as [|[] tr IH]; simpl; by rewrite ?IH.
Qed.

Lemma marks_app (a b : list Event) : marks (a ++ b) = marks a ++ marks b.
Proof. apply List.filter_app. Qed.

Lemma audit_entries_written_app (a b : list Event) :
  audit_entries_written (a ++ b)
  = audit_entries_written a ++ audit_entries_written b.
Proof. apply omap_app. Qed.

Lemma tier_switch_failed_in (pre post : list Event) q e :
  is_switch (Exec q (Some e)) = true →
  existsb tier_switch_failed (pre ++ Exec q (Some e) :: post) = true.
Proof.
  intros Hq. rewrite existsb_app. simpl.
  destruct q; try discriminate. simpl. apply orb_true_r.
Qed.

(** A run from an empty history. *)
Lemma run_pipeline_outcome (w : W) :
  ∃ b,
    (run_pipeline config (init w)).1 = Ok b
    ∧ if b
      then complete_run config (total_pending_changes (init w))
             (trace (run_pipeline config (init w)).2)
      else aborted_run config (total_pending_changes (init w))
             (trace (run_pipeline config (init w)).2).
Proof.
  destruct (run_pipeline_runs config (init w)) as (b & w' & evs & Hruns & H).
  exists b. unfold runs in Hruns. rewrite Hruns. done.
Qed.

(** [run_pipeline] never raises: it returns [False] exactly when a tier
    switch raised. *)
Lemma run_pipeline_result (w : W) :
  (run_pipeline config (init w)).1
  = Ok (negb (existsb tier_switch_failed (trace (run_pipeline config (init w)).2))).
Proof.
  destruct (run_pipeline_outcome w) as ([] & -> & H).
  - destruct H as [-> _]. done.
  - destruct H as (streams & in_populate & pre & e & r & -> & _).
    rewrite tier_switch_failed_in; done.
Qed.

Lemma complete_events_no_populate streams costs duration total :
  (0 <? total)%Z = false →
  call_count populate_analytics_tables_m
    (complete_events (W:=W) config streams total costs duration) = 0
  ∧ existsb is_fact_statement
      (complete_events (W:=W) config streams total costs duration) = false.
Proof.
  intros Htot. unfold complete_events, steps_1_2_events, steps_3_6_events.
  rewrite Htot.
  destruct (count_events_no_populate streams) as [Hc Hf].
  rewrite !call_count_app, !existsb_app, Hc, Hf. done.
Qed.

Lemma aborted_prefix_no_populate streams :
  call_count populate_analytics_tables_m (aborted_prefix config streams false) = 0
  ∧ existsb is_fact_statement (aborted_prefix config streams false) = false.
Proof.
  unfold aborted_prefix, steps_1_2_events.
  destruct (count_events_no_populate streams) as [Hc Hf].
  rewrite !call_count_app, !existsb_app, Hc, Hf. done.
Qed.

End Readings.

(** * The run as a whole *)

Lemma total_pending_changes_no_streams {W : Type} `{!QueryExecutor W} (w : W) :
  streams_of (execute (SelectStreams "RAW_DATA") w).1 = [] →
  total_pending_changes (init w) = 0%Z.
Proof.
  intros Hnone.
  destruct (steps_1_2_runs (init w)) as (total & w' & evs & Hruns & _ & _ & Htotal).
  rewrite (total_pending_changes_runs _ _ _ _ Hruns). by apply Htotal.
Qed.

(** The process, once the connection is opened: its history is the one of
    the run, and it exits with 0 when no tier switch raised and both
    [cursor.close()] and [conn.close()] returned, with 1 otherwise. *)
Lemma main_connected {W : Type} `{!QueryExecutor W} `{!PyRuntime W}
    `{!Connector W} (w : W) :
  connect_session main_config = Ok w →
  let run := run_pipeline main_config (init w) in
  history main = trace run.2
  ∧ exit_status (termination main)
    = (if existsb tier_switch_failed (trace run.2) then 1
       else match close_cursor (world run.2) with
            | Ok _ => match close_connection (world run.2) with
                      | Ok _ => 0
                      | Raise _ => 1
                      end
            | Raise _ => 1
            end)%Z.
Proof.
  intros Hconnect run. subst run. unfold main, connect. rewrite Hconnect.
  pose proof (run_pipeline_result main_config w) as Hres.
  destruct (run_pipeline main_config (init w)) as [r s].
  cbn [fst snd] in *. rewrite Hres.
  destruct (close_cursor (world s)) as [[]|ec];
    [destruct (close_connection (world s)) as [[]|en]|];
    cbn [history termination exit_status];
    by destruct (existsb tier_switch_failed (trace s)).
Qed.

Lemma zero_backlog_no_populate {W : Type} `{!QueryExecutor W} `{!PyRuntime W}
    (config : Config) (w : W) :
  total_pending_changes (init w) = 0%Z →
  call_count populate_analytics_tables_m
    (trace (run_pipeline config (init w)).2) = 0
  ∧ existsb is_fact_statement (trace (run_pipeline config (init w)).2) = false.
Proof.
  intros Hzero.
  destruct (run_pipeline_outcome config w) as (b & Hb & H).
  rewrite Hzero in H.
  destruct b.
  - destruct H as (_ & streams & costs & duration & Hsk).
    rewrite <- call_count_skeleton, <- fact_statement_skeleton, Hsk.
    by apply complete_events_no_populate.
  - destruct H as (streams & in_populate & pre & e & r & -> & Hsk & _ & Htot).
    destruct in_populate; [by specialize (Htot eq_refl)|].
    destruct (aborted_prefix_no_populate config streams) as [Hc Hf].
    rewrite call_count_app, existsb_app.
    rewrite <- (call_count_skeleton _ pre), <- (fact_statement_skeleton pre), Hsk.
    rewrite Hc, Hf. done.
Qed.

(** C1, as amended.  When the pending-change counts sum to 0, which is the
    case in particular when [check_stream_status] returns no stream,
    [populate_analytics_tables] is never entered and no fact table is
    truncated or filled; [run_pipeline] returns [True] exactly when no tier
    switch raised, and [False] otherwise.  The process, which calls
    [close] after the run (line 296), exits with 0 exactly when
    [run_pipeline] returned [True] and both [cursor.close()] and
    [conn.close()] returned, and with 1 otherwise. *)
Theorem zero_backlog_skips_populate {W : Type} `{!QueryExecutor W} `{!PyRuntime W}
    (config : Config) (w : W) :
  (streams_of (execute (SelectStreams "RAW_DATA") w).1 = [] →
   total_pending_changes (init w) = 0%Z)
  ∧ (total_pending_changes (init w) = 0%Z →
     let run := run_pipeline config (init w) in
     call_count populate_analytics_tables_m (trace run.2) = 0
     ∧ existsb is_fact_statement (trace run.2) = false
     ∧ run.1 = Ok (negb (existsb tier_switch_failed (trace run.2))))
  ∧ (∀ connector : Connector W,
       connect_session main_config = Ok w →
       total_pending_changes (init w) = 0%Z →
       let run := run_pipeline main_config (init w) in
       call_count populate_analytics_tables_m (history main) = 0
       ∧ existsb is_fact_statement (history main) = false
       ∧ exit_status (termination main)
         = (if existsb tier_switch_failed (trace run.2) then 1
            else match close_cursor (world run.2) with
                 | Ok _ => match close_connection (world run.2) with
                           | Ok _ => 0
                           | Raise _ => 1
                           end
                 | Raise _ => 1
                 end)%Z).
Proof.
  split; [apply total_pending_changes_no_streams|]. split.
  - intros Hzero run. subst run.
    destruct (zero_backlog_no_populate config w Hzero) as [Hcalls Hfacts].
    repeat split; [done..|]. apply run_pipeline_result.
  - intros connector Hconnect Hzero run. subst run.
    destruct (main_connected w Hconnect) as [-> Hexit].
    destruct (zero_backlog_no_populate main_config w Hzero) as [Hcalls Hfacts].
    done.
Qed.

Lemma zero_backlog_skips_populate_witness :
  total_pending_changes (init Warehouse.busy_clinic_unreachable) = 0%Z
  ∧ total_pending_changes (init Warehouse.idle_clinic) = 0%Z
  ∧ call_count populate_analytics_tables_m
      (trace (run_pipeline main_config (init Warehouse.idle_clinic)).2) = 0
  ∧ (run_pipeline main_config (init Warehouse.idle_clinic)).1 = Ok true
  ∧ exit_status
      (termination (main (Connector0 := open_db (Some Warehouse.idle_clinic))))
    = 0%Z
  ∧ exit_status
      (termination (main (Connector0 := stuck_cursor Warehouse.idle_clinic)))
    = 1%Z.
Proof.
  assert (total_pending_changes (init Warehouse.idle_clinic) = 0%Z) as Hidle
    by by vm_compute.
  split.
  { apply (proj1 (zero_backlog_skips_populate main_config
                    Warehouse.busy_clinic_unreachable)).
    by vm_compute. }
  split; [exact Hidle|].
  destruct (proj1 (proj2 (zero_backlog_skips_populate main_config
                            Warehouse.idle_clinic)) Hidle)
    as (Hcalls & _ & Hres).
  split; [exact Hcalls|].
  split; [rewrite Hres; by vm_compute|].
  split.
  - destruct (proj2 (proj2 (zero_backlog_skips_populate main_config
                              Warehouse.idle_clinic))
                (open_db (Some Warehouse.idle_clinic)) eq_refl Hidle)
      as (_ & _ & ->).
    by vm_compute.
  - destruct (proj2 (proj2 (zero_backlog_skips_populate main_config
                              Warehouse.idle_clinic))
                (stuck_cursor Warehouse.idle_clinic) eq_refl Hidle)
      as (_ & _ & ->).
    by vm_compute.
Defined.

(** C1 as stated does not hold: on the idle clinic whose CDC warehouse has
    been dropped the counts sum to 0, and [run_pipeline] returns [False]:
    the process exits with 1. *)
Lemma zero_backlog_run_can_fail :
  total_pending_changes (init Warehouse.idle_clinic_without_cdc) = 0%Z
  ∧ (run_pipeline main_config (init Warehouse.idle_clinic_without_cdc)).1 = Ok false
  ∧ termination
      (main (Connector0 := open_db (Some Warehouse.idle_clinic_without_cdc)))
    = Exited 1.
Proof. by vm_compute. Qed.




(** * The orchestrator on the reference warehouse *)

Section Reference.
Import Warehouse.

Lemma run_not_faulted q (db : Db) :
  faulted db 0 = false →
  run q db = interpret q (with_faults db (tail (faults db))).
Proof. unfold faulted, run. by destruct (faults db) as [|[] rest]. Qed.

Lemma run_faulted q (db : Db) :
  faulted db 0 = true →
  run q db = (Raise "Network error", with_faults db (tail (faults db))).
Proof. unfold faulted, run. by destruct (faults db) as [|[] rest]. Qed.

Lemma run_faults q (db : Db) : faults (run q db).2 = tail (faults db).
Proof.
  unfold run. destruct (faults db) as [|[] rest] eqn:Hf; simpl; [|done|];
    destruct q; simpl; repeat case_match; simpl; done.
Qed.

Lemma run_all_app qs1 qs2 (db : Db) :
  run_all (qs1 ++ qs2) db = run_all qs2 (run_all qs1 db).
Proof. revert db. induction qs1; intros db; simpl; [done|apply IHqs1]. Qed.

Lemma run_all_faulted qs (db : Db) i :
  faulted (run_all qs db) i = faulted db (length qs + i).
Proof.
  revert db. induction qs as [|q qs IH]; intros db; simpl; [done|].
  rewrite IH. unfold faulted. rewrite run_faults.
  by destruct (faults db).
Qed.

Lemma run_other_table q (db : Db) t :
  target q ≠ Some t → tables (run q db).2 !! t = tables db !! t.
Proof.
  intros Ht. unfold run.
  destruct (faults db) as [|[] rest]; simpl; [|done|];
    destruct q; simpl in *; repeat case_match; simpl; try done;
    rewrite lookup_insert_ne; congruence.
Qed.

Lemma run_all_other_table qs (db : Db) t :
  Forall (fun q => target q ≠ Some t) qs →
  tables (run_all qs db) !! t = tables db !! t.
Proof.
  revert db. induction qs as [|q qs IH]; intros db Hqs; simpl; [done|].
  inversion_clear Hqs. rewrite IH by done. by apply run_other_table.
Qed.

Lemma run_warehouse q (db : Db) :
  is_switch (Exec q None) = false →
  current_warehouse (run q db).2 = current_warehouse db.
Proof.
  intros Hq. unfold run.
  destruct (faults db) as [|[] rest]; simpl; [|done|];
    destruct q; simpl in *; repeat case_match; simpl; done.
Qed.

Lemma run_all_warehouse qs (db : Db) :
  Forall (fun q => is_switch (Exec q None) = false) qs →
  current_warehouse (run_all qs db) = current_warehouse db.
Proof.
  revert db. induction qs as [|q qs IH]; intros db Hqs; simpl; [done|].
  inversion_clear Hqs. rewrite IH by done. by apply run_warehouse.
Qed.

(** One entity of the population: its TRUNCATE followed by its INSERT. *)
Lemma run_truncate_insert (db : Db) dst src op old staged :
  dst ≠ src →
  tables db !! dst = Some old →
  tables db !! src = Some staged →
  tables (run_all [TruncateTable dst; InsertSelectWhereOpNe dst src op] db) !! dst
  = Some ((if faulted db 0 then old else [])
          ++ (if faulted db 1 then [] else List.filter (op_ne op) staged)).
Proof.
  intros Hne Hdst Hsrc. simpl. unfold run at 1 2, faulted.
  destruct (faults db) as [|[] [|[] rest]]; simpl; rewrite ?Hdst, ?Hsrc; simpl;
    rewrite ?lookup_insert_eq, ?lookup_insert_ne, ?Hsrc, ?Hdst by done; simpl;
    rewrite ?lookup_insert_eq, ?app_nil_r; done.
Qed.

Lemma for_each_cons {A} (x : A) l (body : A → M Db unit) (s : State Db) :
  for_each (x :: l) body s
  = match body x s with
    | (Ok _, s') => for_each l body s'
    | (Raise e, s') => (Raise e, s')
    end.
Proof. reflexivity. Qed.

Lemma for_each_try_world (qs : list Stmt) (s : State Db) :
  (for_each qs (fun query =>
      try_except (do _ <- exec query; ret tt) (fun e => ret tt)) s).1 = Ok tt
  ∧ world (for_each qs (fun query =>
      try_except (do _ <- exec query; ret tt) (fun e => ret tt)) s).2
    = run_all qs (world s).
Proof.
  revert s. induction qs as [|q qs IH]; intros s; [done|].
  pose proof (runs_try_exec q s) as Hq. unfold runs in Hq.
  rewrite for_each_cons, Hq. apply IH.
Qed.

Lemma run_all_entity pre post (db : Db) dst src op old staged :
  dst ≠ src →
  Forall (fun q => target q ≠ Some dst) pre →
  Forall (fun q => target q ≠ Some src) pre →
  Forall (fun q => target q ≠ Some dst) post →
  tables db !! dst = Some old →
  tables db !! src = Some staged →
  tables (run_all (pre ++ [TruncateTable dst; InsertSelectWhereOpNe dst src op]
                   ++ post) db) !! dst
  = Some ((if faulted db (length pre) then old else [])
          ++ (if faulted db (length pre + 1) then []
              else List.filter (op_ne op) staged)).
Proof.
  intros Hne Hpre_dst Hpre_src Hpost Hdst Hsrc.
  rewrite !run_all_app, run_all_other_table by done.
  rewrite (run_truncate_insert _ dst src op old staged); [|done|..].
  - rewrite !run_all_faulted. by rewrite Nat.add_0_r.
  - by rewrite run_all_other_table.
  - by rewrite run_all_other_table.
Qed.

(** What the ten statements leave in the fact table of the [i]-th entity. *)
Lemma analytics_queries_fact_table (db : Db) i entity old staged :
  entities !! i = Some entity →
  tables db !! fact_table entity = Some old →
  tables db !! staged_table entity = Some staged →
  tables (run_all analytics_queries db) !! fact_table entity
  = Some ((if faulted db (2 * i) then old else [])
          ++ (if faulted db (2 * i + 1) then []
              else List.filter (op_ne "DELETE") staged)).
Proof.
  intros Hi Hfact Hstaged.
  destruct i as [|[|[|[|[|i]]]]]; simpl in Hi; [..|done];
    injection Hi as <-.
  - apply (run_all_entity [] (drop 2 analytics_queries)); try done;
      repeat constructor; by vm_compute.
  - apply (run_all_entity (take 2 analytics_queries) (drop 4 analytics_queries));
      try done; repeat constructor; by vm_compute.
  - apply (run_all_entity (take 4 analytics_queries) (drop 6 analytics_queries));
      try done; repeat constructor; by vm_compute.
  - apply (run_all_entity (take 6 analytics_queries) (drop 8 analytics_queries));
      try done; repeat constructor; by vm_compute.
  - apply (run_all_entity (take 8 analytics_queries) []);
      try done; repeat constructor; by vm_compute.
Qed.

Lemma bind_emit {A} ev (k : unit → M Db A) (s : State Db) :
  bind (emit ev) k s = k tt {| world := world s; trace := trace s ++ [ev] |}.
Proof. reflexivity. Qed.

Lemma bind_exec_ok {A} q (k : Cursor (Rows q) → M Db A) (s : State Db) c db' :
  run q (world s) = (Ok c, db') →
  bind (exec q) k s = k c {| world := db'; trace := trace s ++ [Exec q None] |}.
Proof.
  intros Hq. unfold bind, exec, execute, Warehouse_executor. by rewrite Hq.
Qed.

Lemma populate_on_warehouse (config : Config) (db : Db) :
  faulted db 0 = false →
  interactive_warehouse config ∈ warehouses db →
  (populate_analytics_tables config (init db)).1 = Ok tt
  ∧ world (populate_analytics_tables config (init db)).2
    = run_all analytics_queries
        (with_warehouse (with_faults db (tail (faults db)))
           (interactive_warehouse config)).
Proof.
  intros Hfault Hwh.
  assert (run (UseWarehouse (interactive_warehouse config)) db
          = (Ok (rows [tt]),
             with_warehouse (with_faults db (tail (faults db)))
               (interactive_warehouse config))) as Hq.
  { rewrite run_not_faulted by done.
    cbn [interpret]. by rewrite bool_decide_true. }
  unfold populate_analytics_tables. rewrite bind_emit.
  rewrite (bind_exec_ok _ _ {| world := db; trace := _ |} _ _ Hq).
  apply for_each_try_world.
Qed.

Lemma op_ne_spec op (r : CdcRow) :
  op_ne op r = true ↔ ∃ o, cdc_operation r = Some o ∧ o ≠ op.
Proof.
  unfold op_ne. destruct (cdc_operation r) as [o|].
  - rewrite negb_true_iff, String.eqb_neq. split.
    + intros Hne. by exists o.
    + by intros (o' & [= ->] & Hne).
  - split; [done|]. by intros (o & Ho & _).
Qed.

Lemma faulted_after_switch (db : Db) wh i :
  faulted (with_warehouse (with_faults db (tail (faults db))) wh) i
  = faulted db (S i).
Proof. unfold faulted. simpl. by destruct (faults db). Qed.

(** What [populate_analytics_tables] leaves in the fact table of the
    [i]-th entity, when the tier switch succeeds. *)
Lemma populate_fact_table (config : Config) (db : Db) i entity old staged :
  faulted db 0 = false →
  interactive_warehouse config ∈ warehouses db →
  entities !! i = Some entity →
  tables db !! fact_table entity = Some old →
  tables db !! staged_table entity = Some staged →
  tables (world (populate_analytics_tables config (init db)).2)
    !! fact_table entity
  = Some ((if faulted db (1 + 2 * i) then old else [])
          ++ (if faulted db (2 + 2 * i) then []
              else List.filter (op_ne "DELETE") staged)).
Proof.
  intros Hfault Hwh Hi Hfact Hstaged.
  destruct (populate_on_warehouse config db Hfault Hwh) as [_ ->].
  rewrite (analytics_queries_fact_table _ i entity old staged) by done.
  rewrite !faulted_after_switch. by rewrite Nat.add_1_r.
Qed.

Lemma populate_current_warehouse (config : Config) (db : Db) :
  faulted db 0 = false →
  interactive_warehouse config ∈ warehouses db →
  current_warehouse (world (populate_analytics_tables config (init db)).2)
  = interactive_warehouse config.
Proof.
  intros Hfault Hwh.
  destruct (populate_on_warehouse config db Hfault Hwh) as [_ ->].
  rewrite run_all_warehouse; [done|]. repeat constructor.
Qed.

End Reference.

(** * The components *)

Lemma skeleton_lookup (evs : list Event) k q :
  skeleton evs !! k = Some (Exec q None) → ∃ r, evs !! k = Some (Exec q r).
Proof.
  unfold skeleton. rewrite list_lookup_fmap.
  destruct (evs !! k) as [[]|]; simpl; intros [= <-]; eauto.
Qed.

Lemma analytics_queries_lookup i entity :
  entities !! i = Some entity →
  map (fun query => Exec query None) analytics_queries !! (2 * i)
  = Some (Exec (truncate_of entity) None)
  ∧ map (fun query => Exec query None) analytics_queries !! (2 * i + 1)
    = Some (Exec (insert_of entity) None).
Proof.
  intros Hi. destruct i as [|[|[|[|[|i]]]]]; simpl in Hi; [..|done];
    injection Hi as <-; by split.
Qed.

(** C2, as amended.  [populate_analytics_tables] first issues the switch to
    the interactive tier.  When that statement does not raise, each of the
    five entities then receives exactly one TRUNCATE and one INSERT, in the
    order patients, encounters, prescriptions, lab results, vital signs,
    whatever the outcome of any of these statements; when it raises, the
    method raises and no further statement is issued.  On the reference
    warehouse, after the switch the session is on the interactive tier, and
    an entity whose two statements succeed has as its fact table the staged
    rows whose [_cdc_operation] is set and is not DELETE. *)
Theorem populate_replaces_each_entity :
  (∀ (W : Type) (QE : QueryExecutor W) (config : Config) (s : State W),
     (∃ w' evs,
        populate_analytics_tables config s
        = (Ok tt,
           {| world := w';
              trace := trace s
                       ++ [Call populate_analytics_tables_m;
                           Exec (UseWarehouse (interactive_warehouse config)) None]
                       ++ evs |})
        ∧ skeleton evs
          = flat_map (fun entity => [Exec (truncate_of entity) None;
                                     Exec (insert_of entity) None]) entities)
     ∨ (∃ e w',
          populate_analytics_tables config s
          = (Raise e,
             {| world := w';
                trace := trace s
                         ++ [Call populate_analytics_tables_m;
                             Exec (UseWarehouse (interactive_warehouse config))
                               (Some e)] |})))
  ∧ (∀ (config : Config) (db : Warehouse.Db) i entity old staged,
       Warehouse.faulted db 0 = false →
       interactive_warehouse config ∈ Warehouse.warehouses db →
       entities !! i = Some entity →
       Warehouse.tables db !! fact_table entity = Some old →
       Warehouse.tables db !! staged_table entity = Some staged →
       Warehouse.faulted db (1 + 2 * i) = false →
       Warehouse.faulted db (2 + 2 * i) = false →
       let db' := world (populate_analytics_tables config (init db)).2 in
       Warehouse.current_warehouse db' = interactive_warehouse config
       ∧ Warehouse.tables db' !! fact_table entity
         = Some (List.filter (Warehouse.op_ne "DELETE") staged)
       ∧ ∀ row, row ∈ List.filter (Warehouse.op_ne "DELETE") staged
                ↔ row ∈ staged
                  ∧ ∃ op, Warehouse.cdc_operation row = Some op ∧ op ≠ "DELETE").
Proof.
  split.
  - intros W QE config s.
    destruct (populate_analytics_tables_runs config s) as [H|H]; [left|right]; exact H.
  - intros config db i entity old staged Hfault Hwh Hi Hfact Hstaged Ht Hins db'.
    subst db'. split; [by apply populate_current_warehouse|]. split.
    + rewrite (populate_fact_table config db i entity old staged) by done.
      by rewrite Ht, Hins.
    + intros row. by rewrite !list_elem_of_In, filter_In, op_ne_spec.
Qed.

Lemma populate_replaces_each_entity_witness :
  Warehouse.tables
    (world (populate_analytics_tables main_config (init Warehouse.busy_clinic)).2)
    !! fact_table "PATIENTS"
  = Some (List.filter (Warehouse.op_ne "DELETE") Warehouse.staged_rows).
Proof.
  destruct (proj2 populate_replaces_each_entity main_config Warehouse.busy_clinic 0
              "PATIENTS" [Warehouse.change "INSERT" 0] Warehouse.staged_rows)
    as (_ & Hfact & _);
    [by vm_compute|by apply (bool_decide_unpack _); vm_compute|by vm_compute..
    |exact Hfact].
Defined.

(** C2 as stated does not hold: on the busy clinic whose interactive
    warehouse has been dropped, 15 changes are pending and
    [populate_analytics_tables] is entered once, but no entity receives a
    TRUNCATE or an INSERT. *)
Lemma populate_without_statements :
  let run := run_pipeline main_config
               (init Warehouse.busy_clinic_without_interactive) in
  total_pending_changes (init Warehouse.busy_clinic_without_interactive) = 15%Z
  ∧ call_count populate_analytics_tables_m (trace run.2) = 1
  ∧ existsb is_fact_statement (trace run.2) = false.
Proof. by vm_compute. Qed.

(** C10.  In [populate_analytics_tables] each statement has its own [try]:
    once the tier switch has succeeded, the TRUNCATE and the INSERT of every
    entity are both executed whatever their outcomes, so that the INSERT of
    an entity follows its TRUNCATE also when the TRUNCATE raised.  On the
    reference warehouse, when the TRUNCATE of an entity fails and its INSERT
    succeeds, the fact table ends up with its old rows followed by the
    staged rows that are not deletions. *)
Theorem insert_runs_after_failed_truncate :
  (∀ (W : Type) (QE : QueryExecutor W) (config : Config) (w : W),
     let run := populate_analytics_tables config (init w) in
     run.1 = Ok tt →
     ∀ i entity,
       entities !! i = Some entity →
       ∃ truncated inserted,
         trace run.2 !! (2 + 2 * i) = Some (Exec (truncate_of entity) truncated)
         ∧ trace run.2 !! (3 + 2 * i) = Some (Exec (insert_of entity) inserted))
  ∧ (∀ (config : Config) (db : Warehouse.Db) i entity old staged,
       Warehouse.faulted db 0 = false →
       interactive_warehouse config ∈ Warehouse.warehouses db →
       entities !! i = Some entity →
       Warehouse.tables db !! fact_table entity = Some old →
       Warehouse.tables db !! staged_table entity = Some staged →
       Warehouse.faulted db (1 + 2 * i) = true →
       Warehouse.faulted db (2 + 2 * i) = false →
       Warehouse.tables
         (world (populate_analytics_tables config (init db)).2)
         !! fact_table entity
       = Some (old ++ List.filter (Warehouse.op_ne "DELETE") staged)).
Proof.
  split.
  - intros W QE config w run Hok i entity Hi. subst run.
    destruct (populate_analytics_tables_runs config (init w))
      as [(w1 & evs & H1 & Hsk)|(e & w1 & H1)];
      unfold runs in H1; rewrite H1 in Hok |- *; [|discriminate].
    destruct (analytics_queries_lookup i entity Hi) as [Ht Hins].
    rewrite <- Hsk in Ht, Hins.
    apply skeleton_lookup in Ht as [truncated Ht].
    apply skeleton_lookup in Hins as [inserted Hins].
    exists truncated, inserted. cbn [snd trace init app lookup].
    rewrite Nat.add_comm in Hins. by split.
  - intros config db i entity old staged Hfault Hwh Hi Hfact Hstaged Ht Hins.
    rewrite (populate_fact_table config db i entity old staged) by done.
    by rewrite Ht, Hins.
Qed.

Lemma insert_runs_after_failed_truncate_witness :
  let db := Warehouse.clinic (10, 0, 5) tier_names [false; true; false] in
  let run := populate_analytics_tables main_config (init db) in
  (∃ inserted,
     trace run.2 !! 2 = Some (Exec (truncate_of "PATIENTS") (Some "Network error"))
     ∧ trace run.2 !! 3 = Some (Exec (insert_of "PATIENTS") inserted))
  ∧ Warehouse.tables (world run.2) !! fact_table "PATIENTS"
    = Some ([Warehouse.change "INSERT" 0]
            ++ List.filter (Warehouse.op_ne "DELETE") Warehouse.staged_rows).
Proof.
  intros db run. split.
  - assert (run.1 = Ok tt) as Hok by by vm_compute.
    destruct (proj1 insert_runs_after_failed_truncate _ _ main_config db
                Hok 0 "PATIENTS" eq_refl)
      as (truncated & inserted & _ & Hins).
    exists inserted. split; [by vm_compute|exact Hins].
  - apply (proj2 insert_runs_after_failed_truncate main_config db 0
             "PATIENTS" [Warehouse.change "INSERT" 0] Warehouse.staged_rows);
      [by vm_compute|by apply (bool_decide_unpack _); vm_compute|by vm_compute..].
Defined.

(** C6.  [log_audit_entry] never raises, whatever the executor does, and
    the one statement it issues inserts the entry with the execution status
    SUCCESS, whatever the event: on the reference warehouse the entry
    appended to the audit table has the status SUCCESS, and nothing is
    appended when the INSERT fails. *)
Theorem audit_status_is_always_success :
  (∀ (W : Type) (QE : QueryExecutor W) event_type details (s : State W),
     ∃ outcome w',
       log_audit_entry event_type details s
       = (Ok tt,
          {| world := w';
             trace := trace s
                      ++ [Call log_audit_entry_m;
                          Exec (InsertAudit (event_type +:+ ": " +:+ details)
                                  "CLINICAL_DATA_PIPELINE" "PIPELINE" "SUCCESS")
                            outcome] |}))
  ∧ (∀ (db : Warehouse.Db) event_type details,
       Warehouse.access_log
         (world (log_audit_entry event_type details (init db)).2)
       = Warehouse.access_log db
         ++ (if Warehouse.faulted db 0 then []
             else [{| Warehouse.user_name := Warehouse.current_user db;
                      Warehouse.role_name := Warehouse.current_role db;
                      Warehouse.query_text := event_type +:+ ": " +:+ details;
                      Warehouse.database_name := "CLINICAL_DATA_PIPELINE";
                      Warehouse.schema_name := "PIPELINE";
                      Warehouse.execution_status := "SUCCESS" |}])).
Proof.
  split.
  - intros W QE event_type details s.
    pose proof (log_audit_entry_runs event_type details s) as H.
    unfold runs in H. eauto.
  - intros db event_type details.
    pose proof (log_audit_entry_runs event_type details (init db)) as H.
    unfold runs in H. rewrite H. cbn [world snd init].
    unfold execute, Warehouse_executor, Warehouse.run, Warehouse.faulted.
    destruct (Warehouse.faults db) as [|[] rest]; simpl; by rewrite ?app_nil_r.
Qed.

(** C7.  [get_stream_change_count] never raises.  It returns 0 when the
    executor raises, when the fetch raises and when no row comes back, and
    the count the executor answers otherwise; on the reference warehouse
    that count is the number of rows in the change buffer of the stream. *)
Theorem change_count_fails_soft :
  (∀ (W : Type) (QE : QueryExecutor W) name (s : State W),
     let answer := (execute (SelectCount "RAW_DATA" name) (world s)).1 in
     (get_stream_change_count name s).1 = Ok (count_of answer)
     ∧ (∀ e, answer = Raise e → (get_stream_change_count name s).1 = Ok 0%Z)
     ∧ (∀ c count,
          answer = Ok c → fetchone c = Ok (Some count) →
          (get_stream_change_count name s).1 = Ok count))
  ∧ (∀ (db : Warehouse.Db) name stream,
       Warehouse.faulted db 0 = false →
       Warehouse.find_stream db "RAW_DATA" name = Some stream →
       (get_stream_change_count name (init db)).1
       = Ok (Z.of_nat (length (Warehouse.s_changes stream)))).
Proof.
  split.
  - intros W QE name s answer. subst answer.
    pose proof (get_stream_change_count_runs name s) as H.
    unfold runs in H. rewrite H. cbn [fst]. split; [done|]. split.
    + by intros e ->.
    + intros c count -> Hrow. unfold count_of.
      destruct c as [[|n l] [e|]]; unfold fetchone in *; by simplify_eq/=.
  - intros db name stream Hfault Hfind.
    pose proof (get_stream_change_count_runs name (init db)) as H.
    unfold runs in H. rewrite H. cbn [fst world init].
    unfold execute, Warehouse_executor. rewrite run_not_faulted by done.
    cbn [Warehouse.interpret].
    assert (Warehouse.find_stream
              (Warehouse.with_faults db (tail (Warehouse.faults db)))
              "RAW_DATA" name = Some stream) as -> by exact Hfind.
    reflexivity.
Qed.

Lemma change_count_fails_soft_witness :
  (get_stream_change_count "PATIENTS_STREAM" (init Warehouse.busy_clinic)).1
  = Ok 10%Z
  ∧ (get_stream_change_count "PATIENTS_STREAM"
       (init Warehouse.busy_clinic_unreachable)).1 = Ok 0%Z
  ∧ (get_stream_change_count "PATIENTS_STREAM" (init Script.null_credits)).1
    = Ok 3%Z.
Proof.
  split; [|split].
  - apply (proj2 change_count_fails_soft Warehouse.busy_clinic "PATIENTS_STREAM"
             {| Warehouse.s_name := "PATIENTS_STREAM";
                Warehouse.s_schema := "RAW_DATA";
                Warehouse.s_table := "PATIENTS";
                Warehouse.s_stale := false;
                Warehouse.s_stale_after := 9000;
                Warehouse.s_changes := map (Warehouse.change "INSERT") (seq 0 10) |});
      by vm_compute.
  - pose proof (proj1 change_count_fails_soft _ _ "PATIENTS_STREAM"
                  (init Warehouse.busy_clinic_unreachable)) as H.
    cbv zeta in H. destruct H as (_ & Hraise & _).
    apply (Hraise "Network error"). by vm_compute.
  - pose proof (proj1 change_count_fails_soft _ _ "PATIENTS_STREAM"
                  (init Script.null_credits)) as H.
    cbv zeta in H. destruct H as (_ & _ & Hrow).
    apply (Hrow {| fetched := [3%Z]; fetch_error := None |}); by vm_compute.
Defined.

Section Costs.
Import Warehouse.

Lemma costs_from_lookup (f : string → Decimal) (g : string → Z) keys
    (acc : gmap string CostEntry) :
  ∃ costs,
    costs_from (map (fun wh => (wh, Some (f wh), g wh)) keys) acc = Some costs
    ∧ ∀ wh, costs !! wh
            = if decide (wh ∈ keys)
              then Some {| credits := float_of_decimal (f wh); queries := g wh |}
              else acc !! wh.
Proof.
  revert acc. induction keys as [|k keys IH]; intros acc.
  - exists acc. split; [done|]. intros wh.
    rewrite decide_False; [done|apply not_elem_of_nil].
  - destruct (IH (<[k := {| credits := float_of_decimal (f k); queries := g k |}]> acc))
      as (costs & Hcosts & Hlookup).
    exists costs. split; [exact Hcosts|].
    intros wh. rewrite Hlookup.
    destruct (decide (wh ∈ keys)) as [Hin|Hnotin].
    + rewrite decide_True; [done|]. by apply elem_of_cons; right.
    + destruct (decide (wh = k)) as [->|Hne].
      * rewrite lookup_insert_eq. rewrite decide_True; [done|apply list_elem_of_here].
      * rewrite lookup_insert_ne by done. rewrite decide_False; [done|].
        by intros [?|?]%elem_of_cons.
Qed.

Lemma group_nil (sel : list Metering) wh :
  group sel wh = [] ↔ wh ∉ map m_warehouse_name sel.
Proof.
  unfold group. induction sel as [|m sel IH]; simpl.
  - split; [intros _; apply not_elem_of_nil|done].
  - destruct (String.eqb_spec (m_warehouse_name m) wh) as [->|Hne].
    + split; [done|]. intros Hnotin. destruct Hnotin. apply list_elem_of_here.
    + rewrite IH. split.
      * by intros Hnotin [?|?]%elem_of_cons.
      * intros Hnotin Hin. apply Hnotin. by apply elem_of_cons; right.
Qed.

Lemma in_window_spec (db : Db) days whs (m : Metering) :
  in_window db days whs m = true
  ↔ (current_timestamp db - days * day ≤ m_start_time m)%Z
    ∧ m_warehouse_name m ∈ whs.
Proof.
  unfold in_window. rewrite andb_true_iff, Z.leb_le, bool_decide_eq_true. done.
Qed.

Lemma selected_names (db : Db) days whs wh :
  wh ∈ map m_warehouse_name (selected db days whs)
  ↔ ∃ m, m ∈ metering db ∧ m_warehouse_name m = wh ∧ wh ∈ whs
         ∧ (current_timestamp db - days * day ≤ m_start_time m)%Z.
Proof.
  unfold selected. rewrite list_elem_of_fmap. split.
  - intros (m & -> & Hm).
    apply list_elem_of_In, filter_In in Hm as [Hm Hw].
    apply in_window_spec in Hw as [Ht Hw].
    exists m. by rewrite list_elem_of_In.
  - intros (m & Hm & <- & Hw & Ht). exists m. split; [done|].
    apply list_elem_of_In, filter_In. split; [by apply list_elem_of_In|].
    by apply in_window_spec.
Qed.

(** The cost statement on the reference warehouse. *)
Lemma costs_on_warehouse (db : Db) :
  faulted db 0 = false →
  let sel := selected db 7 tier_names in
  ∃ costs,
    (get_warehouse_costs (init db)).1 = Ok costs
    ∧ ∀ wh, costs !! wh
            = if decide (group sel wh = []) then None
              else Some {| credits := float_of_decimal (sum_credits (group sel wh));
                           queries := Z.of_nat (length (group sel wh)) |}.
Proof.
  intros Hfault sel.
  pose proof (get_warehouse_costs_runs (init db)) as H.
  unfold runs in H. rewrite H. cbn [fst world init].
  unfold execute, Warehouse_executor. rewrite run_not_faulted by done.
  cbn [interpret fst costs_of rows fetched fetch_error].
  unfold cost_rows.
  assert (selected (with_faults db (tail (faults db))) 7 tier_names = sel)
    as -> by done.
  destruct (costs_from_lookup (fun wh => sum_credits (group sel wh))
              (fun wh => Z.of_nat (length (group sel wh)))
              (remove_dups (map m_warehouse_name sel)) ∅)
    as (costs & -> & Hlookup).
  exists costs. split; [done|].
  intros wh. rewrite Hlookup, lookup_empty.
  destruct (decide (group sel wh = [])) as [Hnil|Hsome].
  - apply group_nil in Hnil.
    by rewrite decide_False by by rewrite elem_of_remove_dups.
  - rewrite decide_True; [done|]. rewrite elem_of_remove_dups.
    destruct (decide (wh ∈ map m_warehouse_name sel)) as [|Hnotin]; [done|].
    by apply group_nil in Hnotin.
Qed.

End Costs.

(** C8.  [check_stream_status] never raises.  It returns the empty list
    when the executor raises and when the fetch raises, and otherwise the
    rows the executor answers, in their order; on the reference warehouse
    these are the streams of the schema RAW_DATA ordered by stream name. *)
Theorem stream_status_fails_soft :
  (∀ (W : Type) (QE : QueryExecutor W) (s : State W),
     let answer := (execute (SelectStreams "RAW_DATA") (world s)).1 in
     (check_stream_status s).1 = Ok (streams_of answer)
     ∧ (∀ e, answer = Raise e → (check_stream_status s).1 = Ok [])
     ∧ (∀ c e, answer = Ok c → fetch_error c = Some e →
               (check_stream_status s).1 = Ok [])
     ∧ (∀ c, answer = Ok c → fetch_error c = None →
             (check_stream_status s).1 = Ok (map stream_info (fetched c))))
  ∧ (∀ (db : Warehouse.Db),
       Warehouse.faulted db 0 = false →
       ∃ objects streams,
         (check_stream_status (init db)).1 = Ok streams
         ∧ streams = map (fun so => stream_info (Warehouse.stream_row so)) objects
         ∧ objects ≡ₚ filter (fun so => Warehouse.s_schema so = "RAW_DATA")
                        (Warehouse.streams db)
         ∧ StronglySorted String.le (map stream_name streams)).
Proof.
  split.
  - intros W QE s answer. subst answer.
    pose proof (check_stream_status_runs s) as H.
    unfold runs in H. rewrite H. cbn [fst]. split; [done|]. split; [|split].
    + by intros e ->.
    + intros c e -> Hfetch. unfold streams_of.
      destruct c as [l fe]; simpl in *. by rewrite Hfetch.
    + intros c -> Hfetch. unfold streams_of.
      destruct c as [l fe]; simpl in *. by rewrite Hfetch.
  - intros db Hfault.
    pose proof (check_stream_status_runs (init db)) as H.
    unfold runs in H. rewrite H. cbn [fst world init].
    unfold execute, Warehouse_executor. rewrite run_not_faulted by done.
    cbn [Warehouse.interpret fst streams_of Warehouse.rows fetched fetch_error].
    set (R := fun a b : Warehouse.StreamObject =>
                String.le (Warehouse.s_name a) (Warehouse.s_name b)).
    assert (Transitive R) as HR_trans.
    { intros a b c. unfold R. apply transitivity. }
    assert (Total R) as HR_total.
    { intros a b. unfold R. apply total, _. }
    exists (Warehouse.streams_of_schema
              (Warehouse.with_faults db (tail (Warehouse.faults db))) "RAW_DATA"),
      (map (fun so => stream_info (Warehouse.stream_row so))
         (Warehouse.streams_of_schema
            (Warehouse.with_faults db (tail (Warehouse.faults db))) "RAW_DATA")).
    split; [by rewrite map_map|]. split; [done|]. split.
    + unfold Warehouse.streams_of_schema. apply merge_sort_Permutation.
    + rewrite map_map.
      apply (StronglySorted_fmap _ R String.le).
      * by intros a b.
      * unfold Warehouse.streams_of_schema. by apply StronglySorted_merge_sort.
Qed.

Lemma stream_status_fails_soft_witness :
  (∃ streams,
     (check_stream_status (init Warehouse.busy_clinic)).1 = Ok streams
     ∧ StronglySorted String.le (map stream_name streams))
  ∧ (check_stream_status (init Warehouse.busy_clinic_unreachable)).1 = Ok []
  ∧ (check_stream_status (init Script.broken_fetch)).1 = Ok []
  ∧ (check_stream_status (init Script.null_credits)).1 = Ok [].
Proof.
  split; [|split; [|split]].
  - destruct (proj2 stream_status_fails_soft Warehouse.busy_clinic)
      as (objects & streams & Hres & _ & _ & Hsorted); [by vm_compute|].
    by exists streams.
  - pose proof (proj1 stream_status_fails_soft _ _
                  (init Warehouse.busy_clinic_unreachable)) as H.
    cbv zeta in H. destruct H as (_ & Hraise & _).
    apply (Hraise "Network error"). by vm_compute.
  - pose proof (proj1 stream_status_fails_soft _ _ (init Script.broken_fetch)) as H.
    cbv zeta in H. destruct H as (_ & _ & Hfetch & _).
    apply (Hfetch {| fetched := [("PATIENTS_STREAM", "PATIENTS", false, 9000%Z)];
                     fetch_error := Some "Connection reset" |} "Connection reset");
      by vm_compute.
  - pose proof (proj1 stream_status_fails_soft _ _ (init Script.null_credits)) as H.
    cbv zeta in H. destruct H as (_ & _ & _ & Hrows).
    apply (Hrows {| fetched := []; fetch_error := None |}); by vm_compute.
Defined.

(** C9, as amended.  [get_warehouse_costs] never raises.  It returns the
    empty mapping when the executor raises, when the fetch raises and when
    a row has a NULL credit sum.  Otherwise it maps the warehouse of each
    row to its credits and its query count; on the reference warehouse its
    keys are those of the three tier names that have a metering row in the
    trailing seven days, not all three, and each is mapped to the sum of the
    credits and to the number of these rows. *)
Theorem warehouse_costs_best_effort :
  (∀ (W : Type) (QE : QueryExecutor W) (s : State W),
     let answer := (execute (SelectWarehouseCosts 7 tier_names) (world s)).1 in
     (get_warehouse_costs s).1 = Ok (costs_of answer)
     ∧ (∀ e, answer = Raise e → (get_warehouse_costs s).1 = Ok ∅)
     ∧ (∀ c e, answer = Ok c → fetch_error c = Some e →
               (get_warehouse_costs s).1 = Ok ∅)
     ∧ (∀ c, answer = Ok c → costs_from (fetched c) ∅ = None →
             (get_warehouse_costs s).1 = Ok ∅))
  ∧ (∀ (db : Warehouse.Db),
       Warehouse.faulted db 0 = false →
       ∃ costs,
         (get_warehouse_costs (init db)).1 = Ok costs
         ∧ (∀ wh,
              let rows := Warehouse.group (Warehouse.selected db 7 tier_names) wh in
              costs !! wh
              = if decide (rows = []) then None
                else Some {| credits := float_of_decimal (Warehouse.sum_credits rows);
                             queries := Z.of_nat (length rows) |})
         ∧ (∀ wh,
              wh ∈ dom costs
              ↔ ∃ m, m ∈ Warehouse.metering db
                     ∧ Warehouse.m_warehouse_name m = wh
                     ∧ wh ∈ tier_names
                     ∧ (Warehouse.current_timestamp db - 7 * Warehouse.day
                        ≤ Warehouse.m_start_time m)%Z)
         ∧ dom costs ⊆ list_to_set tier_names).
Proof.
  split.
  - intros W QE s answer. subst answer.
    pose proof (get_warehouse_costs_runs s) as H.
    unfold runs in H. rewrite H. cbn [fst]. split; [done|]. split; [|split].
    + by intros e ->.
    + intros c e -> Hfetch. unfold costs_of.
      destruct c as [l fe]; simpl in *. rewrite Hfetch. by destruct (costs_from l ∅).
    + intros c -> Hnull. unfold costs_of.
      destruct c as [l fe]; simpl in *. by rewrite Hnull.
  - intros db Hfault.
    destruct (costs_on_warehouse db Hfault) as (costs & Hres & Hlookup).
    assert (∀ wh,
              wh ∈ dom costs
              ↔ ∃ m, m ∈ Warehouse.metering db
                     ∧ Warehouse.m_warehouse_name m = wh
                     ∧ wh ∈ tier_names
                     ∧ (Warehouse.current_timestamp db - 7 * Warehouse.day
                        ≤ Warehouse.m_start_time m)%Z) as Hdom.
    { intros wh. rewrite <- selected_names, elem_of_dom, Hlookup.
      destruct (decide (Warehouse.group _ wh = [])) as [Hnil|Hsome].
      - apply group_nil in Hnil. split; [by intros []|done].
      - split; [intros _|by eauto].
        destruct (decide (wh ∈ map Warehouse.m_warehouse_name
                                 (Warehouse.selected db 7 tier_names)))
          as [|Hnotin]; [done|].
        by apply group_nil in Hnotin. }
    exists costs. split; [done|]. split; [exact Hlookup|]. split; [exact Hdom|].
    intros wh (m & _ & _ & Hwh & _)%Hdom. by apply elem_of_list_to_set.
Qed.

Lemma warehouse_costs_best_effort_witness :
  (∃ costs,
     (get_warehouse_costs (init Warehouse.busy_clinic)).1 = Ok costs
     ∧ dom costs ⊆ list_to_set tier_names)
  ∧ (get_warehouse_costs (init Warehouse.busy_clinic_unreachable)).1 = Ok ∅
  ∧ (get_warehouse_costs (init Script.broken_fetch)).1 = Ok ∅
  ∧ (get_warehouse_costs (init Script.null_credits)).1 = Ok ∅.
Proof.
  split; [|split; [|split]].
  - destruct (proj2 warehouse_costs_best_effort Warehouse.busy_clinic)
      as (costs & Hres & _ & _ & Hdom); [by vm_compute|].
    by exists costs.
  - pose proof (proj1 warehouse_costs_best_effort _ _
                  (init Warehouse.busy_clinic_unreachable)) as H.
    cbv zeta in H. destruct H as (_ & Hraise & _).
    apply (Hraise "Network error"). by vm_compute.
  - pose proof (proj1 warehouse_costs_best_effort _ _ (init Script.broken_fetch)) as H.
    cbv zeta in H. destruct H as (_ & _ & Hfetch & _).
    apply (Hfetch {| fetched := [("CLINICAL_CDC_WH", Some 5%Z, 1%Z)];
                     fetch_error := Some "Connection reset" |} "Connection reset");
      by vm_compute.
  - pose proof (proj1 warehouse_costs_best_effort _ _ (init Script.null_credits)) as H.
    cbv zeta in H. destruct H as (_ & _ & _ & Hnull).
    apply (Hnull {| fetched := [("CLINICAL_CDC_WH", Some 5%Z, 1%Z);
                                ("CLINICAL_INIT_WH", None, 2%Z)];
                    fetch_error := None |}); by vm_compute.
Defined.

(** C9 as stated does not hold: on the busy clinic the cost statement
    succeeds, and the mapping has two keys only: the initial tier, whose
    only metering row is older than seven days, is not among them. *)
Lemma warehouse_costs_missing_tier :
  (get_warehouse_costs (init Warehouse.busy_clinic)).1
  = Ok {[ "CLINICAL_CDC_WH" := {| credits := float_of_decimal 16%Z; queries := 2%Z |};
          "CLINICAL_INTERACTIVE_WH" := {| credits := float_of_decimal 7%Z;
                                          queries := 1%Z |} ]}
  ∧ fully_successful (trace (get_warehouse_costs (init Warehouse.busy_clinic)).2)
    = true
  ∧ "CLINICAL_INIT_WH" ∈ tier_names
  ∧ ({[ "CLINICAL_CDC_WH" := {| credits := float_of_decimal 16%Z; queries := 2%Z |};
        "CLINICAL_INTERACTIVE_WH" := {| credits := float_of_decimal 7%Z;
                                        queries := 1%Z |} ]}
       : gmap string CostEntry) !! "CLINICAL_INIT_WH" = None.
Proof.
  split; [vm_compute; reflexivity|]. split; [by vm_compute|].
  split; [|vm_compute; reflexivity].
  apply (bool_decide_unpack _). by vm_compute.
Qed.

(** * The history accounts for the session *)

Section Accounting.
Context {W : Type} `{!QueryExecutor W} `{!PyRuntime W}.
Variable config : Config.

Lemma replay_app (a b : list Event) (w : W) :
  replay (a ++ b) w = replay a w ≫= replay b.
Proof.
  revert w. induction a as [|[k|m|q r] a IH]; intros w; simpl; try done.
  by destruct (decide _).
Qed.

Lemma accounted_ret {A} (a : A) : accounted (ret (W:=W) a).
Proof. intros s. exists []. by rewrite app_nil_r. Qed.

Lemma accounted_raise {A} e : accounted (raise (W:=W) (A:=A) e).
Proof. intros s. exists []. by rewrite app_nil_r. Qed.

Lemma accounted_lift {A} (r : Result A) : accounted (lift (W:=W) r).
Proof. intros s. exists []. by rewrite app_nil_r. Qed.

Lemma accounted_get_now : accounted get_now.
Proof. intros s. exists []. by rewrite app_nil_r. Qed.

Lemma accounted_emit k : accounted (emit (W:=W) (Step k)).
Proof. intros s. by exists [Step k]. Qed.

Lemma accounted_call m : accounted (emit (W:=W) (Call m)).
Proof. intros s. by exists [Call m]. Qed.

Lemma accounted_exec q : accounted (exec q).
Proof.
  intros s. exists [Exec q (err_of (execute q (world s)).1)].
  unfold exec. destruct (execute q (world s)) as [[c|e] w'] eqn:Hq; simpl;
    rewrite Hq; simpl; by rewrite ?decide_True.
Qed.

Lemma accounted_bind {A B} (m : M W A) (k : A → M W B) :
  accounted m → (∀ a, accounted (k a)) → accounted (bind m k).
Proof.
  intros Hm Hk s. destruct (Hm s) as (e1 & Ht1 & Hw1). unfold bind.
  destruct (m s) as [[a|e] s1]; simpl in *.
  - destruct (Hk a s1) as (e2 & Ht2 & Hw2).
    exists (e1 ++ e2). rewrite Ht2, Ht1, app_assoc. split; [done|].
    by rewrite replay_app, Hw1.
  - by exists e1.
Qed.

Lemma accounted_try {A} (m : M W A) (h : Err → M W A) :
  accounted m → (∀ e, accounted (h e)) → accounted (try_except m h).
Proof.
  intros Hm Hh s. destruct (Hm s) as (e1 & Ht1 & Hw1). unfold try_except.
  destruct (m s) as [[a|e] s1]; simpl in *.
  - by exists e1.
  - destruct (Hh e s1) as (e2 & Ht2 & Hw2).
    exists (e1 ++ e2). rewrite Ht2, Ht1, app_assoc. split; [done|].
    by rewrite replay_app, Hw1.
Qed.

Lemma accounted_for_each {A} (l : list A) (body : A → M W unit) :
  (∀ x, accounted (body x)) → accounted (for_each l body).
Proof.
  intros Hbody. induction l as [|x l IH]; simpl.
  - apply accounted_ret.
  - apply accounted_bind; [apply Hbody|by intros _].
Qed.

Ltac accounting :=
  repeat first
    [ apply accounted_ret | apply accounted_raise | apply accounted_lift
    | apply accounted_get_now | apply accounted_emit | apply accounted_call
    | apply accounted_exec
    | apply accounted_bind; [|intros ?]
    | apply accounted_try; [|intros ?]
    | apply accounted_for_each; intros ?
    | match goal with |- accounted (match ?x with _ => _ end) => destruct x end ].

Lemma accounted_log_audit_entry event_type details :
  accounted (log_audit_entry event_type details).
Proof. unfold log_audit_entry. accounting. Qed.

Lemma accounted_check_stream_status : accounted check_stream_status.
Proof. unfold check_stream_status. accounting. Qed.

Lemma accounted_get_stream_change_count name :
  accounted (get_stream_change_count name).
Proof. unfold get_stream_change_count. accounting. Qed.

Lemma accounted_count_changes streams acc : accounted (count_changes streams acc).
Proof.
  revert acc. induction streams as [|stream rest IH]; intros acc; simpl.
  - apply accounted_ret.
  - apply accounted_bind; [apply accounted_get_stream_change_count|intros ?; apply IH].
Qed.

Lemma accounted_refresh_dynamic_tables :
  accounted (refresh_dynamic_tables config).
Proof. unfold refresh_dynamic_tables. accounting. Qed.

Lemma accounted_populate_analytics_tables :
  accounted (populate_analytics_tables config).
Proof. unfold populate_analytics_tables. accounting. Qed.

Lemma accounted_get_warehouse_costs : accounted get_warehouse_costs.
Proof. unfold get_warehouse_costs. accounting. Qed.

Lemma accounted_steps_1_2 : accounted run_pipeline_steps_1_2.
Proof.
  unfold run_pipeline_steps_1_2.
  apply accounted_bind; [apply accounted_emit|intros _].
  apply accounted_bind; [apply accounted_check_stream_status|intros streams].
  apply accounted_bind; [apply accounted_log_audit_entry|intros _].
  apply accounted_bind; [apply accounted_emit|intros _].
  apply accounted_count_changes.
Qed.

Lemma accounted_steps_3_6 start_time total_changes :
  accounted (run_pipeline_steps_3_6 config start_time total_changes).
Proof.
  unfold run_pipeline_steps_3_6.
  apply accounted_bind; [apply accounted_emit|intros _].
  apply accounted_bind; [apply accounted_refresh_dynamic_tables|intros _].
  apply accounted_bind; [apply accounted_log_audit_entry|intros _].
  apply accounted_bind; [apply accounted_emit|intros _].
  apply accounted_bind.
  { destruct (0 <? total_changes)%Z; [|apply accounted_ret].
    apply accounted_bind; [apply accounted_populate_analytics_tables|intros _].
    apply accounted_log_audit_entry. }
  intros _.
  apply accounted_bind; [apply accounted_emit|intros _].
  apply accounted_bind; [apply accounted_get_warehouse_costs|intros costs].
  apply accounted_bind; [apply accounted_log_audit_entry|intros _].
  apply accounted_bind; [apply accounted_emit|intros _].
  apply accounted_bind; [apply accounted_get_now|intros end_time].
  apply accounted_bind; [apply accounted_log_audit_entry|intros _].
  apply accounted_ret.
Qed.

Lemma accounted_run_pipeline : accounted (run_pipeline config).
Proof.
  unfold run_pipeline.
  apply accounted_bind; [apply accounted_get_now|intros start_time].
  apply accounted_try.
  - apply accounted_bind; [apply accounted_steps_1_2|intros total].
    apply accounted_steps_3_6.
  - intros e. apply accounted_bind; [apply accounted_log_audit_entry|intros _].
    apply accounted_ret.
Qed.

(** From an empty history: the session a method leaves is the replay of its
    history. *)
Lemma accounted_init {A} (m : M W A) (w : W) :
  accounted m → replay (trace (m (init w)).2) w = Some (world (m (init w)).2).
Proof. intros Hm. destruct (Hm (init w)) as (evs & -> & Hw). exact Hw. Qed.

End Accounting.

(** * What a run issues, and on which tier *)

Section Discipline.
Context {W : Type} `{!QueryExecutor W} `{!PyRuntime W}.
Variable config : Config.

Lemma within_catalogue_skeleton names (evs : list Event) :
  forallb (within_catalogue config names) (skeleton evs)
  = forallb (within_catalogue config names) evs.
Proof. induction evs as [|[k|m|q r] evs IH]; simpl; by rewrite ?IH. Qed.

Lemma count_events_catalogue names (streams : list StreamInfo) :
  Forall (fun stream => stream_name stream ∈ names) streams →
  forallb (within_catalogue config names) (count_events streams) = true.
Proof.
  induction 1 as [|stream streams Hname _ IH]; simpl; [done|].
  by rewrite bool_decide_eq_true_2.
Qed.

Lemma audit_events_catalogue names event_type details :
  forallb (within_catalogue config names) (audit_events event_type details)
  = true.
Proof. reflexivity. Qed.

Lemma refresh_events_catalogue names :
  forallb (within_catalogue config names) (refresh_events config) = true.
Proof.
  unfold refresh_events. rewrite forallb_app. cbn [forallb within_catalogue in_catalogue].
  rewrite String.eqb_refl. reflexivity.
Qed.

Lemma populate_events_catalogue names :
  forallb (within_catalogue config names) (populate_events config) = true.
Proof.
  unfold populate_events. rewrite forallb_app. cbn [forallb within_catalogue in_catalogue].
  rewrite String.eqb_refl, orb_true_r. reflexivity.
Qed.

Lemma steps_1_2_events_catalogue streams :
  forallb (within_catalogue config (map stream_name streams))
    (steps_1_2_events streams) = true.
Proof.
  unfold steps_1_2_events.
  rewrite !forallb_app, audit_events_catalogue, count_events_catalogue.
  - reflexivity.
  - apply Forall_forall. intros stream Hin.
    apply list_elem_of_fmap. by exists stream.
Qed.

Lemma complete_events_catalogue streams total costs duration :
  forallb (within_catalogue config (map stream_name streams))
    (complete_events (W:=W) config streams total costs duration) = true.
Proof.
  unfold complete_events, steps_3_6_events.
  rewrite !forallb_app, steps_1_2_events_catalogue, refresh_events_catalogue,
    !audit_events_catalogue.
  destruct (0 <? total)%Z.
  - rewrite forallb_app, populate_events_catalogue, audit_events_catalogue.
    reflexivity.
  - reflexivity.
Qed.

Lemma aborted_prefix_catalogue streams in_populate :
  forallb (within_catalogue config (map stream_name streams))
    (aborted_prefix config streams in_populate)
  = true.
Proof.
  unfold aborted_prefix, aborted_steps_events.
  rewrite !forallb_app, steps_1_2_events_catalogue.
  destruct in_populate.
  - rewrite !forallb_app, refresh_events_catalogue, audit_events_catalogue.
    reflexivity.
  - reflexivity.
Qed.

Lemma counted_names_skeleton (evs : list Event) :
  counted_names (skeleton evs) = counted_names evs.
Proof.
  unfold counted_names, skeleton.
  induction evs as [|[k|m|q r] evs IH]; csimpl; [done..|].
  by rewrite IH.
Qed.

Lemma counted_names_app (a b : list Event) :
  counted_names (a ++ b) = counted_names a ++ counted_names b.
Proof. apply omap_app. Qed.

Lemma count_events_counted_names (streams : list StreamInfo) :
  counted_names (count_events streams) = map stream_name streams.
Proof.
  unfold counted_names.
  induction streams as [|stream streams IH]; csimpl; [done|].
  by rewrite IH.
Qed.

Lemma steps_1_2_events_counted_names streams :
  counted_names (steps_1_2_events streams) = map stream_name streams.
Proof.
  unfold steps_1_2_events.
  by rewrite !counted_names_app, count_events_counted_names.
Qed.

Lemma complete_events_counted_names streams total costs duration :
  counted_names (complete_events (W:=W) config streams total costs duration)
  = map stream_name streams.
Proof.
  unfold complete_events, steps_3_6_events.
  rewrite !counted_names_app, steps_1_2_events_counted_names.
  destruct (0 <? total)%Z; cbn; by rewrite app_nil_r.
Qed.

Lemma aborted_prefix_counted_names streams in_populate :
  counted_names (aborted_prefix config streams in_populate)
  = map stream_name streams.
Proof.
  unfold aborted_prefix, aborted_steps_events.
  rewrite !counted_names_app, steps_1_2_events_counted_names.
  destruct in_populate; cbn; by rewrite app_nil_r.
Qed.

Lemma tiers_respected_skeleton tier (evs : list Event) :
  no_switch_failed evs →
  tiers_respected config tier (skeleton evs) = tiers_respected config tier evs.
Proof.
  unfold no_switch_failed. revert tier.
  induction evs as [|[k|m|q r] evs IH]; intros tier Hns; simpl in *; try done.
  - by apply IH.
  - by apply IH.
  - destruct q; simpl in *; try (by rewrite IH);
      try (by apply IH).
    destruct r; [done|]. by apply IH.
Qed.

Lemma tiers_respected_neutral tier (l rest : list Event) :
  forallb tier_neutral l = true →
  tiers_respected config tier (l ++ rest) = tiers_respected config tier rest.
Proof.
  induction l as [|[k|m|q r] l IH]; simpl; try done.
  destruct q, r; simpl; try done.
Qed.

Lemma tiers_respected_neutral_tail tier (pre tail : list Event) :
  forallb tier_neutral tail = true →
  tiers_respected config tier (pre ++ tail) = tiers_respected config tier pre.
Proof.
  intros Htail. revert tier.
  induction pre as [|[k|m|q r] pre IH]; intros tier; simpl; try done.
  - rewrite <- (app_nil_r tail). by rewrite tiers_respected_neutral.
  - destruct q, r; simpl; by rewrite ?IH.
Qed.

Lemma count_events_neutral (streams : list StreamInfo) :
  forallb tier_neutral (count_events streams) = true.
Proof. induction streams; simpl; [done|apply IHstreams]. Qed.

Lemma tiers_respected_refresh tier rest :
  tiers_respected config tier (refresh_events config ++ rest)
  = tiers_respected config (Some (cdc_warehouse config)) rest.
Proof.
  unfold refresh_events. cbn [app map tiers_respected tier_is].
  by rewrite String.eqb_refl.
Qed.

Lemma tiers_respected_populate tier rest :
  tiers_respected config tier (populate_events config ++ rest)
  = tiers_respected config (Some (interactive_warehouse config)) rest.
Proof.
  unfold populate_events. cbn [app flat_map entities tiers_respected tier_is
    truncate_of insert_of].
  by rewrite String.eqb_refl.
Qed.

End Discipline.

(** The history of a run, with the streams the stream check answered. *)
Lemma run_pipeline_shape {W : Type} `{!QueryExecutor W} `{!PyRuntime W}
    (config : Config) (w : W) :
  let streams := streams_of (execute (SelectStreams "RAW_DATA") w).1 in
  let tr := trace (run_pipeline config (init w)).2 in
  (∃ costs duration,
     skeleton tr
     = complete_events config streams (total_pending_changes (init w))
         costs duration)
  ∨ (∃ in_populate pre e r,
       tr = pre ++ [Exec (failed_switch config in_populate) (Some e);
                    Call log_audit_entry_m;
                    Exec (audit_statement "PIPELINE_ERROR" e) r]
       ∧ skeleton pre = aborted_prefix config streams in_populate).
Proof.
  intros streams tr. subst tr.
  destruct (steps_1_2_runs (init w)) as (total & w1 & e1 & H1 & Hsk1 & _).
  cbn [world init] in Hsk1. fold streams in Hsk1.
  rewrite (total_pending_changes_runs _ _ _ _ H1).
  destruct (steps_3_6_runs config (now (world (init w))) total
              {| world := w1; trace := trace (init w) ++ e1 |})
    as ([b|e] & w2 & e2 & H2 & Hr).
  - destruct Hr as (-> & _ & costs & duration & Hsk2).
    assert (runs (run_pipeline config) (init w) (Ok true) w2 (e1 ++ e2))
      as Hruns.
    { apply runs_get_now_bind, runs_try_ok.
      eapply runs_bind; [exact H1|exact H2]. }
    unfold runs in Hruns. rewrite Hruns. cbn [snd trace init app].
    left. exists costs, duration.
    unfold complete_events. by rewrite skeleton_app, Hsk1, Hsk2.
  - destruct Hr as (in_populate & pre & -> & Hsk2 & _).
    pose proof (log_audit_entry_runs "PIPELINE_ERROR" e
                  {| world := w2;
                     trace := trace (init w) ++ e1 ++ pre
                              ++ [Exec (failed_switch config in_populate) (Some e)] |})
      as H3.
    cbv zeta in H3. cbn [world] in H3.
    assert (runs (run_pipeline config) (init w) (Ok false)
              (execute (audit_statement "PIPELINE_ERROR" e) w2).2
              ((e1 ++ pre ++ [Exec (failed_switch config in_populate) (Some e)])
               ++ [Call log_audit_entry_m;
                   Exec (audit_statement "PIPELINE_ERROR" e)
                     (err_of (execute (audit_statement "PIPELINE_ERROR" e) w2).1)]
               ++ [])) as Hruns.
    { apply runs_get_now_bind. eapply runs_try_raise.
      - eapply runs_bind; [exact H1|]. eapply H2.
      - eapply runs_bind; [exact H3|apply runs_ret]. }
    unfold runs in Hruns. rewrite Hruns. cbn [snd trace init app].
    right.
    exists in_populate, (e1 ++ pre), e,
      (err_of (execute (audit_statement "PIPELINE_ERROR" e) w2).1).
    split.
    + rewrite <- !app_assoc. reflexivity.
    + unfold aborted_prefix. by rewrite skeleton_app, Hsk1, Hsk2.
Qed.

(** Each statement of a run is in the catalogue. *)
Lemma run_within_catalogue {W : Type} `{!QueryExecutor W} `{!PyRuntime W}
    (config : Config) (w : W) :
  forallb (within_catalogue config (answered_names w))
    (trace (run_pipeline config (init w)).2) = true.
Proof.
  unfold answered_names.
  destruct (run_pipeline_shape config w)
    as [(costs & duration & Hsk)|(in_populate & pre & e & r & -> & Hsk)].
  - rewrite <- within_catalogue_skeleton, Hsk. apply complete_events_catalogue.
  - rewrite forallb_app, <- (within_catalogue_skeleton _ _ pre), Hsk,
      aborted_prefix_catalogue.
    cbn [forallb within_catalogue in_catalogue failed_switch audit_statement].
    destruct in_populate; by rewrite String.eqb_refl, ?orb_true_r.
Qed.


Lemma run_counted_names {W : Type} `{!QueryExecutor W} `{!PyRuntime W}
    (config : Config) (w : W) :
  counted_names (trace (run_pipeline config (init w)).2) = answered_names w.
Proof.
  unfold answered_names.
  destruct (run_pipeline_shape config w)
    as [(costs & duration & Hsk)|(in_populate & pre & e & r & -> & Hsk)].
  - rewrite <- counted_names_skeleton, Hsk.
    apply complete_events_counted_names.
  - rewrite counted_names_app, <- (counted_names_skeleton pre), Hsk,
      aborted_prefix_counted_names.
    destruct in_populate; cbn; by rewrite app_nil_r.
Qed.

(** X1.  Against every executor the statements of a run are those the
    source and the configuration fix, but for the count statements, which
    follow the answer of the stream check: there is one count for each row
    it answered, in the order answered, and the stream name of the row is
    spliced into the statement as it was answered, whatever it is.  The
    other statements are the stream check on RAW_DATA, the switches to the
    CDC and to the interactive tier of the configuration, the lookups of the
    six dynamic tables, the ten statements of [analytics_queries], the cost
    statement over seven days and the three tier names, and audit INSERTs
    labelled CLINICAL_DATA_PIPELINE, PIPELINE and SUCCESS. *)
Theorem run_statements_fixed_but_for_counts {W : Type} `{!QueryExecutor W}
    `{!PyRuntime W} (config : Config) (w : W) :
  let tr := trace (run_pipeline config (init w)).2 in
  forallb (within_catalogue config (answered_names w)) tr = true
  ∧ counted_names tr = answered_names w.
Proof.
  split; [apply run_within_catalogue|apply run_counted_names].
Qed.

(** A name that is not a plain identifier is spliced like any other. *)
Example count_of_an_odd_name :
  counted_names (trace (run_pipeline main_config (init Stale.odd_name)).2)
  = ["PATIENTS_STREAM; DROP TABLE RAW_DATA.PATIENTS"].
Proof. by vm_compute. Qed.

Lemma steps_1_2_events_tiers {W : Type} `{!QueryExecutor W} (config : Config)
    tier streams (rest : list Event) :
  tiers_respected config tier (steps_1_2_events streams ++ rest)
  = tiers_respected config tier rest.
Proof.
  unfold steps_1_2_events. rewrite <- !app_assoc.
  cbn [app audit_events tiers_respected audit_statement].
  apply tiers_respected_neutral, count_events_neutral.
Qed.

(** X2.  In every run, each lookup of a dynamic table is executed after a
    successful switch to the CDC tier and each TRUNCATE or INSERT on a fact
    table after a successful switch to the interactive tier, with no other
    successful switch in between: the session is on the tier meant for the
    statement. *)
Theorem run_respects_tiers {W : Type} `{!QueryExecutor W} `{!PyRuntime W}
    (config : Config) (w : W) :
  tiers_respected config None (trace (run_pipeline config (init w)).2) = true.
Proof.
  destruct (run_pipeline_outcome config w) as ([] & _ & H).
  - destruct H as (Hns & streams & costs & duration & Hsk).
    rewrite <- (tiers_respected_skeleton config) by done. rewrite Hsk.
    unfold complete_events. rewrite steps_1_2_events_tiers.
    unfold steps_3_6_events. cbn [app tiers_respected].
    rewrite tiers_respected_refresh.
    cbn [app audit_events tiers_respected audit_statement].
    destruct (0 <? total_pending_changes (init w))%Z; [|done].
    rewrite <- app_assoc, tiers_respected_populate. done.
  - destruct H as (streams & in_populate & pre & e & r & -> & Hsk & Hns & _).
    rewrite tiers_respected_neutral_tail by by destruct in_populate.
    rewrite <- (tiers_respected_skeleton config) by done. rewrite Hsk.
    unfold aborted_prefix. rewrite steps_1_2_events_tiers.
    unfold aborted_steps_events. destruct in_populate; [|done].
    cbn [app tiers_respected]. rewrite tiers_respected_refresh. done.
Qed.

(** * Replaying a history on the reference warehouse *)

Section Replay.
Import Warehouse Ledger.

Lemma run_same_catalog q (db : Db) : same_catalog db (run q db).2.
Proof.
  unfold same_catalog, run.
  destruct (faults db) as [|[] rest]; simpl; [|done|];
    destruct q; simpl; repeat case_match; simpl; done.
Qed.

Lemma replay_same_catalog evs (db db' : Db) :
  replay evs db = Some db' → same_catalog db db'.
Proof.
  revert db. induction evs as [|[k|m|q r] evs IH]; intros db; simpl.
  - by intros [= ->].
  - apply IH.
  - apply IH.
  - destruct (decide _); [|done]. intros Hrest.
    destruct (IH _ Hrest) as (?&?&?&?&?&?&?).
    destruct (run_same_catalog q db) as (?&?&?&?&?&?&?).
    unfold same_catalog, execute, Warehouse_executor in *.
    repeat split; congruence.
Qed.

Lemma run_tables_untouched q (db : Db) :
  target q = None → tables (run q db).2 = tables db.
Proof.
  intros Hq. unfold run.
  destruct (faults db) as [|[] rest]; simpl; [|done|];
    destruct q; simpl in *; repeat case_match; simpl; done.
Qed.

Lemma replay_tables_untouched evs (db db' : Db) :
  replay evs db = Some db' →
  existsb is_fact_statement evs = false →
  tables db' = tables db.
Proof.
  revert db. induction evs as [|[k|m|q r] evs IH]; intros db; simpl.
  - by intros [= ->].
  - apply IH.
  - apply IH.
  - destruct (decide _); [|done]. intros Hrest Hfact.
    apply orb_false_iff in Hfact as [Hq Hevs].
    rewrite (IH _ Hrest Hevs). apply run_tables_untouched.
    by destruct q.
Qed.


Lemma audit_rows_same_catalog (db db' : Db) evs :
  same_catalog db db' → audit_rows db' evs = audit_rows db evs.
Proof.
  intros (_&_&_&_&Huser&Hrole&_). unfold audit_rows.
  apply list_omap_ext, Forall2_same_length_lookup_2; [done|].
  intros i ev ev' Hev Hev'. assert (ev' = ev) as -> by congruence.
  destruct ev as [| |[] []]; simpl; try done.
  by rewrite Huser, Hrole.
Qed.

Lemma audit_rows_app (db : Db) (a b : list Event) :
  audit_rows db (a ++ b) = audit_rows db a ++ audit_rows db b.
Proof. apply omap_app. Qed.

Lemma run_access_log q r (db : Db) :
  err_of (run q db).1 = r →
  access_log (run q db).2 = access_log db ++ audit_rows db [Exec q r].
Proof.
  intros <-. unfold run, audit_rows.
  destruct (faults db) as [|[] rest]; simpl.
  - destruct q; simpl; repeat case_match; simpl; by rewrite ?app_nil_r.
  - destruct q; simpl; by rewrite ?app_nil_r.
  - destruct q; simpl; repeat case_match; simpl; by rewrite ?app_nil_r.
Qed.

Lemma replay_access_log evs (db db' : Db) :
  replay evs db = Some db' →
  access_log db' = access_log db ++ audit_rows db evs.
Proof.
  revert db. induction evs as [|[k|m|q r] evs IH]; intros db; simpl.
  - intros [= ->]. by rewrite app_nil_r.
  - apply IH.
  - apply IH.
  - destruct (decide _) as [Hr|]; [|done]. intros Hrest.
    rewrite (IH _ Hrest).
    unfold execute, Warehouse_executor in *.
    rewrite (run_access_log q r db Hr), <- app_assoc.
    rewrite (audit_rows_same_catalog db (run q db).2) by apply run_same_catalog.
    f_equal. symmetry. apply (audit_rows_app db [Exec q r] evs).
Qed.

Lemma audit_rows_texts (db : Db) evs :
  map query_text (audit_rows db evs) = audit_entries_written evs.
Proof.
  unfold audit_rows, audit_entries_written.
  induction evs as [|ev evs IH]; [done|].
  destruct ev as [| |[] []]; csimpl; by rewrite ?IH.
Qed.

Lemma audit_rows_labels config names (db : Db) evs :
  forallb (within_catalogue config names) evs = true →
  Forall (fun row => user_name row = current_user db
                     ∧ role_name row = current_role db
                     ∧ database_name row = "CLINICAL_DATA_PIPELINE"
                     ∧ schema_name row = "PIPELINE"
                     ∧ execution_status row = "SUCCESS")
    (audit_rows db evs).
Proof.
  unfold audit_rows. induction evs as [|ev evs IH]; [constructor|].
  cbn [forallb]. intros [Hev Hevs]%andb_true_iff.
  destruct ev as [| |[] []]; csimpl; auto.
  constructor; [|by auto]. simpl in *.
  apply bool_decide_eq_true in Hev as (-> & -> & ->). done.
Qed.

End Replay.

(** * Runs on the reference warehouse *)

Lemma no_backlog_no_fact_statement {W : Type} `{!QueryExecutor W} `{!PyRuntime W}
    (config : Config) (w : W) :
  (total_pending_changes (init w) ≤ 0)%Z →
  existsb is_fact_statement (trace (run_pipeline config (init w)).2) = false.
Proof.
  intros Htotal.
  assert ((0 <? total_pending_changes (init w))%Z = false) as Hguard
    by by apply Z.ltb_ge.
  destruct (run_pipeline_outcome config w) as ([] & _ & H).
  - destruct H as (_ & streams & costs & duration & Hsk).
    rewrite <- fact_statement_skeleton, Hsk.
    by apply complete_events_no_populate.
  - destruct H as (streams & in_populate & pre & e & r & -> & Hsk & _ & Htot).
    destruct in_populate; [specialize (Htot eq_refl); lia|].
    destruct (aborted_prefix_no_populate config streams) as [_ Hf].
    rewrite existsb_app, <- (fact_statement_skeleton pre), Hsk, Hf. done.
Qed.

Lemma analytics_queries_target q t :
  q ∈ analytics_queries → Warehouse.target q = Some t →
  t ∈ map fact_table entities.
Proof.
  unfold analytics_queries. intros Hq Ht.
  repeat (apply elem_of_cons in Hq as [->|Hq]); [..|by apply elem_of_nil in Hq];
    injection Ht as <-; apply (bool_decide_unpack _); by vm_compute.
Qed.


Lemma fully_successful_run_entries {W : Type} `{!QueryExecutor W} `{!PyRuntime W}
    (config : Config) (w : W) :
  let run := run_pipeline config (init w) in
  let total := total_pending_changes (init w) in
  fully_successful (trace run.2) = true →
  run.1 = Ok true
  ∧ length (audit_entries_written (trace run.2))
    = (if (0 <? total)%Z then 5 else 4)
  ∧ ∃ n costs duration,
      audit_entries_written (trace run.2)
      = ["STREAM_CHECK: Checked " +:+ str_of_nat n +:+ " streams";
         "DYNAMIC_TABLES: Checked dynamic table status"]
        ++ (if (0 <? total)%Z
            then ["ANALYTICS_REFRESH: Processed " +:+ str_of_Z total +:+ " changes"]
            else [])
        ++ ["COST_TRACKING: Weekly costs: " +:+ json_dumps costs;
            "PIPELINE_COMPLETE: Duration: " +:+ format_2f duration +:+ "s"].
Proof.
  intros run total Hok. subst run total.
  destruct (run_pipeline_outcome config w) as (b & Hb & H).
  destruct b.
  - destruct H as (_ & streams & costs & duration & Hsk).
    rewrite (fully_successful_skeleton _ Hok) in Hsk.
    rewrite Hsk. split; [done|].
    assert (audit_entries_written
              (complete_events config streams (total_pending_changes (init w))
                 costs duration)
            = ["STREAM_CHECK: Checked " +:+ str_of_nat (length streams) +:+ " streams";
               "DYNAMIC_TABLES: Checked dynamic table status"]
              ++ (if (0 <? total_pending_changes (init w))%Z
                  then ["ANALYTICS_REFRESH: Processed "
                        +:+ str_of_Z (total_pending_changes (init w)) +:+ " changes"]
                  else [])
              ++ ["COST_TRACKING: Weekly costs: " +:+ json_dumps costs;
                  "PIPELINE_COMPLETE: Duration: " +:+ format_2f duration +:+ "s"])
      as ->.
    { unfold complete_events, steps_1_2_events, steps_3_6_events.
      rewrite !audit_entries_written_app, count_events_no_audit.
      by destruct (0 <? total_pending_changes (init w))%Z. }
    split; [by destruct (0 <? total_pending_changes (init w))%Z|].
    by exists (length streams), costs, duration.
  - destruct H as (streams & in_populate & pre & e & r & Htr & _).
    rewrite Htr, fully_successful_app in Hok.
    apply andb_true_iff in Hok as [_ Hok]. discriminate.
Qed.

(** C3.  In a run none of whose statements raised, [run_pipeline] returns
    [True] and exactly five audit entries are written when the pending
    changes are positive: stream check, dynamic tables, analytics refresh,
    cost tracking, pipeline complete; exactly four, without the analytics
    one, otherwise.  The session is the one these statements leave: on the
    reference warehouse the audit table has that many rows more, with these
    texts, after the rows it had. *)
Theorem successful_run_audit_entries :
  (∀ (W : Type) (QE : QueryExecutor W) (RT : PyRuntime W) (config : Config)
     (w : W),
     let run := run_pipeline config (init w) in
     let total := total_pending_changes (init w) in
     fully_successful (trace run.2) = true →
     run.1 = Ok true
     ∧ length (audit_entries_written (trace run.2))
       = (if (0 <? total)%Z then 5 else 4)
     ∧ (∃ n costs duration,
          audit_entries_written (trace run.2)
          = ["STREAM_CHECK: Checked " +:+ str_of_nat n +:+ " streams";
             "DYNAMIC_TABLES: Checked dynamic table status"]
            ++ (if (0 <? total)%Z
                then ["ANALYTICS_REFRESH: Processed " +:+ str_of_Z total
                      +:+ " changes"]
                else [])
            ++ ["COST_TRACKING: Weekly costs: " +:+ json_dumps costs;
                "PIPELINE_COMPLETE: Duration: " +:+ format_2f duration +:+ "s"])
     ∧ replay (trace run.2) w = Some (world run.2))
  ∧ (∀ (config : Config) (db : Warehouse.Db),
       let run := run_pipeline config (init db) in
       let total := total_pending_changes (init db) in
       fully_successful (trace run.2) = true →
       ∃ rows,
         Warehouse.access_log (world run.2) = Warehouse.access_log db ++ rows
         ∧ length rows = (if (0 <? total)%Z then 5 else 4)
         ∧ map Warehouse.query_text rows = audit_entries_written (trace run.2)).
Proof.
  split.
  - intros W QE RT config w run total Hok. subst run total.
    destruct (fully_successful_run_entries config w Hok) as (Hres & Hlen & Htexts).
    repeat split; [done..|].
    apply accounted_init, accounted_run_pipeline.
  - intros config db run total Hok. subst run total.
    destruct (fully_successful_run_entries config db Hok) as (_ & Hlen & _).
    pose proof (accounted_init (run_pipeline config) db
                  (accounted_run_pipeline config)) as Hreplay.
    exists (Ledger.audit_rows db (trace (run_pipeline config (init db)).2)).
    split; [by apply replay_access_log|].
    split; [|apply audit_rows_texts].
    by rewrite <- Hlen, <- (audit_rows_texts db), length_map.
Qed.

Lemma successful_run_audit_entries_witness :
  let run := run_pipeline main_config (init Warehouse.busy_clinic) in
  fully_successful (trace run.2) = true
  ∧ length (audit_entries_written (trace run.2)) = 5
  ∧ map Warehouse.query_text (Warehouse.access_log (world run.2))
    = audit_entries_written (trace run.2).
Proof.
  intros run. subst run.
  assert (fully_successful
            (trace (run_pipeline main_config (init Warehouse.busy_clinic)).2)
          = true) as Hok by by vm_compute.
  split; [exact Hok|].
  destruct (proj1 successful_run_audit_entries _ _ _ main_config
              Warehouse.busy_clinic Hok) as (_ & Hlen & _).
  destruct (proj2 successful_run_audit_entries main_config
              Warehouse.busy_clinic Hok) as (rows & Hlog & _ & Htexts).
  split; [rewrite Hlen; by vm_compute|].
  by rewrite Hlog, <- Htexts.
Defined.

Lemma complete_events_audit_calls {W : Type} `{!QueryExecutor W} `{!PyRuntime W}
    (config : Config) streams total costs duration :
  per_step is_audit_call
    (complete_events (W:=W) config streams total costs duration) 0
  = [0; 1; 0; 1; if (0 <? total)%Z then 1 else 0; 1; 1].
Proof.
  unfold complete_events, steps_1_2_events, steps_3_6_events.
  rewrite <- !app_assoc. cbn [app audit_events per_step is_audit_call].
  rewrite per_step_count_events by done.
  by destruct (0 <? total)%Z.
Qed.

Lemma complete_events_audit_inserts {W : Type} `{!QueryExecutor W} `{!PyRuntime W}
    (config : Config) streams total costs duration :
  per_step is_audit_insert
    (complete_events (W:=W) config streams total costs duration) 0
  = [0; 1; 0; 1; if (0 <? total)%Z then 1 else 0; 1; 1].
Proof.
  unfold complete_events, steps_1_2_events, steps_3_6_events.
  rewrite <- !app_assoc.
  cbn [app audit_events per_step is_audit_insert audit_statement].
  rewrite per_step_count_events by done.
  by destruct (0 <? total)%Z.
Qed.

(** C4, as amended.  In a run that returns [True], [log_audit_entry] is not
    called before step 1, is called exactly once in each of the steps 1, 3,
    5 and 6, never in step 2 (the change counts), and in step 4 once after
    populating when the pending changes are positive and not at all when
    it is skipped; in each step the call comes after the stage's own call,
    and issues one audit INSERT in the same step.  The entry is written
    when that INSERT does not raise: the entries written in a step are at
    most these, and exactly these when no audit INSERT raised.  On the
    reference warehouse the audit table grows by the entries written. *)
Theorem audit_entries_per_step :
  (∀ (W : Type) (QE : QueryExecutor W) (RT : PyRuntime W) (config : Config)
     (w : W),
     let run := run_pipeline config (init w) in
     let total := total_pending_changes (init w) in
     let expected := [0; 1; 0; 1; if (0 <? total)%Z then 1 else 0; 1; 1] in
     run.1 = Ok true →
     audit_calls_per_step (trace run.2) = expected
     ∧ audit_inserts_per_step (trace run.2) = expected
     ∧ Forall2 le (audits_per_step (trace run.2)) expected
     ∧ (existsb audit_insert_failed (trace run.2) = false →
        audits_per_step (trace run.2) = expected)
     ∧ (∃ n,
          marks (trace run.2)
          = [Step 1; Call check_stream_status_m; Call log_audit_entry_m; Step 2]
            ++ replicate n (Call get_stream_change_count_m)
            ++ [Step 3; Call refresh_dynamic_tables_m; Call log_audit_entry_m;
                Step 4]
            ++ (if (0 <? total)%Z
                then [Call populate_analytics_tables_m; Call log_audit_entry_m]
                else [])
            ++ [Step 5; Call get_warehouse_costs_m; Call log_audit_entry_m;
                Step 6; Call log_audit_entry_m])
     ∧ replay (trace run.2) w = Some (world run.2))
  ∧ (∀ (config : Config) (db : Warehouse.Db),
       let run := run_pipeline config (init db) in
       length (Warehouse.access_log (world run.2))
       = length (Warehouse.access_log db)
         + sum_list (audits_per_step (trace run.2))).
Proof.
  split.
  - intros W QE RT config w run total expected Htrue. subst run total expected.
    destruct (run_pipeline_outcome config w) as (b & Hb & H).
    rewrite Hb in Htrue. injection Htrue as ->.
    destruct H as (_ & streams & costs & duration & Hsk).
    assert (audit_calls_per_step (trace (run_pipeline config (init w)).2)
            = [0; 1; 0; 1; if (0 <? total_pending_changes (init w))%Z then 1 else 0;
               1; 1]) as Hcalls.
    { unfold audit_calls_per_step.
      rewrite <- per_step_skeleton, Hsk by (by intros []).
      apply complete_events_audit_calls. }
    assert (audit_inserts_per_step (trace (run_pipeline config (init w)).2)
            = [0; 1; 0; 1; if (0 <? total_pending_changes (init w))%Z then 1 else 0;
               1; 1]) as Hinserts.
    { unfold audit_inserts_per_step.
      rewrite <- per_step_skeleton, Hsk by (by intros [| |[]]).
      apply complete_events_audit_inserts. }
    split; [exact Hcalls|]. split; [exact Hinserts|].
    split; [|split; [|split]].
    + rewrite <- Hinserts. apply per_step_le; [|done].
      by intros [| |[] []].
    + intros Hnone. rewrite <- Hinserts.
      by apply per_step_agree, no_failed_insert_written.
    + exists (length streams).
      rewrite <- marks_skeleton, Hsk.
      unfold complete_events, steps_1_2_events, steps_3_6_events.
      rewrite !marks_app, count_events_marks.
      by destruct (0 <? total_pending_changes (init w))%Z.
    + apply accounted_init, accounted_run_pipeline.
  - intros config db run. subst run.
    pose proof (accounted_init (run_pipeline config) db
                  (accounted_run_pipeline config)) as Hreplay.
    rewrite (replay_access_log _ _ _ Hreplay), length_app. f_equal.
    unfold audits_per_step. rewrite per_step_sum by done.
    rewrite <- audit_entries_written_length, <- (audit_rows_texts db).
    by rewrite length_map.
Qed.

Lemma audit_entries_per_step_witness :
  let run := run_pipeline main_config (init Warehouse.busy_clinic) in
  run.1 = Ok true
  ∧ existsb audit_insert_failed (trace run.2) = false
  ∧ audits_per_step (trace run.2) = [0; 1; 0; 1; 1; 1; 1]
  ∧ length (Warehouse.access_log (world run.2)) = 5.
Proof.
  intros run. subst run.
  assert ((run_pipeline main_config (init Warehouse.busy_clinic)).1 = Ok true)
    as Htrue by by vm_compute.
  assert (existsb audit_insert_failed
            (trace (run_pipeline main_config (init Warehouse.busy_clinic)).2)
          = false) as Hnone by by vm_compute.
  split; [exact Htrue|]. split; [exact Hnone|].
  destruct (proj1 audit_entries_per_step _ _ _ main_config
              Warehouse.busy_clinic Htrue) as (_ & _ & _ & Hwritten & _).
  pose proof (proj2 audit_entries_per_step main_config Warehouse.busy_clinic)
    as Hlog.
  cbv zeta in Hlog. rewrite Hlog, (Hwritten Hnone).
  split; by vm_compute.
Defined.

(** C4 as stated does not hold: in the run on the busy clinic, which
    returns [True], step 2 is left without an audit entry. *)
Lemma transition_without_audit_entry :
  (run_pipeline main_config (init Warehouse.busy_clinic)).1 = Ok true
  ∧ ¬ one_audit_per_transition
        (trace (run_pipeline main_config (init Warehouse.busy_clinic)).2).
Proof.
  split; [by vm_compute|].
  intros Hclaim. specialize (Hclaim 2 ltac:(lia)).
  vm_compute in Hclaim. discriminate.
Qed.

(** A call of [log_audit_entry] is not an entry: on the busy clinic whose
    audit INSERTs all fail the run returns [True] after five calls, and the
    audit table is left empty. *)
Example audit_calls_without_entries :
  let run := run_pipeline main_config (init busy_clinic_unaudited) in
  run.1 = Ok true
  ∧ audit_calls_per_step (trace run.2) = [0; 1; 0; 1; 1; 1; 1]
  ∧ audits_per_step (trace run.2) = [0; 0; 0; 0; 0; 0; 0]
  ∧ Warehouse.access_log (world run.2) = [].
Proof. by vm_compute. Qed.

Lemma run_audit_rows_labels (config : Config) (db : Warehouse.Db) :
  Forall (fun row =>
            Warehouse.user_name row = Warehouse.current_user db
            ∧ Warehouse.role_name row = Warehouse.current_role db
            ∧ Warehouse.database_name row = "CLINICAL_DATA_PIPELINE"
            ∧ Warehouse.schema_name row = "PIPELINE"
            ∧ Warehouse.execution_status row = "SUCCESS")
    (Ledger.audit_rows db (trace (run_pipeline config (init db)).2)).
Proof.
  apply (audit_rows_labels config (answered_names db)).
  apply run_within_catalogue.
Qed.

(** X3.  On the reference warehouse the audit table only grows: a run
    appends one row for each audit INSERT that did not raise, in the order
    of the run, and leaves the rows that were there unchanged.  Every row
    appended has the session's user and role, the labels
    CLINICAL_DATA_PIPELINE and PIPELINE and the status SUCCESS, also the one
    of a PIPELINE_ERROR. *)
Theorem audit_table_only_grows (config : Config) (db : Warehouse.Db) :
  let run := run_pipeline config (init db) in
  let appended := Ledger.audit_rows db (trace run.2) in
  Warehouse.access_log (world run.2) = Warehouse.access_log db ++ appended
  ∧ map Warehouse.query_text appended = audit_entries_written (trace run.2)
  ∧ Forall (fun row =>
              Warehouse.user_name row = Warehouse.current_user db
              ∧ Warehouse.role_name row = Warehouse.current_role db
              ∧ Warehouse.database_name row = "CLINICAL_DATA_PIPELINE"
              ∧ Warehouse.schema_name row = "PIPELINE"
              ∧ Warehouse.execution_status row = "SUCCESS") appended.
Proof.
  intros run appended. subst run appended.
  pose proof (accounted_init (run_pipeline config) db
                (accounted_run_pipeline config)) as Hreplay.
  split; [by apply replay_access_log|].
  split; [apply audit_rows_texts|apply run_audit_rows_labels].
Qed.

(** X4.  On the reference warehouse a run whose pending changes are not
    positive leaves every table as it was, staged and fact tables alike. *)
Theorem no_backlog_leaves_tables (config : Config) (db : Warehouse.Db) :
  (total_pending_changes (init db) ≤ 0)%Z →
  Warehouse.tables (world (run_pipeline config (init db)).2)
  = Warehouse.tables db.
Proof.
  intros Htotal.
  pose proof (accounted_init (run_pipeline config) db
                (accounted_run_pipeline config)) as Hreplay.
  apply (replay_tables_untouched _ _ _ Hreplay).
  by apply no_backlog_no_fact_statement.
Qed.

Lemma no_backlog_leaves_tables_witness :
  (total_pending_changes (init Warehouse.idle_clinic) ≤ 0)%Z
  ∧ Warehouse.tables
      (world (run_pipeline main_config (init Warehouse.idle_clinic)).2)
    = Warehouse.tables Warehouse.idle_clinic.
Proof.
  assert ((total_pending_changes (init Warehouse.idle_clinic) ≤ 0)%Z) as Hidle
    by by vm_compute.
  split; [exact Hidle|].
  exact (no_backlog_leaves_tables main_config Warehouse.idle_clinic Hidle).
Defined.



(** * The pending changes *)

Lemma bind_runs {W A B : Type} (m : M W A) (k : A → M W B) s a w1 e1 :
  runs m s (Ok a) w1 e1 →
  bind m k s = k a {| world := w1; trace := trace s ++ e1 |}.
Proof. unfold runs, bind. by intros ->. Qed.

(** Steps 1 and 2 return what the count loop returns, started on the
    streams the stream check reports, in the session the first audit INSERT
    leaves. *)
Lemma steps_1_2_total {W : Type} `{!QueryExecutor W} (s : State W) :
  let streams := streams_of (execute (SelectStreams "RAW_DATA") (world s)).1 in
  ∃ s2,
    (run_pipeline_steps_1_2 s).1 = (count_changes streams 0 s2).1
    ∧ world s2
      = (execute (audit_statement "STREAM_CHECK"
                    ("Checked " +:+ str_of_nat (length streams) +:+ " streams"))
           (execute (SelectStreams "RAW_DATA") (world s)).2).2.
Proof.
  intros streams. unfold run_pipeline_steps_1_2.
  rewrite (bind_runs _ _ _ _ _ _ (runs_emit (Step 1) s)).
  erewrite bind_runs by apply check_stream_status_runs.
  erewrite bind_runs by apply log_audit_entry_runs.
  erewrite bind_runs by apply runs_emit.
  eexists. split; reflexivity.
Qed.

Section Pending.
Import Warehouse Ledger.

Lemma find_stream_unique (l : list StreamObject) so :
  NoDup (map s_name (filter (fun so => s_schema so = "RAW_DATA") l)) →
  so ∈ filter (fun so => s_schema so = "RAW_DATA") l →
  List.find (fun x => bool_decide (s_schema x = "RAW_DATA" ∧ s_name x = s_name so)) l
  = Some so.
Proof.
  induction l as [|x l IH]; [by intros _ ?%elem_of_nil|].
  rewrite filter_cons. simpl.
  destruct (decide (s_schema x = "RAW_DATA")) as [Hraw|Hother].
  - simpl. intros [Hfresh Hnodup]%NoDup_cons [->|Hin]%elem_of_cons.
    + by rewrite bool_decide_true.
    + rewrite bool_decide_false; [by apply IH|].
      intros [_ Hname]. apply Hfresh. rewrite Hname.
      by apply list_elem_of_fmap_2.
  - intros Hnodup Hin. rewrite bool_decide_false; [by apply IH|].
    by intros [? _].
Qed.

Lemma count_of_run (db : Db) name :
  count_of (run (SelectCount "RAW_DATA" name) db).1 = counted_one db 0 name.
Proof.
  unfold counted_one, faulted, run.
  destruct (faults db) as [|[] rest]; simpl; try done;
    unfold find_stream; simpl; by destruct (List.find _ _).
Qed.

Lemma counted_shift q (db : Db) i names :
  counted (run q db).2 i names = counted db (S i) names.
Proof.
  revert i. induction names as [|name names IH]; intros i; simpl; [done|].
  rewrite IH. f_equal. unfold counted_one, faulted, find_stream.
  destruct (run_same_catalog q db) as (-> & _).
  rewrite run_faults. by destruct (faults db).
Qed.

Lemma count_changes_counted (streams : list StreamInfo) acc (s : State Db) :
  (count_changes streams acc s).1
  = Ok (acc + counted (world s) 0 (map stream_name streams))%Z.
Proof.
  revert acc s. induction streams as [|stream rest IH]; intros acc s; simpl.
  - by rewrite Z.add_0_r.
  - pose proof (get_stream_change_count_runs (stream_name stream) s) as H.
    unfold runs in H. unfold bind. rewrite H, IH. cbn [world].
    unfold execute, Warehouse_executor.
    rewrite count_of_run, counted_shift. f_equal. lia.
Qed.

(** The total of a run on the reference warehouse whose stream check
    succeeds: the counts of the streams of RAW_DATA in the order of their
    names, the first count being the third statement of the run. *)
Lemma total_pending_changes_counted (db : Db) :
  faulted db 0 = false →
  total_pending_changes (init db)
  = counted db 2 (map s_name (streams_of_schema db "RAW_DATA")).
Proof.
  intros Hfault. unfold total_pending_changes.
  destruct (steps_1_2_total (init db)) as (s2 & -> & Hs2).
  rewrite count_changes_counted, Hs2. cbn [fst world init].
  unfold execute, Warehouse_executor.
  rewrite !counted_shift, Z.add_0_l.
  rewrite run_not_faulted by done.
  cbn [interpret fst streams_of rows fetched fetch_error].
  rewrite !map_map. reflexivity.
Qed.

Lemma counted_sum (db : Db) i (sos : list StreamObject) :
  (∀ j, faulted db j = false) →
  (∀ so, so ∈ sos → find_stream db "RAW_DATA" (s_name so) = Some so) →
  counted db i (map s_name sos)
  = Z.of_nat (sum_list_with (fun so => length (s_changes so)) sos).
Proof.
  intros Hfaults. revert i.
  induction sos as [|so sos IH]; intros i Hfind; simpl; [done|].
  rewrite IH by (intros so' Hin; apply Hfind; by right).
  unfold counted_one. rewrite Hfaults, (Hfind so) by by left. lia.
Qed.

End Pending.

(** X6.  On the reference warehouse, when no statement fails and the streams
    of RAW_DATA have distinct names, the total [run_pipeline] computes is
    the number of rows in the change buffers of these streams, the streams
    of other schemas not counted. *)
Theorem total_is_the_backlog (db : Warehouse.Db) :
  (∀ i, Warehouse.faulted db i = false) →
  NoDup (map Warehouse.s_name (Ledger.raw_streams db)) →
  total_pending_changes (init db)
  = Z.of_nat (sum_list_with (fun so => length (Warehouse.s_changes so))
                (Ledger.raw_streams db)).
Proof.
  intros Hfaults Hnodup.
  rewrite total_pending_changes_counted by apply Hfaults.
  assert (Warehouse.streams_of_schema db "RAW_DATA" ≡ₚ Ledger.raw_streams db)
    as Hperm by apply merge_sort_Permutation.
  rewrite counted_sum; [by rewrite Hperm|done|].
  intros so Hin. rewrite Hperm in Hin.
  by apply find_stream_unique.
Qed.

Lemma total_is_the_backlog_witness :
  total_pending_changes (init Warehouse.busy_clinic) = 15%Z.
Proof.
  rewrite (total_is_the_backlog Warehouse.busy_clinic).
  - by vm_compute.
  - intros i. reflexivity.
  - apply (bool_decide_unpack _). by vm_compute.
Defined.

Lemma count_changes_all_fail {W : Type} `{!QueryExecutor W}
    (streams : list StreamInfo) acc (s : State W) :
  (∀ name w, ∃ e, (execute (SelectCount "RAW_DATA" name) w).1 = Raise e) →
  (count_changes streams acc s).1 = Ok acc.
Proof.
  intros Hfail. revert acc s.
  induction streams as [|stream rest IH]; intros acc s; simpl; [done|].
  pose proof (get_stream_change_count_runs (stream_name stream) s) as H.
  unfold runs in H. unfold bind. rewrite H, IH.
  destruct (Hfail (stream_name stream) (world s)) as [e ->]. simpl.
  by rewrite Z.add_0_r.
Qed.

(** X7.  A count that fails is taken for 0: against an executor that raises
    on every count statement the total is 0 whatever streams are reported,
    so that [populate_analytics_tables] is not entered and no fact table is
    written. *)
Theorem failed_counts_hide_the_backlog {W : Type} `{!QueryExecutor W}
    `{!PyRuntime W} (config : Config) (w : W) :
  (∀ name w', ∃ e, (execute (SelectCount "RAW_DATA" name) w').1 = Raise e) →
  total_pending_changes (init w) = 0%Z
  ∧ call_count populate_analytics_tables_m
      (trace (run_pipeline config (init w)).2) = 0
  ∧ existsb is_fact_statement (trace (run_pipeline config (init w)).2) = false.
Proof.
  intros Hfail.
  assert (total_pending_changes (init w) = 0%Z) as Hzero.
  { unfold total_pending_changes.
    destruct (steps_1_2_total (init w)) as (s2 & -> & _).
    by rewrite count_changes_all_fail. }
  split; [exact Hzero|].
  by apply zero_backlog_no_populate.
Qed.

Lemma failed_counts_hide_the_backlog_witness :
  total_pending_changes (init Stale.two_streams) = 0%Z
  ∧ call_count populate_analytics_tables_m
      (trace (run_pipeline main_config (init Stale.two_streams)).2) = 0
  ∧ existsb is_fact_statement
      (trace (run_pipeline main_config (init Stale.two_streams)).2) = false.
Proof.
  apply (failed_counts_hide_the_backlog main_config Stale.two_streams).
  intros name w'. by exists "Stream is stale".
Defined.

(** * Repeating a stage *)

Section Repeat.
Import Warehouse.

Lemma populate_from (config : Config) (s : State Db) :
  faulted (world s) 0 = false →
  interactive_warehouse config ∈ warehouses (world s) →
  (populate_analytics_tables config s).1 = Ok tt
  ∧ world (populate_analytics_tables config s).2
    = run_all analytics_queries
        (with_warehouse (with_faults (world s) (tail (faults (world s))))
           (interactive_warehouse config)).
Proof.
  intros Hfault Hwh.
  assert (run (UseWarehouse (interactive_warehouse config)) (world s)
          = (Ok (rows [tt]),
             with_warehouse (with_faults (world s) (tail (faults (world s))))
               (interactive_warehouse config))) as Hq.
  { rewrite run_not_faulted by done.
    cbn [interpret]. by rewrite bool_decide_true. }
  unfold populate_analytics_tables. rewrite bind_emit.
  rewrite (bind_exec_ok _ _ {| world := world s; trace := _ |} _ _ Hq).
  apply for_each_try_world.
Qed.

Lemma staged_table_not_target entity q :
  entity ∈ entities → q ∈ analytics_queries →
  target q ≠ Some (staged_table entity).
Proof.
  intros He Hq Ht.
  pose proof (analytics_queries_target q _ Hq Ht) as Hfact.
  unfold entities in He.
  repeat (apply elem_of_cons in He as [->|He]); [..|by apply elem_of_nil in He];
    revert Hfact; apply (bool_decide_unpack _); by vm_compute.
Qed.

Lemma run_all_warehouses qs (db : Db) :
  warehouses (run_all qs db) = warehouses db.
Proof.
  revert db. induction qs as [|q qs IH]; intros db; simpl; [done|].
  rewrite IH. by destruct (run_same_catalog q db) as (_&_&_&->&_).
Qed.

End Repeat.

(** X9.  On the reference warehouse the population is idempotent: when no
    statement fails, populating a second time leaves in the fact table of
    an entity what the first time left, the staged rows that are not
    deletions, and the staged table itself is never changed. *)
Theorem populate_is_idempotent (config : Config) (db : Warehouse.Db)
    i entity old staged :
  (∀ j, Warehouse.faulted db j = false) →
  interactive_warehouse config ∈ Warehouse.warehouses db →
  entities !! i = Some entity →
  Warehouse.tables db !! fact_table entity = Some old →
  Warehouse.tables db !! staged_table entity = Some staged →
  let once := populate_analytics_tables config (init db) in
  let twice := populate_analytics_tables config once.2 in
  Warehouse.tables (world once.2) !! fact_table entity
  = Some (List.filter (Warehouse.op_ne "DELETE") staged)
  ∧ Warehouse.tables (world twice.2) !! fact_table entity
    = Warehouse.tables (world once.2) !! fact_table entity
  ∧ Warehouse.tables (world twice.2) !! staged_table entity = Some staged.
Proof.
  intros Hfaults Hwh Hi Hfact Hstaged once twice. subst once twice.
  assert (entity ∈ entities) as Hentity by by eapply list_elem_of_lookup_2.
  assert (∀ (d : Warehouse.Db) rows,
            Warehouse.tables d !! staged_table entity = Some rows →
            Warehouse.tables (Warehouse.run_all analytics_queries d)
              !! staged_table entity = Some rows) as Hkeep.
  { intros d rows Hd. rewrite run_all_other_table; [done|].
    apply Forall_forall. intros q Hq. by apply staged_table_not_target. }
  destruct (populate_from config (init db) (Hfaults 0) Hwh) as [_ Hw1].
  set (db1 := world (populate_analytics_tables config (init db)).2) in *.
  assert (∀ j, Warehouse.faulted db1 j = false) as Hfaults1.
  { intros j. rewrite Hw1, run_all_faulted, faulted_after_switch. apply Hfaults. }
  assert (Warehouse.tables db1 !! fact_table entity
          = Some (List.filter (Warehouse.op_ne "DELETE") staged)) as Hfact1.
  { rewrite Hw1.
    rewrite (analytics_queries_fact_table _ i entity old staged) by done.
    by rewrite !faulted_after_switch, !Hfaults. }
  assert (Warehouse.tables db1 !! staged_table entity = Some staged) as Hstaged1.
  { rewrite Hw1. by apply Hkeep. }
  assert (interactive_warehouse config ∈ Warehouse.warehouses db1) as Hwh1.
  { by rewrite Hw1, run_all_warehouses. }
  destruct (populate_from config (populate_analytics_tables config (init db)).2
              (Hfaults1 0) Hwh1) as [_ Hw2].
  fold db1 in Hw2.
  split; [exact Hfact1|]. split.
  - rewrite Hw2, Hfact1.
    rewrite (analytics_queries_fact_table _ i entity
               (List.filter (Warehouse.op_ne "DELETE") staged) staged) by done.
    by rewrite !faulted_after_switch, !Hfaults1.
  - rewrite Hw2. by apply Hkeep.
Qed.

Lemma populate_is_idempotent_witness :
  let once := populate_analytics_tables main_config (init Warehouse.busy_clinic) in
  let twice := populate_analytics_tables main_config once.2 in
  Warehouse.tables (world twice.2) !! fact_table "LAB_RESULTS"
  = Warehouse.tables (world once.2) !! fact_table "LAB_RESULTS".
Proof.
  intros once twice.
  destruct (populate_is_idempotent main_config Warehouse.busy_clinic 3
              "LAB_RESULTS" [Warehouse.change "INSERT" 0] Warehouse.staged_rows)
    as (_ & Hsame & _);
    [by intros j|by apply (bool_decide_unpack _); vm_compute|by vm_compute..
    |exact Hsame].
Defined.

(** * The staged tables are only looked at *)

Lemma audit_entries_written_skeleton (evs : list Event) :
  audit_entries_written (skeleton evs) = [] → audit_entries_written evs = [].
Proof.
  unfold audit_entries_written.
  induction evs as [|ev evs IH]; [done|].
  destruct ev as [| |[] []]; csimpl; try done; auto.
Qed.

Lemma audit_rows_none (db : Warehouse.Db) (evs : list Event) :
  audit_entries_written evs = [] → Ledger.audit_rows db evs = [].
Proof.
  intros Hnone. apply (f_equal length) in Hnone.
  rewrite <- (audit_rows_texts db), length_map in Hnone.
  by apply nil_length_inv.
Qed.

(** X10.  [refresh_dynamic_tables] first issues the switch to the CDC tier.
    When that statement does not raise, the six dynamic tables are looked
    up once each, in the order of the source, whatever the outcome of any
    lookup, and the method returns; when it raises, the method raises and
    no table is looked up.  On the reference warehouse it changes no table,
    no dynamic table and no audit row: it only observes. *)
Theorem refresh_only_observes :
  (∀ (W : Type) (QE : QueryExecutor W) (config : Config) (s : State W),
     (∃ w' evs,
        refresh_dynamic_tables config s
        = (Ok tt,
           {| world := w';
              trace := trace s
                       ++ [Call refresh_dynamic_tables_m;
                           Exec (UseWarehouse (cdc_warehouse config)) None]
                       ++ evs |})
        ∧ skeleton evs
          = map (fun name => Exec (SelectDynamicTable name "STAGING") None)
              ["DT_PATIENTS"; "DT_ENCOUNTERS"; "DT_PRESCRIPTIONS";
               "DT_LAB_RESULTS"; "DT_VITAL_SIGNS"; "DT_PATIENT_SUMMARY"])
     ∨ (∃ e w',
          refresh_dynamic_tables config s
          = (Raise e,
             {| world := w';
                trace := trace s
                         ++ [Call refresh_dynamic_tables_m;
                             Exec (UseWarehouse (cdc_warehouse config))
                               (Some e)] |})))
  ∧ (∀ (config : Config) (db : Warehouse.Db),
       let db' := world (refresh_dynamic_tables config (init db)).2 in
       Warehouse.tables db' = Warehouse.tables db
       ∧ Warehouse.dynamic db' = Warehouse.dynamic db
       ∧ Warehouse.access_log db' = Warehouse.access_log db).
Proof.
  assert (∀ (W : Type) (QE : QueryExecutor W) (config : Config) (s : State W),
            (∃ w' evs,
               refresh_dynamic_tables config s
               = (Ok tt,
                  {| world := w';
                     trace := trace s
                              ++ [Call refresh_dynamic_tables_m;
                                  Exec (UseWarehouse (cdc_warehouse config)) None]
                              ++ evs |})
               ∧ skeleton evs
                 = map (fun name => Exec (SelectDynamicTable name "STAGING") None)
                     ["DT_PATIENTS"; "DT_ENCOUNTERS"; "DT_PRESCRIPTIONS";
                      "DT_LAB_RESULTS"; "DT_VITAL_SIGNS"; "DT_PATIENT_SUMMARY"])
            ∨ (∃ e w',
                 refresh_dynamic_tables config s
                 = (Raise e,
                    {| world := w';
                       trace := trace s
                                ++ [Call refresh_dynamic_tables_m;
                                    Exec (UseWarehouse (cdc_warehouse config))
                                      (Some e)] |}))) as Hshape.
  { intros W QE config s.
    destruct (refresh_dynamic_tables_runs config s)
      as [(w' & evs & Hruns & Hsk & Hns)|(e & w' & Hruns)]; [left|right].
    - unfold refresh_events in Hsk.
      destruct evs as [|ev1 [|ev2 evs]]; try discriminate.
      injection Hsk as H1 H2 Hsk.
      destruct ev1 as [| |]; try discriminate. injection H1 as ->.
      destruct ev2 as [| |q r]; try discriminate. injection H2 as ->.
      destruct r as [e|]; [discriminate|].
      by exists w', evs.
    - by exists e, w'. }
  split; [exact Hshape|].
  intros config db db'. subst db'.
  pose proof (accounted_init (refresh_dynamic_tables config) db
                (accounted_refresh_dynamic_tables config)) as Hreplay.
  assert (existsb is_fact_statement
            (trace (refresh_dynamic_tables config (init db)).2) = false
          ∧ audit_entries_written
              (trace (refresh_dynamic_tables config (init db)).2) = [])
    as [Hfact Haudit].
  { destruct (Hshape _ _ config (init db))
      as [(w' & evs & -> & Hsk)|(e & w' & ->)]; [|done].
    cbn [snd trace init app existsb is_fact_statement].
    split.
    - by rewrite <- fact_statement_skeleton, Hsk.
    - apply audit_entries_written_skeleton. cbn [skeleton map erase_outcome].
      fold (skeleton evs). by rewrite Hsk. }
  split; [by apply (replay_tables_untouched _ _ _ Hreplay)|].
  split; [by destruct (replay_same_catalog _ _ _ Hreplay) as (_ & -> & _)|].
  rewrite (replay_access_log _ _ _ Hreplay), audit_rows_none by done.
  by rewrite app_nil_r.
Qed.

(** * The process *)

(** X11.  [main] exits with 0 or 1.  It exits with 0 exactly when the
    connection is opened, no tier switch raises during the run, and the
    cursor and the connection are closed without error; when the connection
    cannot be opened, nothing is executed: the history is empty. *)
Theorem main_exit_status {W : Type} `{!QueryExecutor W} `{!PyRuntime W}
    `{!Connector W} :
  (exit_status (termination main) = 0%Z ∨ exit_status (termination main) = 1%Z)
  ∧ (exit_status (termination main) = 0%Z
     ↔ ∃ w, connect_session main_config = Ok w
            ∧ existsb tier_switch_failed
                (trace (run_pipeline main_config (init w)).2) = false
            ∧ close_cursor (world (run_pipeline main_config (init w)).2) = Ok tt
            ∧ close_connection (world (run_pipeline main_config (init w)).2)
              = Ok tt)
  ∧ (∀ e, connect_session main_config = Raise e →
          history main = [] ∧ termination main = Exited 1).
Proof.
  unfold main, connect.
  destruct (connect_session main_config) as [w|e0] eqn:Hconnect.
  - pose proof (run_pipeline_result main_config w) as Hres.
    destruct (run_pipeline main_config (init w)) as [r s] eqn:Hrun.
    cbn [fst snd] in *. rewrite Hres.
    destruct (close_cursor (world s)) as [[]|ec] eqn:Hcursor;
      [destruct (close_connection (world s)) as [[]|en] eqn:Hconn|];
      cbn [termination exit_status].
    + destruct (existsb tier_switch_failed (trace s)) eqn:Hfailed; simpl.
      * split; [by right|]. split; [|done].
        split; [done|]. intros (w' & [= <-] & Hno & _).
        rewrite Hrun in Hno. cbn [snd] in Hno. congruence.
      * split; [by left|]. split; [|done].
        split; [|done]. intros _. exists w. rewrite Hrun. done.
    + split; [by right|]. split; [|done].
      split; [done|]. intros (w' & [= <-] & _ & _ & Hc).
      rewrite Hrun in Hc. cbn [snd] in Hc. congruence.
    + split; [by right|]. split; [|done].
      split; [done|]. intros (w' & [= <-] & _ & Hc & _).
      rewrite Hrun in Hc. cbn [snd] in Hc. congruence.
  - cbn [termination exit_status history].
    split; [by right|]. split; [|done].
    split; [done|]. by intros (w' & [=] & _).
Qed.

Lemma main_exit_status_witness :
  exit_status (termination (main (Connector0 := open_db (Some Warehouse.busy_clinic))))
  = 0%Z
  ∧ history (main (Connector0 := open_db None)) = [].
Proof.
  split.
  - apply (proj1 (proj2 (main_exit_status
                           (Connector0 := open_db (Some Warehouse.busy_clinic))))).
    exists Warehouse.busy_clinic. by vm_compute.
  - by apply (proj2 (proj2 (main_exit_status (Connector0 := open_db None)))
                "Failed to connect to DB").
Defined.

(** X12.  Once the connection is opened, [main] always comes to close the
    cursor, whatever failed during the run, and the history of the process
    is that of the run.  The cursor counts as closed when [cursor.close()]
    returns, and the connection only when both calls return: when closing
    the cursor raises, the connection is left open and the process ends
    with status 1. *)
Theorem main_closes_the_session {W : Type} `{!QueryExecutor W} `{!PyRuntime W}
    `{!Connector W} (w : W) :
  connect_session main_config = Ok w →
  let run := run_pipeline main_config (init w) in
  history main = trace run.2
  ∧ (cursor_closed main = true ↔ close_cursor (world run.2) = Ok tt)
  ∧ (connection_closed main = true
     ↔ close_cursor (world run.2) = Ok tt
       ∧ close_connection (world run.2) = Ok tt)
  ∧ (∀ e, close_cursor (world run.2) = Raise e →
          connection_closed main = false ∧ termination main = Uncaught e).
Proof.
  intros Hconnect run. subst run. unfold main, connect. rewrite Hconnect.
  pose proof (run_pipeline_result main_config w) as Hres.
  destruct (run_pipeline main_config (init w)) as [r s].
  cbn [fst snd] in *. rewrite Hres.
  destruct (close_cursor (world s)) as [[]|ec];
    [destruct (close_connection (world s)) as [[]|en]|];
    cbn [history cursor_closed connection_closed termination].
  - split; [done|]. split; [done|]. split; [done|]. by intros e.
  - split; [done|]. split; [done|]. split; [|by intros e].
    split; [done|]. by intros [_ ?].
  - split; [done|]. split; [done|]. split.
    + split; [done|]. by intros [? _].
    + by intros e [= ->].
Qed.

Lemma main_closes_the_session_witness :
  cursor_closed
    (main (Connector0 := open_db (Some Warehouse.idle_clinic_without_cdc))) = true
  ∧ connection_closed
      (main (Connector0 := stuck_cursor Warehouse.busy_clinic)) = false.
Proof.
  split.
  - apply (proj1 (proj2 (main_closes_the_session
                           (Connector0 := open_db (Some Warehouse.idle_clinic_without_cdc))
                           Warehouse.idle_clinic_without_cdc eq_refl))).
    reflexivity.
  - apply (proj2 (proj2 (proj2 (main_closes_the_session
                                  (Connector0 := stuck_cursor Warehouse.busy_clinic)
                                  Warehouse.busy_clinic eq_refl)))
             "Cursor is busy").
    reflexivity.
Defined.
